(** * transit_gtfs: stops of map-matched transit trips on network links

    A shallow embedding of [transit_gtfs.py] (nmc-map-matcher) and the
    properties of its per-trip algorithm: selection of the longest
    contiguous run of matched positions, reconstruction of a small graph
    for that run, the walk that attaches the matched stops to the links
    of the run, and the frequency table of [main].

    Conventions of the embedding.
    - Python integers are [Z]; list indices follow Python's rules
      ([getitem], negative indices count from the end, an index out of
      range raises [IndexError]).
    - A Python float (distances, costs, coordinates) is the rational
      number it stands for, a [Q].  Comparisons of floats are exact; the
      one subtraction of the program (lines 192 and 195) is rounded to
      the nearest double as IEEE 754 prescribes ([float_sub]).  The
      floats read from the input are taken to be finite.
    - Dictionaries are [gmap]s, sets are [gset]s.
    - Exceptions are values of [exn]; code that may raise lives in
      [Result] (no state) or in [M] (the state of [dumpBusRouteLinks],
      kept when an exception propagates, as the prints already made are).
    - [print(..., file = outFile)] appends a [Row] to the state's
      [outFile]; [print(..., file = sys.stderr)] appends a [LogEvent] to
      its [stderr].  Messages are kept as structured values, not text. *)

From Stdlib Require Import ZArith QArith Qround Qpower Lqa Bool.
From stdpp Require Import gmap list sorting strings.

Local Open Scope Z_scope.

(** ** Exceptions and the two monads *)

Inductive exn : Type :=
  | IndexError
  | KeyError
  | UnboundLocalError
  | AttributeError
  | EngineError (* what the search of the path engine may raise *)
  | OutOfFuel.  (* not a Python exception: the bound of a modelled loop *)

Inductive Result (A : Type) : Type :=
  | Ok (a : A)
  | Raise (e : exn).
Arguments Ok {A} a.
Arguments Raise {A} e.

Definition rbind {A B} (m : Result A) (f : A -> Result B) : Result B :=
  match m with
  | Ok a => f a
  | Raise e => Raise e
  end.

Declare Scope result_scope.
Delimit Scope result_scope with result.
Notation "'do' x <- m ; k" := (rbind m (fun x => k))
  (at level 10, x name, m at level 100, k at level 200) : result_scope.

(** [l[i]] as Python evaluates it. *)
Definition getitem {A} (l : list A) (i : Z) : Result A :=
  let j := if i <? 0 then i + Z.of_nat (length l) else i in
  if j <? 0 then Raise IndexError
  else match l !! Z.to_nat j with
       | Some x => Ok x
       | None => Raise IndexError
       end.

(** [d[k]] for a dictionary. *)
Definition getkey {V} (d : gmap Z V) (k : Z) : Result V :=
  match d !! k with
  | Some v => Ok v
  | None => Raise KeyError
  end.

(** [l[s:e]] for bounds that are not negative. *)
Definition slice {A} (l : list A) (s e : Z) : list A :=
  take (Z.to_nat e - Z.to_nat s) (drop (Z.to_nat s) l).

Definition len {A} (l : list A) : Z := Z.of_nat (length l).

(** [a < b] on floats. *)
Definition Qltb (a b : Q) : bool := negb (Qle_bool b a).

(** [sys.float_info.min], the smallest positive normalised double. *)
Definition float_info_min : Q := 1 # (2 ^ 1022).

(** *** Subtraction of doubles

    A double is [m * 2^k] with [|m| < 2^53] and [-1074 <= k <= 971]; the
    difference of two doubles is the double nearest to their exact
    difference, the one of even [m] when two are equally near.  A
    difference too large for a double is an infinity, for which
    [2^1024] stands here (and [-2^1024]): the program only compares the
    result, and [2^1024] is above every double. *)
Definition float_infinity : Q := 2 ^ 1024.

(** The integer part of the binary logarithm of [a > 0]. *)
Definition log2_floor (a : Q) : Z :=
  let c := Z.log2 (Qnum a) - Z.log2 (Z.pos (Qden a)) in
  if Qle_bool (2 ^ c) a then c else c - 1.

(** The integer nearest to [y >= 0], the even one of two equally near. *)
Definition round_half_even (y : Q) : Z :=
  let f := Qfloor y in
  match (y - inject_Z f ?= 1 # 2)%Q with
  | Lt => f
  | Gt => f + 1
  | Eq => if Z.even f then f else f + 1
  end.

(** The double nearest to [a >= 0].  Up to [sys.float_info.min] the
    doubles are the multiples of [2^-1074]; above, those of [2^(e - 52)]
    where [2^e <= a < 2^(e + 1)]. *)
Definition float_round_abs (a : Q) : Q :=
  let k := if Qle_bool a float_info_min then -1074 else log2_floor a - 52 in
  let r := (inject_Z (round_half_even (a * 2 ^ (- k))) * 2 ^ k)%Q in
  if Qle_bool float_infinity r then float_infinity else r.

Definition float_round (x : Q) : Q :=
  if Qle_bool 0 x then float_round_abs x else (- float_round_abs (- x))%Q.

(** [a - b] on floats. *)
Definition float_sub (a b : Q) : Q := float_round (a - b).

(** ** Data model *)

Module GraphNode.
Record t : Type := mk { id : Z; gpsLat : Q; gpsLng : Q }.
End GraphNode.

Module GraphLink.
Record t : Type := mk { id : Z; origNode : GraphNode.t; destNode : GraphNode.t }.
End GraphLink.

(** [graph.PointOnLink(link, dist, nonPerpPenalty, refDist)]. *)
Module PointOnLink.
Record t : Type := mk
  { link : GraphLink.t; dist : Q; nonPerpPenalty : Q; refDist : Q }.
End PointOnLink.

(** [gtfs.ShapesEntry(shapeID, shapeSeq, lat, lng)]. *)
Module ShapesEntry.
Record t : Type := mk { shapeID : Z; shapeSeq : Z; lat : Q; lng : Q }.
End ShapesEntry.

(** [path_engine.PathEnd]: a matched position.  The predecessor reference
    [prevTreeNode] is written (lines 303, 326) but never read by this
    program and is left out. *)
Module PathEnd.
Record t : Type := mk
  { shapeEntry : ShapesEntry.t;
    pointOnLink : PointOnLink.t;
    restart : bool;
    totalCost : Q;
    totalDist : Q;
    routeInfo : list GraphLink.t }.
End PathEnd.

Module StopsEntry.
Record t : Type := mk
  { stopID : Z; gpsLat : Q; gpsLng : Q; pointX : Q; pointY : Q }.
End StopsEntry.

(** A stop time; [time] is a [datetime], counted in whole seconds. *)
Module StopTimesEntry.
Record t : Type := mk { stopSeq : Z; time : Z; stop : StopsEntry.t }.
End StopTimesEntry.

Module TripsEntry.
Record t : Type := mk { tripID : Z; shapeEntries : list ShapesEntry.t }.
End TripsEntry.

(** ** Step 1: the longest contiguous run (lines 175-204) *)

Module Seg.
Record t : Type := mk
  { startIndex : Z;
    curIndex : Z;
    linkCount : Z;
    totalLinks : Z;
    longestStart : Z;
    longestEnd : Z;
    longestDist : Q;
    longestLinkCount : Z }.
End Seg.

Section SegmentScan.
Variable treeNodes : list PathEnd.t.
Local Open Scope result_scope.

Definition seg_init : Seg.t :=
  Seg.mk (-1) 0 0 0 (-1) (len treeNodes) float_info_min 0.

(** The condition of line 187, with Python's short-circuit [or]. *)
Definition seg_at_boundary (s : Seg.t) : Result bool :=
  if (Seg.curIndex s =? len treeNodes) || (Seg.curIndex s =? 0) then Ok true
  else do nd <- getitem treeNodes (Seg.curIndex s); Ok (PathEnd.restart nd).

(** Lines 190-197: the interval that just ended against the best so far. *)
Definition seg_close (s : Seg.t) : Result Seg.t :=
  if (Seg.startIndex s <? Seg.curIndex s) && (0 <=? Seg.startIndex s) then
    do a <- getitem treeNodes (Seg.curIndex s - 1);
    do b <- getitem treeNodes (Seg.startIndex s);
    if Qltb (Seg.longestDist s)
         (float_sub (PathEnd.totalDist a) (PathEnd.totalDist b)) then
      Ok (Seg.mk (Seg.startIndex s) (Seg.curIndex s) 0 (Seg.totalLinks s)
            (Seg.startIndex s) (Seg.curIndex s)
            (float_sub (PathEnd.totalDist a) (PathEnd.totalDist b))
            (Seg.linkCount s))
    else Ok s
  else Ok s.

(** One pass through the body of the [while] of line 186. *)
Definition seg_body (s : Seg.t) : Result Seg.t :=
  do boundary <- seg_at_boundary s;
  do s1 <-
    (if boundary : bool then
       do s' <- seg_close
                  (Seg.mk (Seg.startIndex s) (Seg.curIndex s)
                     (Seg.linkCount s + 1) (Seg.totalLinks s + 1)
                     (Seg.longestStart s) (Seg.longestEnd s)
                     (Seg.longestDist s) (Seg.longestLinkCount s));
       Ok (Seg.mk (Seg.curIndex s') (Seg.curIndex s')
             (Seg.linkCount s') (Seg.totalLinks s')
             (Seg.longestStart s') (Seg.longestEnd s')
             (Seg.longestDist s') (Seg.longestLinkCount s'))
     else
       do nd <- getitem treeNodes (Seg.curIndex s);
       Ok (Seg.mk (Seg.startIndex s) (Seg.curIndex s)
             (Seg.linkCount s + len (PathEnd.routeInfo nd))
             (Seg.totalLinks s + len (PathEnd.routeInfo nd))
             (Seg.longestStart s) (Seg.longestEnd s)
             (Seg.longestDist s) (Seg.longestLinkCount s)));
  Ok (Seg.mk (Seg.startIndex s1) (Seg.curIndex s1 + 1)
        (Seg.linkCount s1) (Seg.totalLinks s1)
        (Seg.longestStart s1) (Seg.longestEnd s1)
        (Seg.longestDist s1) (Seg.longestLinkCount s1)).

(** [while curIndex <= len(treeNodes)]. *)
Fixpoint seg_loop (fuel : nat) (s : Seg.t) : Result Seg.t :=
  if Seg.curIndex s <=? len treeNodes then
    match fuel with
    | O => Raise OutOfFuel
    | S fuel' => do s' <- seg_body s; seg_loop fuel' s'
    end
  else Ok s.

Definition segment_scan : Result Seg.t :=
  seg_loop (S (length treeNodes)) seg_init.
End SegmentScan.

(** ** The network graph *)

(** Modelled from the spec: [graph.GraphLib] of nmc_mm_lib is not part of
    the sources at hand.  The spec describes it as a node and link
    collection keyed by original identifiers; [addNode] and [addLink]
    file their argument under its identifier. *)
Module GraphLib.
Record t : Type := mk
  { latCtr : Q;
    lngCtr : Q;
    nodeMap : gmap Z GraphNode.t;
    linkMap : gmap Z GraphLink.t }.

Definition new (latCtr lngCtr : Q) : t := mk latCtr lngCtr ∅ ∅.

Definition addNode (g : t) (n : GraphNode.t) : t :=
  mk (latCtr g) (lngCtr g) (<[GraphNode.id n := n]> (nodeMap g)) (linkMap g).

Definition addLink (g : t) (l : GraphLink.t) : t :=
  mk (latCtr g) (lngCtr g) (nodeMap g) (<[GraphLink.id l := l]> (linkMap g)).
End GraphLib.

(** ** Output, log and state of [dumpBusRouteLinks] *)

(** Lines of [public.bus_route_link.csv]. *)
Inductive Row : Type :=
  | MetaHeader (userName networkName : string)      (* _outHeader *)
  | ColumnNames                                     (* line 147 *)
  | RowStop (route sequence link stop dwelltime : Z)  (* line 362 *)
  | RowNoStop (route sequence link : Z).            (* line 374 *)

(** Messages on [sys.stderr]. *)
Inductive LogEvent : Type :=
  | InfoRoute (tripID : Z)                                         (* 170 *)
  | WarnTrimmed (shapeID seqFrom seqTo longestLinkCount totalLinks : Z) (* 209 *)
  | WarnLinkNotFound (linkID : Z)                                  (* 249 *)
  | InfoMapping                                                    (* 276 *)
  | WarnDuplicate (matchCtr tripID linkID stopID stopSeq : Z)      (* 357 *)
  | WarnConflict (stopID attempted assigned : Z)                   (* 367 *)
  | WarnUnmatched (tripID stopID stopSeq : Z)                      (* 382 *)
  | WarnNoLinks (tripID : Z)                                       (* 398 *)
  | InfoProblemReport.                                             (* 402 *)

(** An entry of the problem report: a [PathEnd] rebuilt over the original
    network (lines 314-328), or the dummy of lines 389-396, whose
    [PointOnLink(None, 0)] has no link. *)
Module ReportNode.
Inductive t : Type :=
  | Matched (node : PathEnd.t)
  | Dummy (shapeEntry : ShapesEntry.t) (dist pointX pointY : Q) (restart : bool).

Definition restart (n : t) : bool :=
  match n with
  | Matched node => PathEnd.restart node
  | Dummy _ _ _ _ r => r
  end.

Definition shapeEntry (n : t) : ShapesEntry.t :=
  match n with
  | Matched node => PathEnd.shapeEntry node
  | Dummy se _ _ _ _ => se
  end.
End ReportNode.

Definition DWELLTIME_DEFAULT : Z := 0.

(** What [dumpBusRouteLinks] mutates.  [vistaNode] is the local of that
    name: Python locals have function scope, so the value bound while one
    trip is processed is still there for the next. *)
Record State : Type := mkState
  { ret : gmap Z PointOnLink.t;
    problemReportNodes : gmap Z (gmap Z ReportNode.t);
    outFile : list Row;
    stderr : list LogEvent;
    vistaNode : option GraphNode.t }.

Definition M (A : Type) : Type := State -> State * Result A.

Definition unit_M {A} (a : A) : M A := fun st => (st, Ok a).

Definition bind_M {A B} (m : M A) (f : A -> M B) : M B :=
  fun st =>
    match m st with
    | (st', Ok a) => f a st'
    | (st', Raise e) => (st', Raise e)
    end.

Definition lift {A} (r : Result A) : M A := fun st => (st, r).

Declare Scope state_scope.
Delimit Scope state_scope with state.
Notation "'do' x <- m ; k" := (bind_M m (fun x => k))
  (at level 10, x name, m at level 100, k at level 200) : state_scope.
Notation "m ;; k" := (bind_M m (fun _ => k))
  (at level 100, k at level 200, right associativity) : state_scope.

Definition emit (r : Row) : M unit :=
  fun st => (mkState (ret st) (problemReportNodes st) (outFile st ++ [r])
               (stderr st) (vistaNode st), Ok tt).

Definition log (e : LogEvent) : M unit :=
  fun st => (mkState (ret st) (problemReportNodes st) (outFile st)
               (stderr st ++ [e]) (vistaNode st), Ok tt).

Definition get_ret : M (gmap Z PointOnLink.t) := fun st => (st, Ok (ret st)).

Definition set_ret (r : gmap Z PointOnLink.t) : M unit :=
  fun st => (mkState r (problemReportNodes st) (outFile st) (stderr st)
               (vistaNode st), Ok tt).

Definition get_problemReportNodes : M (gmap Z (gmap Z ReportNode.t)) :=
  fun st => (st, Ok (problemReportNodes st)).

Definition set_problemReportNodes (p : gmap Z (gmap Z ReportNode.t)) : M unit :=
  fun st => (mkState (ret st) p (outFile st) (stderr st) (vistaNode st), Ok tt).

(** Reading a local that was never bound raises [UnboundLocalError]. *)
Definition get_vistaNode : M GraphNode.t :=
  fun st => (st, match vistaNode st with
                 | Some n => Ok n
                 | None => Raise UnboundLocalError
                 end).

Definition set_vistaNode (n : GraphNode.t) : M unit :=
  fun st => (mkState (ret st) (problemReportNodes st) (outFile st) (stderr st)
               (Some n), Ok tt).

(** [for x in l: acc = f acc x]. *)
Fixpoint for_M {A B} (f : B -> A -> M B) (l : list A) (acc : B) : M B :=
  match l with
  | [] => unit_M acc
  | x :: l' => bind_M (f acc x) (for_M f l')
  end.

Fixpoint for_R {A B} (f : B -> A -> Result B) (l : list A) (acc : B) : Result B :=
  match l with
  | [] => Ok acc
  | x :: l' => rbind (f acc x) (for_R f l')
  end.

(** ** Step 2: the small graph of the selected run (lines 223-273) *)

(** The locals of the reconstruction.  [addLinkCalls] is not a variable of
    the program: it lists, in order, the links handed to
    [vistaSubset.addLink]. *)
Module Build.
Record t : Type := mk
  { vistaSubset : GraphLib.t;
    vistaNodePrior : GraphNode.t;
    outLinkIDList : list Z;
    addLinkCalls : list GraphLink.t }.
End Build.

Section Subgraph.
Variable vistaNetwork : GraphLib.t.
Local Open Scope state_scope.

Definition copy_node (n : GraphNode.t) : GraphNode.t :=
  GraphNode.mk (GraphNode.id n) (GraphNode.gpsLat n) (GraphNode.gpsLng n).

(** Lines 248-266, the body of [for link in ourGTFSNode.routeInfo]. *)
Definition build_link (b : Build.t) (link : GraphLink.t) : M Build.t :=
  match GraphLib.linkMap vistaNetwork !! GraphLink.id link with
  | None => log (WarnLinkNotFound (GraphLink.id link));; unit_M b
  | Some origVistaLink =>
      let orig := GraphLink.origNode origVistaLink in
      let '(sub, vistaNode) :=
        match GraphLib.nodeMap (Build.vistaSubset b) !! GraphNode.id orig with
        | None => (GraphLib.addNode (Build.vistaSubset b) (copy_node orig),
                   copy_node orig)
        | Some n => (Build.vistaSubset b, n)
        end in
      set_vistaNode vistaNode;;
      do lastID <- lift (getitem (Build.outLinkIDList b) (-1));
      match GraphLib.linkMap sub !! lastID with
      | None =>
          let l := GraphLink.mk lastID (Build.vistaNodePrior b) vistaNode in
          unit_M (Build.mk (GraphLib.addLink sub l) vistaNode
                    (Build.outLinkIDList b ++ [GraphLink.id link])
                    (Build.addLinkCalls b ++ [l]))
      | Some _ =>
          unit_M (Build.mk sub vistaNode
                    (Build.outLinkIDList b ++ [GraphLink.id link])
                    (Build.addLinkCalls b))
      end
  end.

(** The test of lines 242-243. *)
Definition no_new_links (firstLinkID : Z) (b : Build.t) (nd : PathEnd.t)
  : Result bool :=
  (if len (PathEnd.routeInfo nd) <? 1 then Ok true
   else if len (Build.outLinkIDList b) =? 1 then
     do l0 <- getitem (PathEnd.routeInfo nd) 0;
     Ok (GraphLink.id l0 =? firstLinkID)
   else Ok false)%result.

(** Lines 238-266, the body of [for ourGTFSNode in ourGTFSNodes]. *)
Definition build_node (firstLinkID : Z) (b : Build.t) (nd : PathEnd.t)
  : M Build.t :=
  do skip <- lift (no_new_links firstLinkID b nd);
  if skip : bool then unit_M b
  else for_M build_link (PathEnd.routeInfo nd) b.

(** Lines 268-273; [ourGTFSNode] is the last node of the loop. *)
Definition build_finish (b : Build.t) (ourGTFSNode : PathEnd.t) : M Build.t :=
  let dest := GraphLink.destNode
                (PointOnLink.link (PathEnd.pointOnLink ourGTFSNode)) in
  do sub <-
    match GraphLib.nodeMap (Build.vistaSubset b) !! GraphNode.id dest with
    | None => set_vistaNode (copy_node dest);;
              unit_M (GraphLib.addNode (Build.vistaSubset b) (copy_node dest))
    | Some _ => unit_M (Build.vistaSubset b)
    end;
  do lastID <- lift (getitem (Build.outLinkIDList b) (-1));
  match GraphLib.linkMap sub !! lastID with
  | None =>
      do vistaNode <- get_vistaNode;
      let l := GraphLink.mk lastID (Build.vistaNodePrior b) vistaNode in
      unit_M (Build.mk (GraphLib.addLink sub l) (Build.vistaNodePrior b)
                (Build.outLinkIDList b) (Build.addLinkCalls b ++ [l]))
  | Some _ =>
      unit_M (Build.mk sub (Build.vistaNodePrior b) (Build.outLinkIDList b)
                (Build.addLinkCalls b))
  end.

Definition build_subgraph (ourGTFSNodes : list PathEnd.t) : M Build.t :=
  do first <- lift (getitem ourGTFSNodes 0);
  let firstLink := PointOnLink.link (PathEnd.pointOnLink first) in
  let vistaNodePrior := copy_node (GraphLink.origNode firstLink) in
  let vistaSubset :=
    GraphLib.addNode
      (GraphLib.new (GraphLib.latCtr vistaNetwork) (GraphLib.lngCtr vistaNetwork))
      vistaNodePrior in
  do b <- for_M (build_node (GraphLink.id firstLink)) ourGTFSNodes
            (Build.mk vistaSubset vistaNodePrior [GraphLink.id firstLink] []);
  do ourGTFSNode <- lift (getitem ourGTFSNodes (-1));
  build_finish b ourGTFSNode.
End Subgraph.

(** ** Step 3: stops of one link (lines 337-354) *)

Module Scan.
Record t : Type := mk
  { bestTreeEntry : option PathEnd.t;
    curResultIndex : Z;
    matchCtr : Z;
    resultIndex : Z;
    foundStopSet : gset Z }.
End Scan.

Definition link_id_of (e : PathEnd.t) : Z :=
  GraphLink.id (PointOnLink.link (PathEnd.pointOnLink e)).

Definition refDist_of (e : PathEnd.t) : Q :=
  PointOnLink.refDist (PathEnd.pointOnLink e).

Definition shapeSeq_of (e : PathEnd.t) : Z :=
  ShapesEntry.shapeSeq (PathEnd.shapeEntry e).

Section LinkScan.
Variable resultTree : list PathEnd.t.
Variable linkID : Z.
Local Open Scope result_scope.

(** Lines 344-349. *)
Definition scan_match (s : Scan.t) : Result Scan.t :=
  do e <- getitem resultTree (Scan.curResultIndex s);
  if link_id_of e =? linkID then
    do c <- getitem resultTree (Scan.resultIndex s);
    let best :=
      match Scan.bestTreeEntry s with
      | None => c
      | Some b => if Qltb (refDist_of c) (refDist_of b) then c else b
      end in
    Ok (Scan.mk (Some best) (Scan.curResultIndex s) (Scan.matchCtr s + 1)
          (Scan.curResultIndex s + 1)
          ({[shapeSeq_of e]} ∪ Scan.foundStopSet s))
  else Ok s.

(** The test of line 351. *)
Definition scan_continue (s : Scan.t) : Result bool :=
  if Scan.matchCtr s =? 0 then Ok true
  else if Scan.curResultIndex s <? len resultTree then
    do e <- getitem resultTree (Scan.resultIndex s);
    Ok (link_id_of e =? linkID)
  else Ok false.

(** [while curResultIndex < len(resultTree)], lines 343-354. *)
Fixpoint scan_loop (fuel : nat) (s : Scan.t) : Result Scan.t :=
  if Scan.curResultIndex s <? len resultTree then
    match fuel with
    | O => Raise OutOfFuel
    | S fuel' =>
        do s1 <- scan_match s;
        let s2 := Scan.mk (Scan.bestTreeEntry s1) (Scan.curResultIndex s1 + 1)
                    (Scan.matchCtr s1) (Scan.resultIndex s1)
                    (Scan.foundStopSet s1) in
        do continue <- scan_continue s2;
        if continue : bool then scan_loop fuel' s2 else Ok s2
    end
  else Ok s.

Definition scan_link (resultIndex : Z) (foundStopSet : gset Z) : Result Scan.t :=
  scan_loop (length resultTree) (Scan.mk None resultIndex 0 resultIndex foundStopSet).
End LinkScan.

(** ** Step 3: the walk over the output links (lines 331-375) *)

Module Walk.
Record t : Type := mk
  { resultIndex : Z; foundStopSet : gset Z; outSeqCtr : Z }.
End Walk.

Definition stopID_of (st : StopTimesEntry.t) : Z :=
  StopsEntry.stopID (StopTimesEntry.stop st).

Section LinkWalk.
Variable tripID : Z.
Variable resultTree : list PathEnd.t.
Variable gtfsStopsLookup : gmap Z StopTimesEntry.t.
Local Open Scope state_scope.

(** Lines 364-371: the best match goes to [ret] unless the stop is
    already there on another link. *)
Definition assign_stop (stopID : Z) (bestTreeEntry : PathEnd.t) : M unit :=
  do r <- get_ret;
  match r !! stopID with
  | Some p =>
      if negb (GraphLink.id (PointOnLink.link p) =? link_id_of bestTreeEntry)
      then log (WarnConflict stopID (link_id_of bestTreeEntry)
                  (GraphLink.id (PointOnLink.link p)))
      else set_ret (<[stopID := PathEnd.pointOnLink bestTreeEntry]> r)
  | None => set_ret (<[stopID := PathEnd.pointOnLink bestTreeEntry]> r)
  end.

(** [gtfsStopsLookup[bestTreeEntry.shapeEntry.shapeSeq]]. *)
Definition best_stop (bestTreeEntry : option PathEnd.t)
  : Result (PathEnd.t * StopTimesEntry.t) :=
  match bestTreeEntry with
  | None => Raise AttributeError
  | Some b =>
      match gtfsStopsLookup !! shapeSeq_of b with
      | Some st => Ok (b, st)
      | None => Raise KeyError
      end
  end.

(** Lines 336-375, the body of [for linkID in outLinkIDList]. *)
Definition walk_link (w : Walk.t) (linkID : Z) : M Walk.t :=
  do s <- lift (scan_link resultTree linkID (Walk.resultIndex w)
                  (Walk.foundStopSet w));
  (if 1 <? Scan.matchCtr s then
     do bs <- lift (best_stop (Scan.bestTreeEntry s));
     log (WarnDuplicate (Scan.matchCtr s) tripID linkID (stopID_of bs.2)
            (shapeSeq_of bs.1))
   else unit_M tt);;
  (if 0 <? Scan.matchCtr s then
     do bs <- lift (best_stop (Scan.bestTreeEntry s));
     emit (RowStop tripID (Walk.outSeqCtr w) linkID (stopID_of bs.2)
             DWELLTIME_DEFAULT);;
     assign_stop (stopID_of bs.2) bs.1
   else emit (RowNoStop tripID (Walk.outSeqCtr w) linkID));;
  unit_M (Walk.mk (Scan.resultIndex s) (Scan.foundStopSet s)
            (Walk.outSeqCtr w + 1)).

Definition walk_links (outLinkIDList : list Z) (longestStart : Z) : M Walk.t :=
  for_M walk_link outLinkIDList (Walk.mk 0 ∅ longestStart).
End LinkWalk.

(** ** The trips (lines 163-413) *)

(** The locals of one trip that the statements below refer to; the
    program itself keeps nothing of a trip but its effects. *)
Module Trip.
Record t : Type := mk
  { shapeID : Z;
    treeNodes : list PathEnd.t;
    longestStart : Z;
    longestEnd : Z;
    stopTimes : list StopTimesEntry.t;
    outLinkIDList : list Z;
    resultTree : list PathEnd.t;
    foundStopSet : gset Z }.
End Trip.

(** [del l[-1]] and [del l[0]]. *)
Definition del_last {A} (l : list A) : Result (list A) :=
  match l with
  | [] => Raise IndexError
  | _ => Ok (removelast l)
  end.

Definition del_first {A} (l : list A) : Result (list A) :=
  match l with
  | [] => Raise IndexError
  | _ :: l' => Ok l'
  end.

Section Trips.
(** The module-level flag set by [-p]. *)
Variable problemReport : bool.
Variable gtfsTrips : gmap Z TripsEntry.t.
Variable gtfsNodes : gmap Z (list PathEnd.t).
(** [dict<TripsEntry, list<StopTimesEntry>>]; a trip is identified by
    its [tripID]. *)
Variable gtfsStopTimes : gmap Z (list StopTimesEntry.t).
Variable vistaNetwork : GraphLib.t.
(** [pathEngine.constructPath], the search of nmc_mm_lib: any function
    of the query points and the graph, which may raise. *)
Variable constructPath : list ShapesEntry.t -> GraphLib.t -> Result (list PathEnd.t).
Local Open Scope state_scope.

(** Lines 312-328: one result entry in terms of the original network. *)
Definition revise_node (shapeID : Z) (revisedNodeList : gmap Z ReportNode.t)
    (stopNode : PathEnd.t) : Result (gmap Z ReportNode.t) :=
  (let newShape :=
     ShapesEntry.mk shapeID (shapeSeq_of stopNode)
       (ShapesEntry.lat (PathEnd.shapeEntry stopNode))
       (ShapesEntry.lng (PathEnd.shapeEntry stopNode)) in
   do origLink <- getkey (GraphLib.linkMap vistaNetwork) (link_id_of stopNode);
   let newPointOnLink :=
     PointOnLink.mk origLink
       (PointOnLink.dist (PathEnd.pointOnLink stopNode))
       (PointOnLink.nonPerpPenalty (PathEnd.pointOnLink stopNode))
       (refDist_of stopNode) in
   do routeInfo <-
     for_R (fun acc link =>
              do l <- getkey (GraphLib.linkMap vistaNetwork) (GraphLink.id link);
              Ok (acc ++ [l]))
       (PathEnd.routeInfo stopNode) [];
   Ok (<[shapeSeq_of stopNode :=
           ReportNode.Matched
             (PathEnd.mk newShape newPointOnLink false
                (PathEnd.totalCost stopNode) (PathEnd.totalDist stopNode)
                routeInfo)]> revisedNodeList))%result.

(** Lines 378-396, the body of [for gtfsStopTime in stopTimes]. *)
Definition report_stop (tripID shapeID : Z) (foundStopSet : gset Z)
    (_ : unit) (gtfsStopTime : StopTimesEntry.t) : M unit :=
  let stopSeq := StopTimesEntry.stopSeq gtfsStopTime in
  let stop := StopTimesEntry.stop gtfsStopTime in
  if bool_decide (stopSeq ∈ foundStopSet) then unit_M tt
  else
    log (WarnUnmatched tripID (StopsEntry.stopID stop) stopSeq);;
    if problemReport then
      do prn <- get_problemReportNodes;
      do revisedNodeList <- lift (getkey prn shapeID);
      match revisedNodeList !! stopSeq with
      | Some _ => unit_M tt
      | None =>
          let newShape :=
            ShapesEntry.mk shapeID stopSeq (StopsEntry.gpsLat stop)
              (StopsEntry.gpsLng stop) in
          let newNode :=
            ReportNode.Dummy newShape 0 (StopsEntry.pointX stop)
              (StopsEntry.pointY stop) true in
          set_problemReportNodes
            (<[shapeID := <[stopSeq := newNode]> revisedNodeList]> prn)
      end
    else unit_M tt.

Definition report_unmatched (tripID shapeID : Z) (foundStopSet : gset Z)
    (stopTimes : list StopTimesEntry.t) : M unit :=
  for_M (report_stop tripID shapeID foundStopSet) stopTimes tt.

(** The query points of lines 277-293: a dummy at the start of the run,
    the stops, a dummy at its end. *)
Definition stop_shape (st : StopTimesEntry.t) : ShapesEntry.t :=
  ShapesEntry.mk (-1) (StopTimesEntry.stopSeq st)
    (StopsEntry.gpsLat (StopTimesEntry.stop st))
    (StopsEntry.gpsLng (StopTimesEntry.stop st)).

Definition query_shapes (first last : PathEnd.t)
    (stopTimes : list StopTimesEntry.t) : list ShapesEntry.t :=
  let orig := GraphLink.origNode (PointOnLink.link (PathEnd.pointOnLink first)) in
  let dest := GraphLink.destNode (PointOnLink.link (PathEnd.pointOnLink last)) in
  [ShapesEntry.mk (-1) (-1) (GraphNode.gpsLat orig) (GraphNode.gpsLng orig)]
    ++ map stop_shape stopTimes
    ++ [ShapesEntry.mk (-1) (-1) (GraphNode.gpsLat dest) (GraphNode.gpsLng dest)].

Definition stops_lookup (stopTimes : list StopTimesEntry.t)
  : gmap Z StopTimesEntry.t :=
  foldl (fun m st => <[StopTimesEntry.stopSeq st := st]> m) ∅ stopTimes.

(** Lines 165-398, the body of [for tripID in tripIDs].  [None] is
    returned for a trip that is passed over. *)
Definition process_trip (tripID : Z) : M (option Trip.t) :=
  do trip <- lift (getkey gtfsTrips tripID);
  do shape0 <- lift (getitem (TripsEntry.shapeEntries trip) 0);
  let shapeID := ShapesEntry.shapeID shape0 in
  match gtfsNodes !! shapeID with
  | None => unit_M None
  | Some treeNodes =>
      log (InfoRoute tripID);;
      do seg <- lift (segment_scan treeNodes);
      let longestStart := Seg.longestStart seg in
      let longestEnd := Seg.longestEnd seg in
      if 0 <=? longestStart then
        (if (0 <? longestStart) || (longestEnd <? len treeNodes) then
           do a <- lift (getitem treeNodes longestStart);
           do b <- lift (getitem treeNodes (longestEnd - 1));
           log (WarnTrimmed (ShapesEntry.shapeID (PathEnd.shapeEntry a))
                  (shapeSeq_of a) (shapeSeq_of b)
                  (Seg.longestLinkCount seg) (Seg.totalLinks seg))
         else unit_M tt);;
        do stopTimes <- lift (getkey gtfsStopTimes (TripsEntry.tripID trip));
        let ourGTFSNodes := slice treeNodes longestStart longestEnd in
        do b <- build_subgraph vistaNetwork ourGTFSNodes;
        log InfoMapping;;
        do first <- lift (getitem ourGTFSNodes 0);
        do last <- lift (getitem ourGTFSNodes (-1));
        let gtfsShapes := query_shapes first last stopTimes in
        let gtfsStopsLookup := stops_lookup stopTimes in
        do found <- lift (constructPath gtfsShapes (Build.vistaSubset b));
        do stripped <- lift (del_last found);
        do resultTree <- lift (del_first stripped);
        (if problemReport then
           do revisedNodeList <- lift (for_R (revise_node shapeID) resultTree ∅);
           do prn <- get_problemReportNodes;
           set_problemReportNodes (<[shapeID := revisedNodeList]> prn)
         else unit_M tt);;
        do w <- walk_links tripID resultTree gtfsStopsLookup
                  (Build.outLinkIDList b) longestStart;
        report_unmatched tripID shapeID (Walk.foundStopSet w) stopTimes;;
        unit_M (Some (Trip.mk shapeID treeNodes longestStart longestEnd stopTimes
                        (Build.outLinkIDList b) resultTree
                        (Walk.foundStopSet w)))
      else
        log (WarnNoLinks tripID);;
        unit_M None
  end.

(** [for tripID in tripIDs], line 165. *)
Definition run_trips (tripIDs : list Z) : M unit :=
  for_M (fun _ tripID => process_trip tripID;; unit_M tt) tripIDs tt.

(** [tripIDs = gtfsTrips.keys(); tripIDs.sort()]. *)
Definition sorted_keys {V} (d : gmap Z V) : list Z :=
  merge_sort Z.le (map fst (map_to_list d)).

Definition initial_state : State := mkState ∅ ∅ [] [] None.

(** Lines 403-410: the lists given to [problem_report.problemReport]. *)
Definition problemReportNodesOut (prn : gmap Z (gmap Z ReportNode.t))
  : gmap Z (list ReportNode.t) :=
  (fun nodes => omap (fun seq => nodes !! seq) (sorted_keys nodes)) <$> prn.

Definition dumpBusRouteLinks (userName networkName : string)
  : State * Result (gmap Z PointOnLink.t) :=
  (emit (MetaHeader userName networkName);;
   emit ColumnNames;;
   run_trips (sorted_keys gtfsTrips);;
   (if problemReport then log InfoProblemReport else unit_M tt);;
   get_ret) initial_state.
End Trips.

(** ** The frequency table of [main] (lines 516-522) *)

(** A line of [public.bus_frequency.csv]. *)
Record FreqRow : Type := mkFreqRow
  { route : Z; period : Z; frequency : Z; offsettime : Z; preemption : Z }.

(** Lines 520-522 on times in seconds: [int(x / 86400)] truncates, and
    [timedelta(days = d)] is [d * 86400] seconds. *)
Definition offset_seconds (stopTime refTime : Z) : Z :=
  let stopTime' :=
    if stopTime <? refTime
    then stopTime + (Z.quot (refTime - stopTime) 86400 + 1) * 86400
    else stopTime in
  stopTime' - refTime.

Section Frequency.
Variable gtfsTrips : gmap Z TripsEntry.t.
Variable gtfsStopTimes : gmap Z (list StopTimesEntry.t).
Variable refTime : Z.
Local Open Scope result_scope.

Definition frequency_row (rows : list FreqRow) (tripID : Z)
  : Result (list FreqRow) :=
  do trip <- getkey gtfsTrips tripID;
  do stopTimes <- getkey gtfsStopTimes (TripsEntry.tripID trip);
  do first <- getitem stopTimes 0;
  Ok (rows ++ [mkFreqRow tripID 1 86400
                 (offset_seconds (StopTimesEntry.time first) refTime) 0]).

Definition dumpBusFrequency : Result (list FreqRow) :=
  for_R frequency_row (sorted_keys gtfsTrips) [].
End Frequency.

(** ** A small network and two trips, for the examples *)

Module Demo.
Definition node (i : Z) : GraphNode.t := GraphNode.mk i (inject_Z i) 0.

Definition L10 := GraphLink.mk 10 (node 1) (node 2).
Definition L11 := GraphLink.mk 11 (node 2) (node 3).
Definition L12 := GraphLink.mk 12 (node 3) (node 4).
Definition L13 := GraphLink.mk 13 (node 4) (node 5).
(** Two links that form a loop. *)
Definition L20 := GraphLink.mk 20 (node 6) (node 7).
Definition L21 := GraphLink.mk 21 (node 7) (node 6).

Definition links : list GraphLink.t := [L10; L11; L12; L13; L20; L21].

Definition vistaNetwork : GraphLib.t :=
  foldl GraphLib.addLink (GraphLib.new 0 0) links.

(** A matched position of shape [shape] on [link]. *)
Definition position (shape seq : Z) (link : GraphLink.t) (restart : bool)
    (totalDist : Q) : PathEnd.t :=
  PathEnd.mk (ShapesEntry.mk shape seq 0 0) (PointOnLink.mk link 0 0 0)
    restart 0 totalDist [link].

(** A stop matched on [link] at reference distance [refDist]. *)
Definition matched (seq : Z) (link : GraphLink.t) (refDist : Q) : PathEnd.t :=
  PathEnd.mk (ShapesEntry.mk (-1) seq 0 0) (PointOnLink.mk link 0 0 refDist)
    false 0 0 [].

Definition stop_time (seq stopID : Z) : StopTimesEntry.t :=
  StopTimesEntry.mk seq (3600 * seq) (StopsEntry.mk stopID 0 0 0 0).

(** Trips 1 and 4 run over links 10 to 13 (shape 100); trip 2 goes
    round the loop 20, 21, 20 (shape 200) and serves stop 601 on both
    passes over link 20; trip 3 has a shape without a path. *)
Definition gtfsTrips : gmap Z TripsEntry.t :=
  <[1 := TripsEntry.mk 1 [ShapesEntry.mk 100 0 0 0]]>
  (<[2 := TripsEntry.mk 2 [ShapesEntry.mk 200 0 0 0]]>
  (<[3 := TripsEntry.mk 3 [ShapesEntry.mk 300 0 0 0]]>
  (<[4 := TripsEntry.mk 4 [ShapesEntry.mk 100 0 0 0]]> ∅))).

Definition treeNodes1 : list PathEnd.t :=
  [position 100 0 L10 true 0; position 100 1 L11 false 5;
   position 100 2 L12 false 9; position 100 3 L13 false 12].

Definition treeNodes2 : list PathEnd.t :=
  [position 200 0 L20 true 0; position 200 1 L21 false 4;
   position 200 2 L20 false 8].

Definition gtfsNodes : gmap Z (list PathEnd.t) :=
  <[100 := treeNodes1]> (<[200 := treeNodes2]> ∅).

Definition gtfsStopTimes : gmap Z (list StopTimesEntry.t) :=
  <[1 := [stop_time 1 501; stop_time 2 502; stop_time 3 503; stop_time 7 507]]>
  (<[2 := [stop_time 1 601; stop_time 2 602; stop_time 3 601]]>
  (<[3 := [stop_time 1 701]]>
  (<[4 := [stop_time 1 501; stop_time 2 504]]> ∅))).

Definition dummy_end : PathEnd.t := matched (-1) L10 0.

(** A search that puts the stops of trip 1 on links 10, 11 and 11 (and
    finds nothing for stop 7), those of trip 4 on links 11 and 12, and
    those of trip 2 on links 20, 21 and 20.  The trips are told apart
    by their number of query points. *)
Definition constructPath (gtfsShapes : list ShapesEntry.t) (g : GraphLib.t)
  : Result (list PathEnd.t) :=
  if (length gtfsShapes =? 6)%nat then
    Ok [dummy_end; matched 1 L10 4; matched 2 L11 3; matched 3 L11 2; dummy_end]
  else if (length gtfsShapes =? 4)%nat then
    Ok [dummy_end; matched 1 L11 1; matched 2 L12 1; dummy_end]
  else
    Ok [dummy_end; matched 1 L20 1; matched 2 L21 1; matched 3 L20 1; dummy_end].

(** A path of a single matched position. *)
Definition single_position : list PathEnd.t := [position 400 0 L10 true 0].

(** What the search may return for trip 2 when the bus passes link 20
    without a stop, serves stop 1 on link 21 and stops 2 and 3 on its
    second pass over link 20. *)
Definition second_pass : list PathEnd.t :=
  [matched 1 L21 1; matched 2 L20 3; matched 3 L20 2].

Definition stopTimes_second_pass : gmap Z (list StopTimesEntry.t) :=
  <[2 := [stop_time 1 601; stop_time 2 602; stop_time 3 603]]> ∅.

Definition search_second_pass (gtfsShapes : list ShapesEntry.t)
    (g : GraphLib.t) : Result (list PathEnd.t) :=
  Ok ([dummy_end] ++ second_pass ++ [dummy_end]).

Definition process (problemReport : bool) (tripID : Z) : M (option Trip.t) :=
  process_trip problemReport gtfsTrips gtfsNodes gtfsStopTimes vistaNetwork
    constructPath tripID.

Definition run (problemReport : bool) (tripIDs : list Z) : M unit :=
  run_trips problemReport gtfsTrips gtfsNodes gtfsStopTimes vistaNetwork
    constructPath tripIDs.

(** The state once trip 1 is done. *)
Definition after_trip1 : State := (process false 1 initial_state).1.
End Demo.

(** ** Runs of a matched-position sequence

    The vocabulary in which the result of Step 1 is stated: the
    boundaries of a sequence are its two ends and the positions flagged
    [restart]; a run lies between two successive boundaries. *)

Definition is_boundary (treeNodes : list PathEnd.t) (i : Z) : bool :=
  (i =? 0) || (i =? len treeNodes) ||
  ((0 <? i) &&
   match treeNodes !! Z.to_nat i with
   | Some nd => PathEnd.restart nd
   | None => false
   end).

Definition is_run (treeNodes : list PathEnd.t) (s e : Z) : Prop :=
  0 <= s < e /\ e <= len treeNodes /\
  is_boundary treeNodes s = true /\ is_boundary treeNodes e = true /\
  forall i, s < i < e -> is_boundary treeNodes i = false.

Definition totalDist_at (treeNodes : list PathEnd.t) (i : Z) : Q :=
  match treeNodes !! Z.to_nat i with
  | Some nd => PathEnd.totalDist nd
  | None => 0%Q
  end.

(** The distance between the first and the last position of the run from
    [s] to [e], exactly. *)
Definition span (treeNodes : list PathEnd.t) (s e : Z) : Q :=
  (totalDist_at treeNodes (e - 1) - totalDist_at treeNodes s)%Q.

(** [treeNodes[e - 1].totalDist - treeNodes[s].totalDist] as the program
    computes it, in doubles. *)
Definition float_span (treeNodes : list PathEnd.t) (s e : Z) : Q :=
  float_sub (totalDist_at treeNodes (e - 1)) (totalDist_at treeNodes s).

(** The scan has selected the whole sequence. *)
Definition selects_whole (treeNodes : list PathEnd.t) : Prop :=
  exists seg, segment_scan treeNodes = Ok seg /\
    Seg.longestStart seg = 0 /\ Seg.longestEnd seg = len treeNodes.

(** What the scan of Step 1 knows, once the runs that end at or before
    [upto] have been compared. *)
Definition best_so_far (treeNodes : list PathEnd.t) (s : Seg.t) (upto : Z) : Prop :=
  (Seg.longestStart s = -1 /\ Seg.longestDist s = float_info_min /\
   forall a b, is_run treeNodes a b -> b <= upto ->
     (float_span treeNodes a b <= float_info_min)%Q)
  \/
  (is_run treeNodes (Seg.longestStart s) (Seg.longestEnd s) /\
   Seg.longestEnd s <= upto /\
   Seg.longestDist s
     = float_span treeNodes (Seg.longestStart s) (Seg.longestEnd s) /\
   (float_info_min < Seg.longestDist s)%Q /\
   forall a b, is_run treeNodes a b -> b <= upto ->
     (float_span treeNodes a b <= Seg.longestDist s)%Q /\
     (a < Seg.longestStart s -> (float_span treeNodes a b < Seg.longestDist s)%Q)).

(** The invariant of the [while] loop of Step 1 when [curIndex] is [c]. *)
Definition seg_inv (treeNodes : list PathEnd.t) (c : Z) (s : Seg.t) : Prop :=
  Seg.curIndex s = c /\
  (c = 0 -> Seg.startIndex s = -1) /\
  (0 < c -> 0 <= Seg.startIndex s < c /\
            is_boundary treeNodes (Seg.startIndex s) = true /\
            forall i, Seg.startIndex s < i < c -> is_boundary treeNodes i = false) /\
  best_so_far treeNodes s (Seg.startIndex s).

(** ** Blocks of result entries (statement of the scan of one link) *)

Definition on_link (linkID : Z) (e : PathEnd.t) : bool := link_id_of e =? linkID.

Definition off_link (linkID : Z) (e : PathEnd.t) : bool := negb (on_link linkID e).

(** The longest prefix of [l] whose elements satisfy [P]. *)
Fixpoint take_while {A} (P : A -> bool) (l : list A) : list A :=
  match l with
  | [] => []
  | x :: l' => if P x then x :: take_while P l' else []
  end.

Definition seqs_of (block : list PathEnd.t) : gset Z :=
  list_to_set (shapeSeq_of <$> block).

(** The scan of [linkID] from the cursor [resultIndex] consumes the
    entries on [linkID] that begin at the cursor, and no other. *)
Definition consumes_block_at_cursor (resultTree : list PathEnd.t)
    (linkID resultIndex : Z) (foundStopSet : gset Z) : Prop :=
  exists s, scan_link resultTree linkID resultIndex foundStopSet = Ok s /\
    let block := take_while (on_link linkID)
                   (drop (Z.to_nat resultIndex) resultTree) in
    Scan.matchCtr s = len block /\
    Scan.resultIndex s = resultIndex + len block /\
    Scan.foundStopSet s = seqs_of block ∪ foundStopSet.

(** Line 346: the entry kept so far gives way only to a strictly nearer
    one. *)
Definition nearer (b c : PathEnd.t) : PathEnd.t :=
  if Qltb (refDist_of c) (refDist_of b) then c else b.

(** [m] is the first entry of least reference distance in [l]. *)
Definition first_nearest (m : PathEnd.t) (l : list PathEnd.t) : Prop :=
  exists pre post, l = pre ++ m :: post /\
    (forall c, c ∈ pre -> (refDist_of m < refDist_of c)%Q) /\
    (forall c, c ∈ post -> (refDist_of m <= refDist_of c)%Q).

(** The end of one pass through the loop of the scan (line 351) and the
    passes that follow. *)
Definition scan_next (resultTree : list PathEnd.t) (linkID : Z) (fuel : nat)
    (s : Scan.t) : Result Scan.t :=
  rbind (scan_continue resultTree linkID s)
    (fun continue : bool =>
       if continue then scan_loop resultTree linkID fuel s else Ok s).

(** ** Statements about [M]

    [wp m st Q]: run from [st], [m] ends in a state and with a result
    that satisfy [Q]. *)
Definition wp {A} (m : M A) (st : State) (Q : State -> Result A -> Prop) : Prop :=
  Q (m st).1 (m st).2.

(** The fields of a line of the route-link table. *)
Definition row_route (r : Row) : option Z :=
  match r with
  | RowStop route _ _ _ _ | RowNoStop route _ _ => Some route
  | _ => None
  end.

Definition row_sequence (r : Row) : option Z :=
  match r with
  | RowStop _ sequence _ _ _ | RowNoStop _ sequence _ => Some sequence
  | _ => None
  end.

Definition row_link (r : Row) : option Z :=
  match r with
  | RowStop _ _ link _ _ | RowNoStop _ _ link => Some link
  | _ => None
  end.

Definition row_stop (r : Row) : option Z :=
  match r with
  | RowStop _ _ _ stop _ => Some stop
  | _ => None
  end.

(** [row] is the line of route [tripID] for position [i] of
    [outLinkIDList], numbered from [start]. *)
Definition row_at (tripID start : Z) (outLinkIDList : list Z) (i : nat)
    (row : Row) : Prop :=
  row_route row = Some tripID /\
  row_sequence row = Some (start + Z.of_nat i) /\
  row_link row = outLinkIDList !! i.

(** No link identifier stands in two lines that both carry a stop. *)
Definition one_stop_per_link (rows : list Row) : Prop :=
  forall i j ri rj,
    rows !! i = Some ri -> rows !! j = Some rj ->
    row_link ri = row_link rj ->
    is_Some (row_stop ri) -> is_Some (row_stop rj) -> i = j.

(** Every stop of [r] is still in [r'], on a point of the same link. *)
Definition same_link_kept (r r' : gmap Z PointOnLink.t) : Prop :=
  forall stopID p, r !! stopID = Some p ->
    exists p', r' !! stopID = Some p' /\
      GraphLink.id (PointOnLink.link p') = GraphLink.id (PointOnLink.link p).

(** The warning of line 382. *)
Definition is_unmatched (e : LogEvent) : bool :=
  match e with
  | WarnUnmatched _ _ _ => true
  | _ => false
  end.

(** What one pass or several passes of the walk leave behind, apart
    from the rows: [ret] keeps its stops on their links, the problem
    report nodes and [vistaNode] stay, and the messages added are not
    warnings of unmatched stops. *)
Definition walk_frame (st st' : State) : Prop :=
  same_link_kept (ret st) (ret st') /\
  problemReportNodes st' = problemReportNodes st /\
  vistaNode st' = vistaNode st /\
  exists evs, stderr st' = stderr st ++ evs /\
    Forall (fun e => is_unmatched e = false) evs.

(** What the reconstruction of the graph leaves behind: only messages
    that are not warnings of unmatched stops (and [vistaNode]). *)
Definition log_frame (st st' : State) : Prop :=
  ret st' = ret st /\
  problemReportNodes st' = problemReportNodes st /\
  outFile st' = outFile st /\
  exists evs, stderr st' = stderr st ++ evs /\
    Forall (fun e => is_unmatched e = false) evs.

(** The links of [linkMap] are the links handed to [addLink], and no
    identifier was handed over twice. *)
Definition recorded (linkMap : gmap Z GraphLink.t) (calls : list GraphLink.t)
  : Prop :=
  NoDup (GraphLink.id <$> calls) /\
  forall i l, linkMap !! i = Some l <-> l ∈ calls /\ GraphLink.id l = i.

Definition links_recorded (b : Build.t) : Prop :=
  recorded (GraphLib.linkMap (Build.vistaSubset b)) (Build.addLinkCalls b).

(** The warning of line 382 for a stop time. *)
Definition unmatched_warning (tripID : Z) (st : StopTimesEntry.t) : LogEvent :=
  WarnUnmatched tripID (stopID_of st) (StopTimesEntry.stopSeq st).

(** What the report of the unmatched stops leaves untouched. *)
Definition diag_frame (st st' : State) : Prop :=
  ret st' = ret st /\ outFile st' = outFile st /\ vistaNode st' = vistaNode st.

(** [n] is the dummy node of lines 389-396 for sequence number [stopSeq]
    of shape [shapeID]: it has no link and is flagged [restart]. *)
Definition is_dummy (shapeID stopSeq : Z) (n : ReportNode.t) : Prop :=
  exists lat lng pointX pointY,
    n = ReportNode.Dummy (ShapesEntry.mk shapeID stopSeq lat lng) 0
          pointX pointY true.

(** What the loop over the stop times knows after the stop times [seen]:
    the warnings written, and, with the problem report on, the nodes of
    the shape ([nodes0] at the start of the loop). *)
Definition report_inv (problemReport : bool) (tripID shapeID : Z)
    (foundStopSet : gset Z) (nodes0 : gmap Z ReportNode.t) (st : State)
    (seen : list StopTimesEntry.t) (st' : State) : Prop :=
  stderr st' = stderr st ++
    (unmatched_warning tripID <$>
       filter (fun s => StopTimesEntry.stopSeq s ∉ foundStopSet) seen) /\
  (problemReport = true ->
   exists nodes, problemReportNodes st' !! shapeID = Some nodes /\
     (forall q, nodes0 !! q = None ->
        nodes !! q = None \/
        exists n, nodes !! q = Some n /\ is_dummy shapeID q n) /\
     (forall s, s ∈ seen -> StopTimesEntry.stopSeq s ∉ foundStopSet ->
        is_Some (nodes !! StopTimesEntry.stopSeq s))).

(** ** What one trip does (statement of [process_trip]) *)

(** Nothing but messages that are not warnings of unmatched stops was
    written, and [ret] is as it was. *)
Definition quiet (st st' : State) : Prop :=
  ret st' = ret st /\
  outFile st' = outFile st /\
  exists evs, stderr st' = stderr st ++ evs /\
    Forall (fun e => is_unmatched e = false) evs.

Section TripStatements.
Variable problemReport : bool.
Variable gtfsTrips : gmap Z TripsEntry.t.
Variable gtfsNodes : gmap Z (list PathEnd.t).
Variable gtfsStopTimes : gmap Z (list StopTimesEntry.t).
Variable vistaNetwork : GraphLib.t.
Variable constructPath : list ShapesEntry.t -> GraphLib.t -> Result (list PathEnd.t).

(** [start] is the [longestStart] that Step 1 finds for the matched
    positions of the shape of trip [tripID], and [outLinkIDList] the
    list of links that Step 2 makes of the selected run. *)
Definition trip_plan (tripID start : Z) (outLinkIDList : list Z) : Prop :=
  exists trip shape0 treeNodes seg st0 st1 b,
    gtfsTrips !! tripID = Some trip /\
    TripsEntry.shapeEntries trip !! 0%nat = Some shape0 /\
    gtfsNodes !! ShapesEntry.shapeID shape0 = Some treeNodes /\
    segment_scan treeNodes = Ok seg /\
    0 <= Seg.longestStart seg /\
    start = Seg.longestStart seg /\
    build_subgraph vistaNetwork
      (slice treeNodes (Seg.longestStart seg) (Seg.longestEnd seg)) st0
      = (st1, Ok b) /\
    outLinkIDList = Build.outLinkIDList b.

(** The record returned for a trip holds the locals of that trip. *)
Definition trip_locals (tripID : Z) (t : Trip.t) : Prop :=
  trip_plan tripID (Trip.longestStart t) (Trip.outLinkIDList t) /\
  exists trip shape0 st0 st1 w,
    gtfsTrips !! tripID = Some trip /\
    TripsEntry.shapeEntries trip !! 0%nat = Some shape0 /\
    Trip.shapeID t = ShapesEntry.shapeID shape0 /\
    gtfsStopTimes !! TripsEntry.tripID trip = Some (Trip.stopTimes t) /\
    walk_links tripID (Trip.resultTree t) (stops_lookup (Trip.stopTimes t))
      (Trip.outLinkIDList t) (Trip.longestStart t) st0 = (st1, Ok w) /\
    Trip.foundStopSet t = Walk.foundStopSet w.

(** The rows that a trip writes. *)
Definition trip_rows (tripID : Z) (r : Result (option Trip.t)) (rows : list Row)
  : Prop :=
  rows = [] \/
  exists start outLinkIDList,
    trip_plan tripID start outLinkIDList /\
    (forall i row, rows !! i = Some row ->
       row_at tripID start outLinkIDList i row) /\
    (forall t, r = Ok t -> length rows = length outLinkIDList).

(** The warnings of unmatched stops that a trip writes, and the dummy
    nodes that it adds to the problem report. *)
Definition trip_unmatched (tripID : Z) (t : Trip.t) (st st' : State) : Prop :=
  exists evs, stderr st' = stderr st ++ evs /\
    filter (fun e => is_unmatched e) evs =
      unmatched_warning tripID <$>
        filter (fun s => StopTimesEntry.stopSeq s ∉ Trip.foundStopSet t)
          (Trip.stopTimes t) /\
    (problemReport = true ->
     exists nodes, problemReportNodes st' !! Trip.shapeID t = Some nodes /\
       forall s, s ∈ Trip.stopTimes t ->
         StopTimesEntry.stopSeq s ∉ Trip.foundStopSet t ->
         (forall e, e ∈ Trip.resultTree t ->
            shapeSeq_of e <> StopTimesEntry.stopSeq s) ->
         exists n, nodes !! StopTimesEntry.stopSeq s = Some n /\
           is_dummy (Trip.shapeID t) (StopTimesEntry.stopSeq s) n).

Definition trip_post (tripID : Z) (st st' : State)
    (r : Result (option Trip.t)) : Prop :=
  same_link_kept (ret st) (ret st') /\
  (exists rows, outFile st' = outFile st ++ rows /\ trip_rows tripID r rows) /\
  (forall t, r = Ok (Some t) ->
     trip_locals tripID t /\ trip_unmatched tripID t st st').
End TripStatements.

(** ** The other tables of [main]: routes and stops *)

(** [gtfs.RoutesEntry], as far as [dumpBusRoutes] reads it. *)
Module RoutesEntry.
Record t : Type := mk { shortName : string; name : string }.
End RoutesEntry.

(** Lines of [public.bus_route.csv]. *)
Inductive RouteLine : Type :=
  | RouteHeader (userName networkName : string)   (* _outHeader *)
  | RouteColumns                                  (* line 105 *)
  | RouteRow (id : Z) (name : string).            (* line 113 *)

Definition route_line_id (l : RouteLine) : option Z :=
  match l with
  | RouteRow id _ => Some id
  | _ => None
  end.

Section BusRoutes.
(** The attribute [route] of a trip, which [TripsEntry.t] leaves out. *)
Variable trip_route : TripsEntry.t -> RoutesEntry.t.
Variable gtfsTrips : gmap Z TripsEntry.t.
Local Open Scope result_scope.

(** Lines 110-113: the short name, then the name if there is one. *)
Definition route_label (r : RoutesEntry.t) : string :=
  let append :=
    if (0 <? String.length (RoutesEntry.name r))%nat
    then ": " +:+ RoutesEntry.name r
    else "" in
  RoutesEntry.shortName r +:+ append.

Definition route_row (lines : list RouteLine) (tripID : Z)
  : Result (list RouteLine) :=
  do trip <- getkey gtfsTrips tripID;
  Ok (lines ++ [RouteRow tripID (route_label (trip_route trip))]).

Definition dumpBusRoutes (userName networkName : string)
  : Result (list RouteLine) :=
  for_R route_row (sorted_keys gtfsTrips)
    [RouteHeader userName networkName; RouteColumns].
End BusRoutes.

(** Lines of [public.bus_stop.csv]. *)
Inductive StopLine : Type :=
  | StopHeader (userName networkName : string)           (* _outHeader *)
  | StopColumns                                          (* line 425 *)
  | StopRow (id link : Z) (name : string) (location : Z). (* line 432 *)

Definition stop_line_id (l : StopLine) : option Z :=
  match l with
  | StopRow id _ _ _ => Some id
  | _ => None
  end.

(** [int(x)] of a float: the integer part, towards zero. *)
Definition int_of_float (x : Q) : Z := Z.quot (Qnum x) (Z.pos (Qden x)).

Section BusStops.
(** The attribute [stopName] of a stop, which [StopsEntry.t] leaves out. *)
Variable stopName : StopsEntry.t -> string.
Variable gtfsStops : gmap Z StopsEntry.t.

Definition stop_row (stopID : Z) (pointOnLink : PointOnLink.t)
    (stop : StopsEntry.t) : StopLine :=
  StopRow stopID (GraphLink.id (PointOnLink.link pointOnLink)) (stopName stop)
    (int_of_float (PointOnLink.dist pointOnLink)).

(** Lines 428-432, over the entries of [stopLinkMap] in the order in
    which the dictionary yields them.  The lines written before a
    [KeyError] stay in the file. *)
Fixpoint stop_rows (entries : list (Z * PointOnLink.t)) (lines : list StopLine)
  : list StopLine * Result unit :=
  match entries with
  | [] => (lines, Ok tt)
  | (stopID, pointOnLink) :: rest =>
      match gtfsStops !! stopID with
      | Some stop => stop_rows rest (lines ++ [stop_row stopID pointOnLink stop])
      | None => (lines, Raise KeyError)
      end
  end.

Definition dumpBusStops (stopLinkMap : gmap Z PointOnLink.t)
    (userName networkName : string) : list StopLine * Result unit :=
  stop_rows (map_to_list stopLinkMap)
    [StopHeader userName networkName; StopColumns].
End BusStops.

(** ** The shapes that have no path (lines 80-87 of [restorePathMatch]) *)

Section UnusedShapes.
Context {Shape Path : Type}.

Definition drop_unused (gtfsNodes : gmap Z Path)
    (acc : gmap Z Shape * gset Z) (shapeID : Z) : gmap Z Shape * gset Z :=
  match gtfsNodes !! shapeID with
  | Some _ => acc
  | None => (delete shapeID acc.1, {[shapeID]} ∪ acc.2)
  end.

(** [gtfsShapes.keys()] is a list of its own, so the deletions do not
    disturb the loop.  The result is [(gtfsShapes, unusedShapeIDs)]. *)
Definition filter_unused_shapes (gtfsShapes : gmap Z Shape)
    (gtfsNodes : gmap Z Path) : gmap Z Shape * gset Z :=
  foldl (drop_unused gtfsNodes) (gtfsShapes, ∅) (map fst (map_to_list gtfsShapes)).
End UnusedShapes.

(** ** The link counters of Step 1 (lines 178-203) *)

(** What the loop of Step 1 keeps true of its counters. *)
Definition seg_counts (s : Seg.t) : Prop :=
  0 <= Seg.curIndex s /\
  0 <= Seg.linkCount s <= Seg.totalLinks s /\
  0 <= Seg.longestLinkCount s <= Seg.totalLinks s /\
  (0 < Seg.curIndex s -> 1 <= Seg.totalLinks s).

(** ** The output links and the links of the small graph (lines 223-273) *)

(** What the reconstruction keeps true while it goes through the run
    whose first position is [first]: the output list begins with the link
    of [first] and goes on with links of the network that come from the
    route information of the run; as long as nothing was appended, the
    graph has no node but the start node and [vistaNode] is as it was at
    the start ([st0]), afterwards [vistaNode] is bound; the links of the
    graph are links of the output list, and all of the output list but
    possibly its last element are links of the graph. *)
Definition build_inv (vistaNetwork : GraphLib.t) (first : PathEnd.t)
    (ourGTFSNodes : list PathEnd.t) (st0 : State) (b : Build.t) (st : State)
  : Prop :=
  let firstLink := PointOnLink.link (PathEnd.pointOnLink first) in
  let linkMap := GraphLib.linkMap (Build.vistaSubset b) in
  (exists rest,
     Build.outLinkIDList b = GraphLink.id firstLink :: rest /\
     Forall (fun i =>
               is_Some (GraphLib.linkMap vistaNetwork !! i) /\
               exists nd link, nd ∈ ourGTFSNodes /\
                 link ∈ PathEnd.routeInfo nd /\ GraphLink.id link = i) rest /\
     (rest = [] ->
      vistaNode st = vistaNode st0 /\
      forall i, is_Some (GraphLib.nodeMap (Build.vistaSubset b) !! i) ->
        i = GraphNode.id (GraphLink.origNode firstLink)) /\
     (rest <> [] -> is_Some (vistaNode st))) /\
  (exists init lastID,
     Build.outLinkIDList b = init ++ [lastID] /\
     (forall i, i ∈ init -> is_Some (linkMap !! i)) /\
     (forall i, is_Some (linkMap !! i) -> i ∈ Build.outLinkIDList b)).

(** ** More examples *)

Module DemoX.
(** A link from a node back to itself, and a path that stays on it. *)
Definition L30 : GraphLink.t := GraphLink.mk 30 (Demo.node 8) (Demo.node 8).

Definition turnaround : list PathEnd.t :=
  [PathEnd.mk (ShapesEntry.mk 500 0 0 0) (PointOnLink.mk L30 0 0 0) true 0 0 [];
   PathEnd.mk (ShapesEntry.mk 500 1 0 0) (PointOnLink.mk L30 0 0 0) false 0 7 [L30]].

(** Shape 300, the shape of trip 3, with a path of a single position. *)
Definition gtfsNodes_single : gmap Z (list PathEnd.t) :=
  <[300 := Demo.single_position]> Demo.gtfsNodes.
End DemoX.

(** ** What the walk writes (statements about lines 336-375) *)

(** The search has matched stop [stopID] at point [p]: [p] is the point of
    a result entry whose sequence number is that of a stop time of stop
    [stopID]. *)
Definition from_search (resultTree : list PathEnd.t)
    (gtfsStopsLookup : gmap Z StopTimesEntry.t) (stopID : Z) (p : PointOnLink.t)
  : Prop :=
  exists e stopTime,
    e ∈ resultTree /\
    gtfsStopsLookup !! shapeSeq_of e = Some stopTime /\
    stopID_of stopTime = stopID /\
    PathEnd.pointOnLink e = p.

(** Between [st] and [st'] rows were added; every stop named in one of
    them was matched by the search and is in [ret] afterwards; every entry
    of [ret] is as before or is a point matched by the search for a stop
    named in one of the new rows; no stop has left [ret]. *)
Definition walk_writes (resultTree : list PathEnd.t)
    (gtfsStopsLookup : gmap Z StopTimesEntry.t) (st st' : State) : Prop :=
  exists rows, outFile st' = outFile st ++ rows /\
    (forall row stopID, row ∈ rows -> row_stop row = Some stopID ->
       is_Some (ret st' !! stopID) /\
       exists p, from_search resultTree gtfsStopsLookup stopID p) /\
    (forall stopID p, ret st' !! stopID = Some p ->
       ret st !! stopID = Some p \/
       (from_search resultTree gtfsStopsLookup stopID p /\
        exists row, row ∈ rows /\ row_stop row = Some stopID)) /\
    (forall stopID, is_Some (ret st !! stopID) -> is_Some (ret st' !! stopID)).

(** ** The phases of one trip (statement about [process_trip]) *)

Section TripPhases.
Variable problemReport : bool.
Variable gtfsTrips : gmap Z TripsEntry.t.
Variable gtfsNodes : gmap Z (list PathEnd.t).
Variable gtfsStopTimes : gmap Z (list StopTimesEntry.t).
Variable vistaNetwork : GraphLib.t.
Variable constructPath : list ShapesEntry.t -> GraphLib.t -> Result (list PathEnd.t).

(** The state in which the walk of a trip begins, [st4] being the state
    after the search: with the problem report on, the result entries
    rebuilt over the network are filed under the shape; otherwise
    nothing changes. *)
Definition before_walk (shapeID : Z) (resultTree : list PathEnd.t)
    (st4 st5 : State) : Prop :=
  if problemReport then
    exists revised,
      for_R (revise_node vistaNetwork shapeID) resultTree ∅ = Ok revised /\
      st5 = mkState (ret st4)
              (<[shapeID := revised]> (problemReportNodes st4))
              (outFile st4) (stderr st4) (vistaNode st4)
  else st5 = st4.

(** Trip [tripID] reaches its walk: Step 1 selects a run of its
    positions, the small graph of the run is built, the search returns
    [found], whose ends are taken off to give [resultTree]; the walk
    runs from [st5] to [st6], and, if it does not fail, the report of
    the unmatched stops from [st6] to the final state. *)
Definition trip_walked (tripID : Z) (st st' : State)
    (r : Result (option Trip.t)) : Prop :=
  exists trip shape0 treeNodes seg stopTimes b first last found resultTree
         st2 st3 st4 st5 st6 rw,
    gtfsTrips !! tripID = Some trip /\
    TripsEntry.shapeEntries trip !! 0%nat = Some shape0 /\
    gtfsNodes !! ShapesEntry.shapeID shape0 = Some treeNodes /\
    segment_scan treeNodes = Ok seg /\
    0 <= Seg.longestStart seg /\
    gtfsStopTimes !! TripsEntry.tripID trip = Some stopTimes /\
    build_subgraph vistaNetwork
      (slice treeNodes (Seg.longestStart seg) (Seg.longestEnd seg)) st2
      = (st3, Ok b) /\
    constructPath (query_shapes first last stopTimes) (Build.vistaSubset b)
      = Ok found /\
    (exists a z, found = a :: resultTree ++ [z]) /\
    log_frame st st4 /\
    before_walk (ShapesEntry.shapeID shape0) resultTree st4 st5 /\
    walk_links tripID resultTree (stops_lookup stopTimes)
      (Build.outLinkIDList b) (Seg.longestStart seg) st5 = (st6, rw) /\
    match rw with
    | Ok w =>
        report_unmatched problemReport tripID (ShapesEntry.shapeID shape0)
          (Walk.foundStopSet w) stopTimes st6 = (st', Ok tt) /\
        r = Ok (Some (Trip.mk (ShapesEntry.shapeID shape0) treeNodes
                        (Seg.longestStart seg) (Seg.longestEnd seg) stopTimes
                        (Build.outLinkIDList b) resultTree
                        (Walk.foundStopSet w)))
    | Raise e => st' = st6 /\ r = Raise e
    end.

(** The exceptions of a trip: those of the accesses of this program to
    lists, dictionaries and [vistaNode], and whatever the search raises. *)
Definition trip_error (e : exn) : Prop :=
  e = KeyError \/ e = IndexError \/ e = UnboundLocalError \/
  exists gtfsShapes vistaSubset, constructPath gtfsShapes vistaSubset = Raise e.

(** A trip ends before its walk, having written nothing but messages,
    or it reaches its walk. *)
Definition trip_phases (tripID : Z) (st st' : State)
    (r : Result (option Trip.t)) : Prop :=
  (log_frame st st' /\ (forall t, r <> Ok (Some t)) /\
   forall e, r = Raise e -> trip_error e) \/
  trip_walked tripID st st' r.
End TripPhases.

(** The stops of [ret] are the stops named in the rows of the file. *)
Definition stops_in_rows (st : State) : Prop :=
  forall stopID,
    is_Some (ret st !! stopID) <->
    exists row, row ∈ outFile st /\ row_stop row = Some stopID.

Section TripWrites.
Variable gtfsTrips : gmap Z TripsEntry.t.
Variable gtfsStopTimes : gmap Z (list StopTimesEntry.t).

(** What trip [tripID] has written between [st] and [st']: nothing, or
    what the walk writes of a search result over the stop times of the
    trip. *)
Definition trip_writes (tripID : Z) (st st' : State) : Prop :=
  (ret st' = ret st /\ outFile st' = outFile st) \/
  exists trip stopTimes resultTree,
    gtfsTrips !! tripID = Some trip /\
    gtfsStopTimes !! TripsEntry.tripID trip = Some stopTimes /\
    walk_writes resultTree (stops_lookup stopTimes) st st'.
End TripWrites.

Module DemoY.
(** Shape 300, the shape of trip 3, on the link that turns round. *)
Definition gtfsNodes_turnaround : gmap Z (list PathEnd.t) :=
  <[300 := DemoX.turnaround]> Demo.gtfsNodes.

(** The stops of the example, by identifier. *)
Definition gtfsStops : gmap Z StopsEntry.t :=
  list_to_map
    ((fun i => (i, StopsEntry.mk i 0 0 0 0))
       <$> [501; 502; 503; 504; 507; 601; 602; 701]).

Definition stopName (stop : StopsEntry.t) : string := "stop".

(** What the search returns for trip 1, without its two ends. *)
Definition resultTree1 : list PathEnd.t :=
  [Demo.matched 1 Demo.L10 4; Demo.matched 2 Demo.L11 3;
   Demo.matched 3 Demo.L11 2].
End DemoY.

(** ** The command line of [main] (lines 438-470) *)

Module Options.
Record t : Type := mk
  { refTime : option Z;          (* [None] until [-t] is read *)
    endTime : Z;
    restrictService : gset string;
    problemReport : bool }.
End Options.

(** How [main] can end before it reads its input. *)
Inductive MainStop : Type :=
  | Exit0                (* [syntax()]: the usage text, then [sys.exit(0)] *)
  | ValueError           (* [strptime] or [int] on a malformed value *)
  | TypeError            (* line 470: [syntax(1)], but [syntax] takes no argument *)
  | Uncaught (e : exn).  (* an exception of a list access *)

Inductive Start (A : Type) : Type :=
  | Go (a : A)
  | Stop (s : MainStop).
Arguments Go {A} a.
Arguments Stop {A} s.

Section Arguments.
(** [datetime.strptime(s, '%H:%M:%S')] and [int(s)]; [None] stands for
    their [ValueError]. *)
Variable strptime : string -> option Z.
Variable int_of_str : string -> option Z.

(** Lines 455-466, one pass through the body of the [while]; the new
    value of [i] is returned with the options. *)
Definition arg_step (argv : list string) (i : Z) (o : Options.t)
  : Start (Z * Options.t) :=
  match getitem argv i with
  | Raise e => Stop (Uncaught e)
  | Ok a =>
      if String.eqb a "-t" && (i <? len argv - 1) then
        match getitem argv (i + 1) with
        | Raise e => Stop (Uncaught e)
        | Ok v =>
            match strptime v with
            | None => Stop ValueError
            | Some t =>
                Go (i + 1 + 1,
                    Options.mk (Some t) (Options.endTime o)
                      (Options.restrictService o) (Options.problemReport o))
            end
        end
      else if String.eqb a "-e" && (i <? len argv - 1) then
        match getitem argv (i + 1) with
        | Raise e => Stop (Uncaught e)
        | Ok v =>
            match int_of_str v with
            | None => Stop ValueError
            | Some n =>
                Go (i + 1 + 1,
                    Options.mk (Options.refTime o) n
                      (Options.restrictService o) (Options.problemReport o))
            end
        end
      else if String.eqb a "-c" && (i <? len argv - 1) then
        match getitem argv (i + 1) with
        | Raise e => Stop (Uncaught e)
        | Ok v =>
            Go (i + 1 + 1,
                Options.mk (Options.refTime o) (Options.endTime o)
                  ({[v]} ∪ Options.restrictService o) (Options.problemReport o))
        end
      else if String.eqb a "-p" then
        Go (i + 1,
            Options.mk (Options.refTime o) (Options.endTime o)
              (Options.restrictService o) true)
      else Go (i + 1, o)
  end.

(** [while i < len(argv)]. *)
Fixpoint arg_loop (fuel : nat) (argv : list string) (i : Z) (o : Options.t)
  : Start Options.t :=
  if i <? len argv then
    match fuel with
    | O => Stop (Uncaught OutOfFuel)
    | S fuel' =>
        match arg_step argv i o with
        | Go (i', o') => arg_loop fuel' argv i' o'
        | Stop s => Stop s
        end
    end
  else Go o.

(** The options at line 446-449; [problemReport] is [False] when the
    module is loaded (line 38). *)
Definition default_options : Options.t := Options.mk None 86400 ∅ false.

(** Lines 438-470: [main] up to the point where it starts to read its
    input, with the options it has then. *)
Definition main_start (argv : list string) : Start Options.t :=
  if len argv <? 7 then Stop Exit0
  else
    match (if 6 <? len argv
           then arg_loop (length argv) argv 7 default_options
           else Go default_options) with
    | Stop s => Stop s
    | Go o =>
        match Options.refTime o with
        | None => Stop TypeError
        | Some _ => Go o
        end
    end.

(** An option as the usage text describes it, or a word that is none. *)
Inductive Opt : Type :=
  | OptT (v : string)
  | OptE (v : string)
  | OptC (v : string)
  | OptP
  | OptOther (a : string).

Definition opt_words (x : Opt) : list string :=
  match x with
  | OptT v => ["-t"; v]
  | OptE v => ["-e"; v]
  | OptC v => ["-c"; v]
  | OptP => ["-p"]
  | OptOther a => [a]
  end.

Definition is_flag (a : string) : bool :=
  String.eqb a "-t" || String.eqb a "-e" || String.eqb a "-c" || String.eqb a "-p".

Definition well_formed (x : Opt) : Prop :=
  match x with
  | OptOther a => is_flag a = false
  | _ => True
  end.

(** What an option means. *)
Definition opt_apply (o : Options.t) (x : Opt) : Start Options.t :=
  match x with
  | OptT v =>
      match strptime v with
      | None => Stop ValueError
      | Some t => Go (Options.mk (Some t) (Options.endTime o)
                        (Options.restrictService o) (Options.problemReport o))
      end
  | OptE v =>
      match int_of_str v with
      | None => Stop ValueError
      | Some n => Go (Options.mk (Options.refTime o) n
                        (Options.restrictService o) (Options.problemReport o))
      end
  | OptC v => Go (Options.mk (Options.refTime o) (Options.endTime o)
                    ({[v]} ∪ Options.restrictService o) (Options.problemReport o))
  | OptP => Go (Options.mk (Options.refTime o) (Options.endTime o)
                  (Options.restrictService o) true)
  | OptOther _ => Go o
  end.

Fixpoint opts_apply (xs : list Opt) (o : Options.t) : Start Options.t :=
  match xs with
  | [] => Go o
  | x :: xs' =>
      match opt_apply o x with
      | Go o' => opts_apply xs' o'
      | Stop s => Stop s
      end
  end.

(** A [-t], [-e] or [-c] that is the last word of the command line. *)
Definition dangling (tail : list string) : Prop :=
  tail = [] \/ tail = ["-t"] \/ tail = ["-e"] \/ tail = ["-c"].
End Arguments.

Module DemoArgs.
Definition strptime (s : string) : option Z :=
  if String.eqb s "08:00:00" then Some 28800 else None.

Definition int_of_str (s : string) : option Z :=
  if String.eqb s "90000" then Some 90000 else None.

Definition positional : list string :=
  ["transit_gtfs.py"; "server"; "network"; "user"; "password"; "shapes";
   "pathmatch.csv"].

Definition opts : list Opt :=
  [OptT "08:00:00"; OptC "weekday"; OptOther "extra"; OptP; OptE "90000"].
End DemoArgs.

(** ** The nodes of the problem report (statements about lines 308-329) *)

(** [n] is the node that lines 314-328 make of the result entry [e] of
    shape [shapeID]: the point of [e] on the link of the network that has
    the identifier of the link of [e], with the links of its route
    information replaced likewise, and not flagged [restart]. *)
Definition rebuilt_on (vistaNetwork : GraphLib.t) (shapeID : Z) (e : PathEnd.t)
    (n : ReportNode.t) : Prop :=
  exists origLink routeInfo,
    GraphLib.linkMap vistaNetwork !! link_id_of e = Some origLink /\
    Forall2 (fun l l' => GraphLib.linkMap vistaNetwork !! GraphLink.id l = Some l')
      (PathEnd.routeInfo e) routeInfo /\
    n = ReportNode.Matched
          (PathEnd.mk
             (ShapesEntry.mk shapeID (shapeSeq_of e)
                (ShapesEntry.lat (PathEnd.shapeEntry e))
                (ShapesEntry.lng (PathEnd.shapeEntry e)))
             (PointOnLink.mk origLink
                (PointOnLink.dist (PathEnd.pointOnLink e))
                (PointOnLink.nonPerpPenalty (PathEnd.pointOnLink e))
                (refDist_of e))
             false (PathEnd.totalCost e) (PathEnd.totalDist e) routeInfo).

(** What the report of the unmatched stops has done to the nodes of shape
    [shapeID] ([nodes0] before, [nodes] after), [seen] being the stop
    times gone through: the nodes there were are kept, and a new node is
    the dummy of a stop time that was not found. *)
Definition report_adds (problemReport : bool) (shapeID : Z) (foundStopSet : gset Z)
    (seen : list StopTimesEntry.t) (nodes0 nodes : gmap Z ReportNode.t) : Prop :=
  (forall q n, nodes0 !! q = Some n -> nodes !! q = Some n) /\
  (forall q n, nodes !! q = Some n ->
     nodes0 !! q = Some n \/
     (problemReport = true /\ is_dummy shapeID q n /\ (q ∉ foundStopSet) /\
      exists s, s ∈ seen /\ StopTimesEntry.stopSeq s = q)).

Module DemoZ.
(** A state in which shape 100 has one report node, under number 1. *)
Definition reported : State :=
  mkState ∅
    (<[100 := <[1 := ReportNode.Matched (Demo.matched 1 Demo.L10 4)]> ∅]> ∅)
    [] [] None.

Definition stopTimes1 : list StopTimesEntry.t :=
  [Demo.stop_time 1 501; Demo.stop_time 2 502; Demo.stop_time 3 503;
   Demo.stop_time 7 507].
End DemoZ.

(** A path in two runs, of which the second is the longer, and the trip
    that follows it. *)
Module DemoTrim.
Definition treeNodes : list PathEnd.t :=
  [Demo.position 600 0 Demo.L10 true 0; Demo.position 600 1 Demo.L11 false 1;
   Demo.position 600 2 Demo.L12 true 0; Demo.position 600 3 Demo.L13 false 9].

Definition gtfsTrips : gmap Z TripsEntry.t :=
  <[5 := TripsEntry.mk 5 [ShapesEntry.mk 600 0 0 0]]> ∅.

Definition gtfsNodes : gmap Z (list PathEnd.t) := <[600 := treeNodes]> ∅.

Definition gtfsStopTimes : gmap Z (list StopTimesEntry.t) :=
  <[5 := [Demo.stop_time 1 801; Demo.stop_time 2 802]]> ∅.

(** A search that finds the first stop on link 12 and the second on
    link 13. *)
Definition constructPath (gtfsShapes : list ShapesEntry.t) (g : GraphLib.t)
  : Result (list PathEnd.t) :=
  Ok [Demo.dummy_end; Demo.matched 1 Demo.L12 1; Demo.matched 2 Demo.L13 1;
      Demo.dummy_end].
End DemoTrim.

(** Two runs whose spans differ but are the same double: the doubles
    nearest to 0.1, 0.5 and 0.9. *)
Module DemoFloat.
Definition d01 : Q := 3602879701896397 # 36028797018963968.
Definition d05 : Q := 1 # 2.
Definition d09 : Q := 8106479329266893 # 9007199254740992.

Definition treeNodes : list PathEnd.t :=
  [Demo.position 700 0 Demo.L10 true d01; Demo.position 700 1 Demo.L11 false d05;
   Demo.position 700 2 Demo.L12 true d05; Demo.position 700 3 Demo.L13 false d09].
End DemoFloat.

(** * Properties *)

(** ** The two monads and Python's list access *)

Lemma getitem_ok {A} (l : list A) (i : Z) :
  0 <= i < len l -> exists x, l !! Z.to_nat i = Some x /\ getitem l i = Ok x.
Proof.
  intros [Hlo Hhi]. unfold getitem, len in *.
  destruct (Z.ltb_spec i 0) as [|_]; [lia|].
  destruct (Z.ltb_spec i 0) as [|_]; [lia|].
  destruct (lookup_lt_is_Some_2 l (Z.to_nat i)) as [x Hx]; [lia|].
  exists x. by rewrite Hx.
Qed.

Lemma getitem_inv {A} (l : list A) (i : Z) (x : A) :
  0 <= i -> getitem l i = Ok x -> l !! Z.to_nat i = Some x.
Proof.
  intros Hi. unfold getitem.
  destruct (Z.ltb_spec i 0) as [|_]; [lia|].
  destruct (Z.ltb_spec i 0) as [|_]; [lia|].
  destruct (l !! Z.to_nat i); [|done]. by intros [= ->].
Qed.

Lemma Qltb_true (a b : Q) : Qltb a b = true <-> (a < b)%Q.
Proof.
  unfold Qltb. rewrite negb_true_iff, <- not_true_iff_false, Qle_bool_iff.
  split; [apply Qnot_le_lt | apply Qlt_not_le].
Qed.

Lemma Qltb_false (a b : Q) : Qltb a b = false <-> (b <= a)%Q.
Proof.
  unfold Qltb. rewrite negb_false_iff. apply Qle_bool_iff.
Qed.

(** ** Doubles *)

Lemma round_half_even_le (y : Q) (M : Z) :
  (y <= inject_Z M)%Q -> round_half_even y <= M.
Proof.
  intros Hy. unfold round_half_even.
  pose proof (Qfloor_resp_le _ _ Hy) as Hf. rewrite Qfloor_Z in Hf.
  destruct (Z.eq_dec (Qfloor y) M) as [Heq|Hne].
  - pose proof (Qfloor_le y) as Hlo. rewrite Heq in Hlo |- *.
    assert ((y - inject_Z M ?= 1 # 2)%Q = Lt) as ->; [|lia].
    apply Qlt_alt. assert (y == inject_Z M)%Q as Hyeq by (by apply Qle_antisym).
    rewrite Hyeq. unfold Qminus. rewrite Qplus_opp_r. reflexivity.
  - destruct (_ ?= _)%Q; [destruct (Z.even _)|..]; lia.
Qed.

Lemma round_half_even_nonneg (y : Q) : (0 <= y)%Q -> 0 <= round_half_even y.
Proof.
  intros Hy. unfold round_half_even.
  pose proof (Qfloor_resp_le _ _ Hy) as Hf. change (Qfloor 0) with 0 in Hf.
  destruct (_ ?= _)%Q; [destruct (Z.even _)|..]; lia.
Qed.

Lemma float_round_abs_nonneg (a : Q) : (0 <= a)%Q -> (0 <= float_round_abs a)%Q.
Proof.
  intros Ha. unfold float_round_abs.
  set (k := if Qle_bool a float_info_min then _ else _).
  destruct (Qle_bool float_infinity _); [done|].
  apply Qmult_le_0_compat; [|by apply Qpower_0_le].
  change 0%Q with (inject_Z 0). rewrite <- Zle_Qle.
  apply round_half_even_nonneg.
  apply Qmult_le_0_compat; [done|by apply Qpower_0_le].
Qed.

(** A difference that does not exceed [sys.float_info.min] is not rounded
    to a double that does. *)
Lemma float_round_small (x : Q) :
  (x <= float_info_min)%Q -> (float_round x <= float_info_min)%Q.
Proof.
  intros Hx. unfold float_round.
  destruct (Qle_bool 0 x) eqn:Hsign.
  - apply Qle_bool_iff in Hsign. unfold float_round_abs.
    apply Qle_bool_iff in Hx. rewrite Hx. apply Qle_bool_iff in Hx.
    assert (round_half_even (x * 2 ^ (- -1074)) <= 2 ^ 52) as Hm.
    { apply round_half_even_le.
      apply Qle_trans with (float_info_min * 2 ^ (- -1074))%Q.
      - apply Qmult_le_compat_r; [done|]. by apply Qpower_0_le.
      - apply Qle_bool_iff. vm_compute. reflexivity. }
    assert (inject_Z (round_half_even (x * 2 ^ (- -1074))) * 2 ^ (-1074)
            <= float_info_min)%Q as Hr.
    { apply Qle_trans with (inject_Z (2 ^ 52) * 2 ^ (-1074))%Q.
      - apply Qmult_le_compat_r; [by rewrite <- Zle_Qle|]. by apply Qpower_0_le.
      - apply Qle_bool_iff. vm_compute. reflexivity. }
    destruct (Qle_bool float_infinity _) eqn:Hinf; [|done].
    apply Qle_bool_iff in Hinf.
    assert (float_info_min < float_infinity)%Q as Hlt
      by (apply Qlt_alt; vm_compute; reflexivity).
    lra.
  - assert (0 <= float_round_abs (- x))%Q as Hpos.
    { apply float_round_abs_nonneg.
      destruct (Qlt_le_dec x 0) as [?|Hge]; [lra|].
      apply Qle_bool_iff in Hge. congruence. }
    assert (0 < float_info_min)%Q by done. lra.
Qed.

(** ** The frequency table *)

Lemma offset_seconds_later (stopTime refTime : Z) :
  refTime <= stopTime -> offset_seconds stopTime refTime = stopTime - refTime.
Proof.
  intros H. unfold offset_seconds.
  destruct (Z.ltb_spec stopTime refTime); [lia | done].
Qed.

Lemma offset_seconds_earlier (stopTime refTime : Z) :
  stopTime < refTime ->
  exists days,
    0 < days /\
    offset_seconds stopTime refTime = stopTime + days * 86400 - refTime /\
    stopTime + (days - 1) * 86400 <= refTime < stopTime + days * 86400.
Proof.
  intros H. unfold offset_seconds.
  destruct (Z.ltb_spec stopTime refTime); [|lia].
  exists (Z.quot (refTime - stopTime) 86400 + 1).
  rewrite Z.quot_div_nonneg by lia.
  pose proof (Z.div_mod (refTime - stopTime) 86400 ltac:(lia)) as Hdm.
  pose proof (Z.mod_pos_bound (refTime - stopTime) 86400 ltac:(lia)) as Hb.
  pose proof (Z.div_pos (refTime - stopTime) 86400 ltac:(lia) ltac:(lia)).
  lia.
Qed.

Lemma frequency_rows_acc gtfsTrips gtfsStopTimes refTime tripIDs acc rows :
  for_R (frequency_row gtfsTrips gtfsStopTimes refTime) tripIDs acc = Ok rows ->
  exists new,
    rows = acc ++ new /\
    map route new = tripIDs /\
    Forall (fun row =>
      exists trip stopTimes first,
        gtfsTrips !! route row = Some trip /\
        gtfsStopTimes !! TripsEntry.tripID trip = Some stopTimes /\
        stopTimes !! 0%nat = Some first /\
        row = mkFreqRow (route row) 1 86400
                (offset_seconds (StopTimesEntry.time first) refTime) 0) new.
Proof.
  revert acc. induction tripIDs as [|tripID tripIDs IH]; intros acc; simpl.
  - intros [= <-]. exists []. by rewrite app_nil_r.
  - unfold frequency_row at 1, getkey.
    destruct (gtfsTrips !! tripID) as [trip|] eqn:Htrip; [simpl|done].
    destruct (gtfsStopTimes !! TripsEntry.tripID trip) as [stopTimes|] eqn:Hst;
      [simpl|done].
    destruct (getitem stopTimes 0) as [first|] eqn:Hfirst; [simpl|done].
    apply getitem_inv in Hfirst; [|lia].
    intros Hrest. destruct (IH _ Hrest) as (new & -> & Hroutes & Hall).
    eexists (_ :: new). rewrite <- app_assoc. split; [done|].
    split; [by rewrite <- Hroutes|].
    constructor; [|done]. by exists trip, stopTimes, first.
Qed.

(** C9. Every line of the frequency table carries period 1, frequency
    86400 and preemption 0; the table has one line per trip, in
    increasing order of trip identifier; and the offset of a line is the
    first stop time of its trip minus the reference time, after the least
    number of whole days that brings a stop time earlier than the
    reference time past it has been added.  The offset is never negative. *)
Theorem frequency_table_offsets
    (gtfsTrips : gmap Z TripsEntry.t)
    (gtfsStopTimes : gmap Z (list StopTimesEntry.t))
    (refTime : Z) (rows : list FreqRow) :
  dumpBusFrequency gtfsTrips gtfsStopTimes refTime = Ok rows ->
  map route rows = sorted_keys gtfsTrips /\
  forall row, row ∈ rows ->
    period row = 1 /\ frequency row = 86400 /\ preemption row = 0 /\
    0 <= offsettime row /\
    exists trip stopTimes first days,
      gtfsTrips !! route row = Some trip /\
      gtfsStopTimes !! TripsEntry.tripID trip = Some stopTimes /\
      stopTimes !! 0%nat = Some first /\
      0 <= days /\
      offsettime row = StopTimesEntry.time first + days * 86400 - refTime /\
      (refTime <= StopTimesEntry.time first -> days = 0) /\
      (StopTimesEntry.time first < refTime ->
       StopTimesEntry.time first + (days - 1) * 86400 <= refTime
         < StopTimesEntry.time first + days * 86400).
Proof.
  intros Hrun. apply frequency_rows_acc in Hrun as (new & -> & Hroutes & Hall).
  simpl. split; [done|].
  intros row Hrow. rewrite Forall_forall in Hall.
  destruct (Hall row Hrow) as (trip & stopTimes & first & Htrip & Hst & Hfirst & ->).
  simpl in *. do 3 (split; [done|]).
  destruct (Z.lt_ge_cases (StopTimesEntry.time first) refTime) as [Hlt|Hge].
  - destruct (offset_seconds_earlier _ _ Hlt) as (days & Hdays & Heq & Hmin).
    split; [lia|]. exists trip, stopTimes, first, days.
    repeat split; try done; lia.
  - rewrite (offset_seconds_later _ _ Hge).
    split; [lia|]. exists trip, stopTimes, first, 0.
    repeat split; try done; lia.
Qed.

(** ** Step 1: the longest contiguous run *)

Section SegmentScanProofs.
Variable treeNodes : list PathEnd.t.

Lemma seg_inv_init : seg_inv treeNodes 0 (seg_init treeNodes).
Proof.
  split; [done|]. split; [done|]. split; [simpl; lia|].
  left. split; [done|]. split; [done|].
  intros a b (? & _) ?. simpl in *. lia.
Qed.

Lemma boundary_restart (c : Z) (nd : PathEnd.t) :
  0 < c < len treeNodes -> treeNodes !! Z.to_nat c = Some nd ->
  is_boundary treeNodes c = PathEnd.restart nd.
Proof.
  intros Hc Hnd. unfold is_boundary. rewrite Hnd.
  destruct (Z.eqb_spec c 0); [lia|].
  destruct (Z.eqb_spec c (len treeNodes)); [lia|].
  destruct (Z.ltb_spec 0 c); [done|lia].
Qed.

Lemma boundary_ends (c : Z) :
  c = 0 \/ c = len treeNodes -> is_boundary treeNodes c = true.
Proof.
  intros [->| ->]; unfold is_boundary; [done|].
  rewrite Z.eqb_refl. by rewrite orb_true_r.
Qed.

(** A run that ends at or before a boundary [c] ends at or before the
    boundary [s0] that precedes [c], or is the run from [s0] to [c]. *)
Lemma run_before (s0 c a b : Z) :
  0 <= s0 < c -> is_boundary treeNodes s0 = true ->
  (forall i, s0 < i < c -> is_boundary treeNodes i = false) ->
  is_run treeNodes a b -> b <= c -> b <= s0 \/ (a = s0 /\ b = c).
Proof.
  intros Hs0 Hb0 Hgap (Hab & Hlen & Ha & Hb & Hin) Hbc.
  destruct (Z.le_gt_cases b s0) as [|Hgt]; [by left|right].
  assert (b = c) as ->.
  { destruct (Z.eq_dec b c); [done|]. rewrite Hgap in Hb; [done|lia]. }
  split; [|done].
  destruct (Z.lt_trichotomy a s0) as [Hlt|[->|Hgt']]; [|done|].
  - rewrite Hin in Hb0; [done|lia].
  - rewrite Hgap in Ha; [done|lia].
Qed.

(** Lines 190-197 at a boundary [c] that closes the run from [si]. *)
Lemma seg_close_best (si c lc tl ls le : Z) (ld : Q) (llc : Z) :
  0 <= si < c -> c <= len treeNodes ->
  is_boundary treeNodes si = true -> is_boundary treeNodes c = true ->
  (forall i, si < i < c -> is_boundary treeNodes i = false) ->
  best_so_far treeNodes (Seg.mk si c lc tl ls le ld llc) si ->
  exists s', seg_close treeNodes (Seg.mk si c lc tl ls le ld llc) = Ok s' /\
    Seg.curIndex s' = c /\ best_so_far treeNodes s' c.
Proof.
  intros Hsi Hc Hbsi Hbc Hgap Hbest. unfold seg_close; simpl.
  destruct (Z.ltb_spec si c); [|lia].
  destruct (Z.leb_spec 0 si); [|lia]. simpl.
  destruct (getitem_ok treeNodes (c - 1)) as (a & Ha & ->); [lia|].
  destruct (getitem_ok treeNodes si) as (b & Hb & ->); [lia|]. simpl.
  assert (float_span treeNodes si c
          = float_sub (PathEnd.totalDist a) (PathEnd.totalDist b)) as Hw.
  { unfold float_span, totalDist_at. by rewrite Ha, Hb. }
  rewrite <- Hw.
  assert (is_run treeNodes si c) as Hrun.
  { split; [lia|]. split; [lia|]. by repeat split. }
  destruct (Qltb ld _) eqn:Hcmp.
  - apply Qltb_true in Hcmp.
    eexists; split; [done|]. split; [done|].
    right. simpl. split; [done|]. split; [lia|]. split; [done|].
    assert (float_info_min <= ld)%Q as Hfloor.
    { destruct Hbest as [(_ & Hld & _)|(_ & _ & _ & Hmin & _)]; simpl in *.
      - rewrite Hld. lra.
      - lra. }
    split; [lra|].
    intros a0 b0 Hrab Hle.
    destruct (run_before si c a0 b0 Hsi Hbsi Hgap Hrab Hle) as [Hold|[-> ->]].
    + destruct Hbest as [(_ & Hld & Hall)|(_ & _ & _ & _ & Hall)]; simpl in *.
      * specialize (Hall _ _ Hrab Hold). split; [lra|intros; lra].
      * destruct (Hall _ _ Hrab Hold). split; [lra|intros; lra].
    + split; [lra|lia].
  - apply Qltb_false in Hcmp.
    eexists; split; [done|]. split; [done|].
    destruct Hbest as [(Hls & Hld & Hall)|(Hr & Hle & Hld & Hmin & Hall)];
      simpl in *.
    + left. simpl. split; [done|]. split; [done|].
      intros a0 b0 Hrab Hle.
      destruct (run_before si c a0 b0 Hsi Hbsi Hgap Hrab Hle) as [Hold|[-> ->]].
      * by apply Hall.
      * rewrite <- Hld. done.
    + right. simpl. split; [done|]. split; [lia|]. split; [done|].
      split; [done|].
      intros a0 b0 Hrab Hle'.
      destruct (run_before si c a0 b0 Hsi Hbsi Hgap Hrab Hle') as [Hold|[-> ->]].
      * by apply Hall.
      * split; [done|]. destruct Hr as ((? & ?) & _). lia.
Qed.

Lemma best_so_far_fields (s s' : Seg.t) (upto : Z) :
  Seg.longestStart s' = Seg.longestStart s ->
  Seg.longestEnd s' = Seg.longestEnd s ->
  Seg.longestDist s' = Seg.longestDist s ->
  best_so_far treeNodes s upto -> best_so_far treeNodes s' upto.
Proof. unfold best_so_far. by intros -> -> ->. Qed.

Lemma seg_step (c : Z) (s : Seg.t) :
  0 <= c <= len treeNodes -> seg_inv treeNodes c s ->
  exists s', seg_body treeNodes s = Ok s' /\ seg_inv treeNodes (c + 1) s'.
Proof.
  intros Hc (Hcur & Hfirst & Hstart & Hbest).
  destruct s as [si ci lc tl ls le ld llc]; simpl in *; subst ci.
  unfold seg_body, seg_at_boundary; simpl.
  assert (forall s1, Seg.curIndex s1 = c -> best_so_far treeNodes s1 c ->
            is_boundary treeNodes c = true ->
            seg_inv treeNodes (c + 1)
              (Seg.mk (Seg.curIndex s1) (Seg.curIndex s1 + 1) (Seg.linkCount s1)
                 (Seg.totalLinks s1) (Seg.longestStart s1) (Seg.longestEnd s1)
                 (Seg.longestDist s1) (Seg.longestLinkCount s1))) as Hnew.
  { intros s1 -> Hb1 Hbc. split; [done|]. split; [lia|].
    split; [intros _; simpl; split; [lia|]; split; [done|]; intros; lia|].
    simpl. by eapply best_so_far_fields; [..|exact Hb1]. }
  assert (is_boundary treeNodes c = true ->
          exists s', seg_close treeNodes (Seg.mk si c (lc + 1) (tl + 1) ls le ld llc)
                       = Ok s' /\
            Seg.curIndex s' = c /\ best_so_far treeNodes s' c) as Hclose.
  { intros Hbc. destruct (Z.eq_dec c 0) as [->|Hc0].
    - unfold seg_close; simpl. rewrite (Hfirst eq_refl). simpl.
      eexists; split; [done|]. split; [done|].
      left. destruct Hbest as [(Hls & Hld & _)|(((? & ?) & _) & Hle & _)];
        simpl in *.
      + split; [done|]. split; [done|]. intros a b ((? & ?) & _) ?. lia.
      + rewrite (Hfirst eq_refl) in Hle. lia.
    - destruct Hstart as (Hsi & Hbsi & Hgap); [lia|].
      apply seg_close_best; try done; lia. }
  destruct ((c =? len treeNodes) || (c =? 0)) eqn:Hends; simpl.
  - (* one of the two ends *)
    assert (is_boundary treeNodes c = true) as Hbc.
    { apply boundary_ends.
      apply orb_true_iff in Hends as [?%Z.eqb_eq|?%Z.eqb_eq]; auto. }
    destruct (Hclose Hbc) as (s1 & -> & Hc1 & Hb1). simpl.
    eexists; split; [done|].
    specialize (Hnew s1 Hc1 Hb1 Hbc). by rewrite Hc1 in *.
  - (* an inner position *)
    apply orb_false_iff in Hends as [Hn%Z.eqb_neq H0%Z.eqb_neq].
    destruct (getitem_ok treeNodes c) as (nd & Hnd & ->); [lia|]. simpl.
    pose proof (boundary_restart c nd ltac:(lia) Hnd) as Hbc.
    destruct (PathEnd.restart nd) eqn:Hrestart; simpl.
    + destruct (Hclose Hbc) as (s1 & -> & Hc1 & Hb1). simpl.
      eexists; split; [done|].
      specialize (Hnew s1 Hc1 Hb1 Hbc). by rewrite Hc1 in *.
    + destruct Hstart as (Hsi & Hbsi & Hgap); [lia|].
      eexists; split; [done|].
      split; [done|]. split; [lia|]. simpl.
      split; [|by eapply best_so_far_fields; [..|exact Hbest]].
      intros _. split; [lia|]. split; [done|].
      intros i Hi. destruct (Z.eq_dec i c) as [->|]; [done|]. apply Hgap. lia.
Qed.

Lemma seg_loop_runs (fuel : nat) (c : Z) (s : Seg.t) :
  0 <= c <= len treeNodes + 1 ->
  Z.of_nat fuel = len treeNodes + 1 - c ->
  seg_inv treeNodes c s ->
  exists s', seg_loop treeNodes fuel s = Ok s' /\
    seg_inv treeNodes (len treeNodes + 1) s'.
Proof.
  revert c s. induction fuel as [|fuel IH]; intros c s Hc Hfuel Hinv.
  - assert (c = len treeNodes + 1) as -> by lia. simpl.
    destruct Hinv as (Hcur & ?). rewrite Hcur.
    destruct (Z.leb_spec (len treeNodes + 1) (len treeNodes)); [lia|].
    exists s. split; [done|]. by split.
  - simpl. pose proof Hinv as (Hcur & _). rewrite Hcur.
    destruct (Z.leb_spec c (len treeNodes)); [|lia].
    destruct (seg_step c s) as (s1 & -> & Hinv1); [lia|done|]. simpl.
    apply (IH (c + 1)); [lia|lia|done].
Qed.

Lemma segment_scan_inv :
  exists seg, segment_scan treeNodes = Ok seg /\
    Seg.curIndex seg = len treeNodes + 1 /\
    best_so_far treeNodes seg (len treeNodes).
Proof.
  destruct (seg_loop_runs (S (length treeNodes)) 0 (seg_init treeNodes))
    as (seg & Hrun & Hcur & _ & Hstart & Hbest).
  - unfold len. lia.
  - unfold len. lia.
  - apply seg_inv_init.
  - exists seg. split; [done|]. split; [done|].
    destruct Hstart as (Hsi & Hbsi & Hgap); [unfold len; lia|].
    assert (Seg.startIndex seg = len treeNodes) as <-; [|done].
    destruct (Z.eq_dec (Seg.startIndex seg) (len treeNodes)) as [|Hne]; [done|].
    pose proof (Hgap (len treeNodes) ltac:(lia)) as Hno.
    rewrite boundary_ends in Hno; [done|auto].
Qed.
End SegmentScanProofs.

(** C3 (amended). The scan of Step 1 always ends.  It compares the spans
    of the runs as it computes them, in doubles ([float_span]: the
    difference of two cumulative distances, rounded).  When no run has a
    computed span above [sys.float_info.min] it selects nothing
    ([longestStart] stays -1), and this is so in particular when no run
    spans more than that exactly; otherwise its interval is a run whose
    computed span is above [sys.float_info.min], at least the computed
    span of every run, and strictly above that of every run before it
    (of runs that compare equal, by their lengths or by rounding, the
    first is kept).  For a sequence without inner boundaries whose
    computed span is above [sys.float_info.min], the interval is the
    whole sequence. *)
Theorem longest_run_selected (treeNodes : list PathEnd.t) :
  exists seg, segment_scan treeNodes = Ok seg /\
    ((Seg.longestStart seg = -1 /\
      forall a b, is_run treeNodes a b ->
        (float_span treeNodes a b <= float_info_min)%Q)
     \/
     (is_run treeNodes (Seg.longestStart seg) (Seg.longestEnd seg) /\
      (float_info_min
         < float_span treeNodes (Seg.longestStart seg) (Seg.longestEnd seg))%Q /\
      forall a b, is_run treeNodes a b ->
        (float_span treeNodes a b
           <= float_span treeNodes (Seg.longestStart seg) (Seg.longestEnd seg))%Q /\
        (a < Seg.longestStart seg ->
         (float_span treeNodes a b
            < float_span treeNodes (Seg.longestStart seg) (Seg.longestEnd seg))%Q)))
    /\
    ((forall a b, is_run treeNodes a b ->
        (span treeNodes a b <= float_info_min)%Q) ->
     Seg.longestStart seg = -1)
    /\
    ((forall i, 0 < i < len treeNodes -> is_boundary treeNodes i = false) ->
     (float_info_min < float_span treeNodes 0 (len treeNodes))%Q ->
     Seg.longestStart seg = 0 /\ Seg.longestEnd seg = len treeNodes).
Proof.
  destruct (segment_scan_inv treeNodes) as (seg & Hscan & _ & Hbest).
  exists seg. split; [done|].
  assert ((Seg.longestStart seg = -1 /\
      forall a b, is_run treeNodes a b ->
        (float_span treeNodes a b <= float_info_min)%Q)
     \/
     (is_run treeNodes (Seg.longestStart seg) (Seg.longestEnd seg) /\
      (float_info_min
         < float_span treeNodes (Seg.longestStart seg) (Seg.longestEnd seg))%Q /\
      forall a b, is_run treeNodes a b ->
        (float_span treeNodes a b
           <= float_span treeNodes (Seg.longestStart seg) (Seg.longestEnd seg))%Q /\
        (a < Seg.longestStart seg ->
         (float_span treeNodes a b
            < float_span treeNodes (Seg.longestStart seg) (Seg.longestEnd seg))%Q)))
    as Hmain.
  { destruct Hbest as [(Hls & _ & Hall)|(Hr & _ & Hld & Hmin & Hall)].
    - left. split; [done|]. intros a b Hab. apply Hall; [done|]. apply Hab.
    - right. rewrite <- Hld. split; [done|]. split; [done|].
      intros a b Hab. apply Hall; [done|]. apply Hab. }
  split; [done|]. split.
  { intros Hexact. destruct Hmain as [[? _]|(Hrun & Hwide & _)]; [done|].
    specialize (Hexact _ _ Hrun). apply float_round_small in Hexact.
    unfold float_span, float_sub in Hwide. unfold span in Hexact. lra. }
  intros Hinner Hwide.
  assert (0 < len treeNodes) as Hlen.
  { destruct treeNodes; [|unfold len; simpl; lia].
    unfold float_span, float_sub, totalDist_at in Hwide. simpl in Hwide.
    pose proof (float_round_small (0 - 0) ltac:(done)). lra. }
  assert (is_run treeNodes 0 (len treeNodes)) as Hwhole.
  { split; [lia|]. split; [lia|].
    split; [by apply boundary_ends; left|].
    split; [by apply boundary_ends; right|]. done. }
  destruct Hmain as [(_ & Hall)|(((Hlo & Hhi) & Hle & Hbs & Hbe & _) & _)].
  - specialize (Hall _ _ Hwhole). lra.
  - split.
    + destruct (Z.eq_dec (Seg.longestStart seg) 0) as [|Hne]; [done|].
      rewrite Hinner in Hbs; [done|lia].
    + destruct (Z.eq_dec (Seg.longestEnd seg) (len treeNodes)) as [|Hne]; [done|].
      rewrite Hinner in Hbe; [done|lia].
Qed.

(** C3, counterexample. A path of one matched position has no inner
    boundary and is its own only run, yet the scan does not select it:
    its span 0 does not exceed [sys.float_info.min]. *)
Lemma single_position_not_selected :
  Demo.single_position <> [] /\
  (forall i, 0 < i < len Demo.single_position ->
     is_boundary Demo.single_position i = false) /\
  is_run Demo.single_position 0 1 /\
  ~ selects_whole Demo.single_position.
Proof.
  split; [done|]. split; [unfold len; simpl; lia|].
  split.
  - split; [lia|]. split; [done|]. split; [done|]. split; [done|]. lia.
  - intros (seg & Hscan & Hstart & _). vm_compute in Hscan.
    injection Hscan as <-. done.
Qed.

(** ** Step 3: the scan of one link *)

Lemma getitem_nat {A} (l : list A) (n : nat) :
  getitem l (Z.of_nat n) =
  match l !! n with Some x => Ok x | None => Raise IndexError end.
Proof.
  unfold getitem.
  destruct (Z.ltb_spec (Z.of_nat n) 0) as [|_]; [lia|].
  destruct (Z.ltb_spec (Z.of_nat n) 0) as [|_]; [lia|].
  by rewrite Nat2Z.id.
Qed.

Lemma len_cons {A} (x : A) (l : list A) : len (x :: l) = 1 + len l.
Proof. unfold len. simpl. lia. Qed.

Lemma seqs_of_cons (e : PathEnd.t) (block : list PathEnd.t) :
  seqs_of (e :: block) = {[shapeSeq_of e]} ∪ seqs_of block.
Proof. done. Qed.

Section LinkScanProofs.
Variable resultTree : list PathEnd.t.
Variable linkID : Z.

Lemma scan_loop_unfold (fuel : nat) (s : Scan.t) :
  Scan.curResultIndex s < len resultTree ->
  scan_loop resultTree linkID (S fuel) s =
  rbind (scan_match resultTree linkID s)
    (fun s1 =>
       scan_next resultTree linkID fuel
         (Scan.mk (Scan.bestTreeEntry s1) (Scan.curResultIndex s1 + 1)
            (Scan.matchCtr s1) (Scan.resultIndex s1) (Scan.foundStopSet s1))).
Proof.
  intros Hlt. simpl. by destruct (Z.ltb_spec (Scan.curResultIndex s) (len resultTree)); [|lia].
Qed.

(** Once an entry has matched, the scan consumes the entries on the
    link that follow and stops at the first one that is not. *)
Lemma scan_next_block (fuel k : nat) (b : PathEnd.t) (m : Z) (found : gset Z) :
  0 < m -> (length resultTree <= fuel + k)%nat ->
  let block := take_while (on_link linkID) (drop k resultTree) in
  scan_next resultTree linkID fuel
    (Scan.mk (Some b) (Z.of_nat k) m (Z.of_nat k) found)
  = Ok (Scan.mk (Some (foldl nearer b block)) (Z.of_nat k + len block)
          (m + len block) (Z.of_nat k + len block) (seqs_of block ∪ found)).
Proof.
  revert k b m found. induction fuel as [|fuel IH]; intros k b m found Hm Hfuel.
  - rewrite drop_ge by lia. simpl. unfold scan_next, scan_continue; simpl.
    destruct (Z.eqb_spec m 0); [lia|].
    destruct (Z.ltb_spec (Z.of_nat k) (len resultTree)); [unfold len in *; lia|].
    simpl. f_equal. f_equal; try (unfold len; simpl; lia).
    unfold seqs_of. simpl. by rewrite (left_id_L ∅ (∪)).
  - cbv zeta. unfold scan_next at 1, scan_continue;
      cbn [Scan.matchCtr Scan.curResultIndex Scan.resultIndex].
    destruct (Z.eqb_spec m 0); [lia|].
    destruct (Z.ltb_spec (Z.of_nat k) (len resultTree)) as [Hlt|Hge].
    + destruct (lookup_lt_is_Some_2 resultTree k) as [e He];
        [unfold len in Hlt; lia|].
      rewrite getitem_nat, He. cbn [rbind].
      rewrite (drop_S _ _ _ He). cbn [take_while]. fold (on_link linkID e).
      destruct (on_link linkID e) eqn:Hon.
      * pose proof (IH (S k) (nearer b e) (m + 1) ({[shapeSeq_of e]} ∪ found)
                      ltac:(lia) ltac:(lia)) as Hih.
        rewrite scan_loop_unfold by done.
        unfold scan_match; cbn [Scan.curResultIndex Scan.resultIndex
          Scan.bestTreeEntry Scan.matchCtr Scan.foundStopSet].
        rewrite getitem_nat, He. cbn [rbind].
        fold (on_link linkID e). rewrite Hon.
        cbn [rbind Scan.curResultIndex Scan.resultIndex
          Scan.bestTreeEntry Scan.matchCtr Scan.foundStopSet].
        replace (Z.of_nat k + 1) with (Z.of_nat (S k)) by lia.
        fold (nearer b e). rewrite Hih. rewrite len_cons, seqs_of_cons.
        cbn [foldl].
        f_equal. f_equal; try lia.
        by rewrite (assoc_L (∪)), (comm_L (∪) (seqs_of _)).
      * cbn [take_while foldl]. f_equal.
        f_equal; try (unfold len; simpl; lia).
        unfold seqs_of. simpl. by rewrite (left_id_L ∅ (∪)).
    + rewrite drop_ge by (unfold len in Hge; lia). cbn [rbind take_while foldl].
      f_equal. f_equal; try (unfold len; simpl; lia).
      unfold seqs_of. simpl. by rewrite (left_id_L ∅ (∪)).
Qed.

(** Before any entry has matched, the scan passes over the entries that
    are not on the link. *)
Lemma scan_loop_skip (fuel k : nat) (r : Z) (found : gset Z) :
  0 <= r <= Z.of_nat k -> (length resultTree <= fuel + k)%nat ->
  exists s,
    scan_loop resultTree linkID fuel (Scan.mk None (Z.of_nat k) 0 r found) = Ok s /\
    let rest := drop k resultTree in
    let skipped := take_while (off_link linkID) rest in
    let block := take_while (on_link linkID) (drop (length skipped) rest) in
    Scan.matchCtr s = len block /\
    Scan.foundStopSet s = seqs_of block ∪ found /\
    Scan.resultIndex s =
      match block with
      | [] => r
      | _ => Z.of_nat k + len skipped + len block
      end /\
    Scan.curResultIndex s =
      match block with
      | [] => Z.max (Z.of_nat k) (len resultTree)
      | _ => Z.of_nat k + len skipped + len block
      end /\
    match block with
    | [] => Scan.bestTreeEntry s = None
    | _ :: others =>
        exists c, resultTree !! Z.to_nat r = Some c /\
          Scan.bestTreeEntry s = Some (foldl nearer c others)
    end.
Proof.
  assert (forall n : nat,
            (length resultTree <= n)%nat ->
            Z.of_nat 0 = len (@nil PathEnd.t) /\
            found = seqs_of [] ∪ found /\
            r = r /\
            Z.of_nat n = Z.max (Z.of_nat n) (len resultTree) /\
            @None PathEnd.t = None) as Hnone.
  { intros n Hn. split; [done|]. split; [|unfold len; split; [done|split; [lia|done]]].
    unfold seqs_of. simpl. by rewrite (left_id_L ∅ (∪)). }
  revert k. induction fuel as [|fuel IH]; intros k Hr Hfuel.
  - rewrite drop_ge by lia. simpl.
    destruct (Z.ltb_spec (Z.of_nat k) (len resultTree)); [unfold len in *; lia|].
    eexists; split; [done|]. apply Hnone. lia.
  - destruct (decide (k < length resultTree)%nat) as [Hlt|Hge].
    + destruct (lookup_lt_is_Some_2 resultTree k Hlt) as [e He].
      cbv zeta. rewrite (drop_S _ _ _ He). cbn [take_while].
      assert (off_link linkID e = negb (on_link linkID e)) as -> by done.
      rewrite scan_loop_unfold by (unfold len; simpl; lia).
      unfold scan_match; cbn [Scan.curResultIndex Scan.resultIndex
        Scan.bestTreeEntry Scan.matchCtr Scan.foundStopSet].
      rewrite getitem_nat, He. cbn [rbind]. fold (on_link linkID e).
      destruct (on_link linkID e) eqn:Hon; cbn [negb length drop take_while].
      * destruct (getitem_ok resultTree r) as (c & Hc & ->);
          [unfold len; lia|].
        cbn [rbind Scan.curResultIndex Scan.resultIndex
          Scan.bestTreeEntry Scan.matchCtr Scan.foundStopSet].
        rewrite Hon.
        replace (Z.of_nat k + 1) with (Z.of_nat (S k)) by lia.
        rewrite (scan_next_block fuel (S k) c (0 + 1) ({[shapeSeq_of e]} ∪ found))
          by lia.
        eexists; split; [done|].
        cbn [Scan.matchCtr Scan.foundStopSet Scan.resultIndex
          Scan.bestTreeEntry Scan.curResultIndex].
        rewrite len_cons, seqs_of_cons.
        split; [lia|].
        split; [by rewrite (assoc_L (∪)), (comm_L (∪) (seqs_of _))|].
        split; [unfold len; simpl; lia|].
        split; [unfold len; simpl; lia|by exists c].
      * cbn [rbind Scan.curResultIndex Scan.resultIndex
          Scan.bestTreeEntry Scan.matchCtr Scan.foundStopSet].
        replace (Z.of_nat k + 1) with (Z.of_nat (S k)) by lia.
        unfold scan_next, scan_continue; cbn [Scan.matchCtr rbind Z.eqb].
        destruct (IH (S k)) as (s & -> & Hm & Hf & Hri & Hcur & Hbest);
          [lia|lia|].
        exists s. split; [done|]. split; [done|]. split; [done|].
        rewrite Hri, Hcur, len_cons.
        destruct (take_while (on_link linkID) _);
          (split; [|split]; try done; unfold len in *; lia).
    + rewrite drop_ge by lia. simpl.
      destruct (Z.ltb_spec (Z.of_nat k) (len resultTree)); [unfold len in *; lia|].
      eexists; split; [done|]. apply Hnone. lia.
Qed.
End LinkScanProofs.

(** C6 (amended). From a cursor that is not negative, the scan of one
    link ends without an exception.  It passes over the entries from the
    cursor whose link differs from the link, up to the first entry on the
    link; it consumes that entry and the entries on the link that follow
    it without interruption, and stops at the first entry after them
    whose link differs.  The sequence numbers of the consumed entries
    join the found-set and the cursor moves just past them; when no entry
    from the cursor on is on the link, the scan runs to the end of the
    result tree, nothing is consumed and the cursor stays. *)
Theorem scan_consumes_first_block
    (resultTree : list PathEnd.t) (linkID resultIndex : Z)
    (foundStopSet : gset Z) :
  0 <= resultIndex ->
  let rest := drop (Z.to_nat resultIndex) resultTree in
  let skipped := take_while (off_link linkID) rest in
  let block := take_while (on_link linkID) (drop (length skipped) rest) in
  exists s, scan_link resultTree linkID resultIndex foundStopSet = Ok s /\
    Scan.matchCtr s = len block /\
    Scan.foundStopSet s = seqs_of block ∪ foundStopSet /\
    Scan.resultIndex s =
      match block with
      | [] => resultIndex
      | _ => resultIndex + len skipped + len block
      end /\
    Scan.curResultIndex s =
      match block with
      | [] => Z.max resultIndex (len resultTree)
      | _ => resultIndex + len skipped + len block
      end.
Proof.
  intros Hr. cbv zeta. unfold scan_link.
  destruct (scan_loop_skip resultTree linkID (length resultTree)
              (Z.to_nat resultIndex) resultIndex foundStopSet)
    as (s & Hs & Hm & Hf & Hri & Hcur & _); [lia|lia|].
  rewrite Z2Nat.id in Hs, Hri, Hcur by done.
  exists s. by rewrite Hs.
Qed.

(** What the scan keeps: the entry at the cursor, unless an entry of the
    block after the first is strictly nearer. *)
Lemma scan_link_kept_entry
    (resultTree : list PathEnd.t) (linkID resultIndex : Z)
    (foundStopSet : gset Z) :
  0 <= resultIndex ->
  exists s, scan_link resultTree linkID resultIndex foundStopSet = Ok s /\
    let rest := drop (Z.to_nat resultIndex) resultTree in
    let skipped := take_while (off_link linkID) rest in
    match take_while (on_link linkID) (drop (length skipped) rest) with
    | [] => Scan.bestTreeEntry s = None
    | _ :: others =>
        exists c, resultTree !! Z.to_nat resultIndex = Some c /\
          Scan.bestTreeEntry s = Some (foldl nearer c others)
    end.
Proof.
  intros Hr. unfold scan_link.
  destruct (scan_loop_skip resultTree linkID (length resultTree)
              (Z.to_nat resultIndex) resultIndex foundStopSet)
    as (s & Hs & _ & _ & _ & _ & Hbest); [lia|lia|].
  rewrite Z2Nat.id in Hs by done.
  exists s. by rewrite Hs.
Qed.

Lemma foldl_nearer_first (b : PathEnd.t) (l : list PathEnd.t) :
  first_nearest (foldl nearer b l) (b :: l).
Proof.
  induction l as [|x l IH] using rev_ind.
  - exists [], []. split; [done|]. split; by intros c ?%elem_of_nil.
  - rewrite foldl_app. cbn [foldl].
    destruct IH as (pre & post & Hsplit & Hpre & Hpost).
    unfold nearer at 1.
    destruct (Qltb (refDist_of x) (refDist_of (foldl nearer b l))) eqn:Hcmp.
    + apply Qltb_true in Hcmp.
      exists (pre ++ foldl nearer b l :: post), [].
      split; [by rewrite app_comm_cons, Hsplit|].
      split; [|by intros c ?%elem_of_nil].
      intros c [Hc|[->|Hc]%elem_of_cons]%elem_of_app.
      * specialize (Hpre c Hc). lra.
      * done.
      * specialize (Hpost c Hc). lra.
    + apply Qltb_false in Hcmp.
      exists pre, (post ++ [x]).
      split; [by rewrite app_comm_cons, Hsplit, <- app_assoc|].
      split; [done|].
      intros c [Hc| ->%list_elem_of_singleton]%elem_of_app; [auto|done].
Qed.

(** When the entry at the cursor is on the link, the scan keeps the first
    entry of least reference distance of the block that begins there. *)
Lemma scan_link_nearest_at_cursor
    (resultTree : list PathEnd.t) (linkID resultIndex : Z)
    (foundStopSet : gset Z) (c : PathEnd.t) :
  0 <= resultIndex ->
  resultTree !! Z.to_nat resultIndex = Some c -> on_link linkID c = true ->
  exists s kept, scan_link resultTree linkID resultIndex foundStopSet = Ok s /\
    Scan.bestTreeEntry s = Some kept /\
    first_nearest kept
      (take_while (on_link linkID) (drop (Z.to_nat resultIndex) resultTree)).
Proof.
  intros Hr Hc Hon.
  destruct (scan_link_kept_entry resultTree linkID resultIndex foundStopSet Hr)
    as (s & Hs & Hbest).
  cbv zeta in Hbest. rewrite (drop_S _ _ _ Hc) in Hbest |- *.
  cbn [take_while] in Hbest |- *. unfold off_link in Hbest.
  rewrite Hon in Hbest |- *. cbn [negb length drop take_while] in Hbest.
  rewrite Hon in Hbest.
  destruct Hbest as (c' & Hc' & Hkept).
  assert (c' = c) as -> by congruence.
  exists s, (foldl nearer c (take_while (on_link linkID)
                               (drop (S (Z.to_nat resultIndex)) resultTree))).
  split; [done|]. split; [done|]. apply foldl_nearer_first.
Qed.

Lemma scan_consumes_first_block_witness :
  exists s, scan_link Demo.second_pass 20 0 ∅ = Ok s /\
    Scan.matchCtr s = 2 /\
    Scan.foundStopSet s = seqs_of (drop 1 Demo.second_pass) ∪ ∅ /\
    Scan.resultIndex s = 3 /\
    Scan.curResultIndex s = 3.
Proof.
  apply (scan_consumes_first_block Demo.second_pass 20 0 ∅). lia.
Defined.

(** C6, counterexample. With the cursor on an entry of link 21, the scan
    of link 20 goes past it and consumes the two entries of link 20 that
    follow, although no entry on link 20 begins at the cursor. *)
Lemma scan_passes_other_links :
  ~ consumes_block_at_cursor Demo.second_pass 20 0 ∅.
Proof.
  intros (s & Hs & Hm & _). vm_compute in Hs. injection Hs as <-.
  vm_compute in Hm. done.
Qed.

(** C2, at the failing input. Trip 2 goes over links 20, 21 and 20; the
    search puts stop sequence 1 on link 21 and sequences 2 and 3 on link
    20, at reference distances 3 and 2.  The scan of link 20 starts with
    the cursor on the entry of sequence 1; it counts two matches and
    keeps the entry of sequence 1, which is not on link 20.  The trip
    then writes stop 601 on the row of link 20, names it in the
    duplicate warning, files it in [ret] under link 21, and writes no
    row for stop 603, the nearer of the two stops matched on link 20. *)
Theorem duplicate_keeps_cursor_entry :
  (exists s kept,
     scan_link Demo.second_pass 20 0 ∅ = Ok s /\
     Scan.matchCtr s = 2 /\
     Scan.bestTreeEntry s = Some kept /\
     shapeSeq_of kept = 1 /\ link_id_of kept = 21 /\
     kept ∉ filter (fun e => on_link 20 e = true) Demo.second_pass) /\
  (let st := (process_trip false Demo.gtfsTrips Demo.gtfsNodes
                Demo.stopTimes_second_pass Demo.vistaNetwork
                Demo.search_second_pass 2 initial_state).1 in
   outFile st = [RowStop 2 0 20 601 0; RowNoStop 2 1 21; RowNoStop 2 2 20] /\
   stderr st = [InfoRoute 2; InfoMapping; WarnDuplicate 2 2 20 601 1;
                WarnUnmatched 2 601 1] /\
   (GraphLink.id ∘ PointOnLink.link) <$> ret st !! 601 = Some 21 /\
   ret st !! 603 = None).
Proof.
  split.
  - eexists _, _. split; [vm_compute; reflexivity|].
    split; [done|]. split; [done|]. split; [done|]. split; [done|].
    intros [Hon _]%list_elem_of_filter. vm_compute in Hon. done.
  - vm_compute. done.
Qed.

(** ** Rules for [wp] *)

Lemma wp_run {A} (m : M A) (st st' : State) (r : Result A)
    (Q : State -> Result A -> Prop) :
  wp m st Q -> m st = (st', r) -> Q st' r.
Proof. unfold wp. intros H Heq. by rewrite Heq in H. Qed.

Lemma wp_conseq {A} (m : M A) (st : State) (Q Q' : State -> Result A -> Prop) :
  wp m st Q -> (forall st' r, Q st' r -> Q' st' r) -> wp m st Q'.
Proof. unfold wp. auto. Qed.

Lemma wp_unit {A} (a : A) (st : State) (Q : State -> Result A -> Prop) :
  Q st (Ok a) -> wp (unit_M a) st Q.
Proof. done. Qed.

Lemma wp_lift {A} (r : Result A) (st : State) (Q : State -> Result A -> Prop) :
  Q st r -> wp (lift r) st Q.
Proof. done. Qed.

Lemma wp_bind {A B} (m : M A) (f : A -> M B) (st : State)
    (Q : State -> Result B -> Prop) :
  wp m st (fun st1 r1 =>
             match r1 with
             | Ok a => wp (f a) st1 Q
             | Raise e => Q st1 (Raise e)
             end) ->
  wp (bind_M m f) st Q.
Proof. unfold wp, bind_M. by destruct (m st) as [st1 [a|e]]. Qed.

Lemma wp_bind_run {A B} (m : M A) (f : A -> M B) (st : State)
    (Q : State -> Result B -> Prop) :
  (forall st1 r1, m st = (st1, r1) ->
     match r1 with
     | Ok a => wp (f a) st1 Q
     | Raise e => Q st1 (Raise e)
     end) ->
  wp (bind_M m f) st Q.
Proof.
  intros H. apply wp_bind. unfold wp at 1. apply H. by destruct (m st).
Qed.

Lemma wp_and {A} (m : M A) (st : State) (Q1 Q2 : State -> Result A -> Prop) :
  wp m st Q1 -> wp m st Q2 -> wp m st (fun st' r => Q1 st' r /\ Q2 st' r).
Proof. unfold wp. auto. Qed.

Lemma wp_emit (row : Row) (st : State) (Q : State -> Result unit -> Prop) :
  Q (mkState (ret st) (problemReportNodes st) (outFile st ++ [row]) (stderr st)
       (vistaNode st)) (Ok tt) ->
  wp (emit row) st Q.
Proof. done. Qed.

Lemma wp_log (e : LogEvent) (st : State) (Q : State -> Result unit -> Prop) :
  Q (mkState (ret st) (problemReportNodes st) (outFile st) (stderr st ++ [e])
       (vistaNode st)) (Ok tt) ->
  wp (log e) st Q.
Proof. done. Qed.

Lemma wp_get_ret (st : State) (Q : State -> Result (gmap Z PointOnLink.t) -> Prop) :
  Q st (Ok (ret st)) -> wp get_ret st Q.
Proof. done. Qed.

Lemma wp_set_ret (r : gmap Z PointOnLink.t) (st : State)
    (Q : State -> Result unit -> Prop) :
  Q (mkState r (problemReportNodes st) (outFile st) (stderr st) (vistaNode st))
    (Ok tt) ->
  wp (set_ret r) st Q.
Proof. done. Qed.

Lemma wp_get_problemReportNodes (st : State)
    (Q : State -> Result (gmap Z (gmap Z ReportNode.t)) -> Prop) :
  Q st (Ok (problemReportNodes st)) -> wp get_problemReportNodes st Q.
Proof. done. Qed.

Lemma wp_set_problemReportNodes (p : gmap Z (gmap Z ReportNode.t)) (st : State)
    (Q : State -> Result unit -> Prop) :
  Q (mkState (ret st) p (outFile st) (stderr st) (vistaNode st)) (Ok tt) ->
  wp (set_problemReportNodes p) st Q.
Proof. done. Qed.

Lemma wp_get_vistaNode (st : State) (Q : State -> Result GraphNode.t -> Prop) :
  Q st (match vistaNode st with
        | Some n => Ok n
        | None => Raise UnboundLocalError
        end) ->
  wp get_vistaNode st Q.
Proof. done. Qed.

Lemma wp_set_vistaNode (n : GraphNode.t) (st : State)
    (Q : State -> Result unit -> Prop) :
  Q (mkState (ret st) (problemReportNodes st) (outFile st) (stderr st) (Some n))
    (Ok tt) ->
  wp (set_vistaNode n) st Q.
Proof. done. Qed.

(** A loop keeps an invariant [Inv] of the elements already treated, the
    accumulator and the state; an exception leaves through [Q]. *)
Lemma wp_for {A B} (f : B -> A -> M B) (l : list A) (acc : B) (st : State)
    (Inv : list A -> B -> State -> Prop) (Q : State -> Result B -> Prop) :
  Inv [] acc st ->
  (forall seen x rest acc st, l = seen ++ x :: rest -> Inv seen acc st ->
     wp (f acc x) st (fun st' r =>
                        match r with
                        | Ok acc' => Inv (seen ++ [x]) acc' st'
                        | Raise e => Q st' (Raise e)
                        end)) ->
  (forall acc st, Inv l acc st -> Q st (Ok acc)) ->
  wp (for_M f l acc) st Q.
Proof.
  intros Hinit Hstep Hend.
  assert (forall rest seen acc st,
            l = seen ++ rest -> Inv seen acc st -> wp (for_M f rest acc) st Q)
    as Hgen.
  { induction rest as [|x rest IH]; intros seen acc' st' Hl Hinv; simpl.
    - apply wp_unit, Hend. by rewrite Hl, app_nil_r.
    - apply wp_bind. eapply wp_conseq; [by eapply Hstep|].
      intros st1 [acc1|e]; [|done]. apply (IH (seen ++ [x])).
      by rewrite <- app_assoc. }
  by apply (Hgen l []).
Qed.

(** One step through a program of [M]. *)
Ltac wp_step :=
  cbn [ret problemReportNodes outFile stderr vistaNode];
  lazymatch goal with
  | |- wp (bind_M _ _) _ _ => apply wp_bind
  | |- wp (unit_M _) _ _ => apply wp_unit
  | |- wp (lift _) _ _ => apply wp_lift
  | |- wp (emit _) _ _ => apply wp_emit
  | |- wp (log _) _ _ => apply wp_log
  | |- wp get_ret _ _ => apply wp_get_ret
  | |- wp (set_ret _) _ _ => apply wp_set_ret
  | |- wp get_problemReportNodes _ _ => apply wp_get_problemReportNodes
  | |- wp (set_problemReportNodes _) _ _ => apply wp_set_problemReportNodes
  | |- wp get_vistaNode _ _ => apply wp_get_vistaNode
  | |- wp (set_vistaNode _) _ _ => apply wp_set_vistaNode
  | |- wp (if ?b then _ else _) _ _ => destruct b eqn:?
  | |- wp (match ?x with _ => _ end) _ _ => destruct x eqn:?
  | |- match ?r with Ok _ => _ | Raise _ => _ end => destruct r eqn:?
  | |- wp (let '(_, _) := ?x in _) _ _ => destruct x eqn:?
  end.

Ltac wp_steps := repeat wp_step.

(** ** A trip without a matched path *)

(** C10. A trip whose shape has no entry in [gtfsNodes] is passed over:
    the state after it is the state before it, so that no row and no
    message is written and neither [ret] nor the problem report nodes
    change. *)
Theorem trip_without_path_skipped
    (problemReport : bool)
    (gtfsTrips : gmap Z TripsEntry.t)
    (gtfsNodes : gmap Z (list PathEnd.t))
    (gtfsStopTimes : gmap Z (list StopTimesEntry.t))
    (vistaNetwork : GraphLib.t)
    (constructPath : list ShapesEntry.t -> GraphLib.t -> Result (list PathEnd.t))
    (tripID : Z) (trip : TripsEntry.t) (shape0 : ShapesEntry.t) (st : State) :
  gtfsTrips !! tripID = Some trip ->
  TripsEntry.shapeEntries trip !! 0%nat = Some shape0 ->
  gtfsNodes !! ShapesEntry.shapeID shape0 = None ->
  process_trip problemReport gtfsTrips gtfsNodes gtfsStopTimes vistaNetwork
    constructPath tripID st = (st, Ok None).
Proof.
  intros Htrip Hshape Hnodes. unfold process_trip, getkey.
  rewrite Htrip. unfold bind_M at 1. simpl.
  rewrite (getitem_nat _ 0), Hshape. unfold bind_M at 1. simpl.
  by rewrite Hnodes.
Qed.

Lemma trip_without_path_skipped_witness :
  Demo.process true 3 initial_state = (initial_state, Ok None).
Proof.
  by apply (trip_without_path_skipped true Demo.gtfsTrips Demo.gtfsNodes
              Demo.gtfsStopTimes Demo.vistaNetwork Demo.constructPath 3
              (TripsEntry.mk 3 [ShapesEntry.mk 300 0 0 0])
              (ShapesEntry.mk 300 0 0 0)).
Defined.

(** ** Step 3: the walk over the output links *)

Lemma same_link_kept_refl (r : gmap Z PointOnLink.t) : same_link_kept r r.
Proof. intros stopID p Hp. by exists p. Qed.

Lemma same_link_kept_trans (r1 r2 r3 : gmap Z PointOnLink.t) :
  same_link_kept r1 r2 -> same_link_kept r2 r3 -> same_link_kept r1 r3.
Proof.
  intros H12 H23 stopID p Hp.
  destruct (H12 _ _ Hp) as (p2 & Hp2 & Heq2).
  destruct (H23 _ _ Hp2) as (p3 & Hp3 & Heq3).
  exists p3. split; [done|]. by rewrite Heq3.
Qed.

Lemma same_link_kept_new (r : gmap Z PointOnLink.t) (stopID : Z) (p : PointOnLink.t) :
  r !! stopID = None -> same_link_kept r (<[stopID := p]> r).
Proof.
  intros Hnone s q Hq. exists q. split; [|done].
  rewrite lookup_insert_ne; [done|]. intros ->. by rewrite Hnone in Hq.
Qed.

Lemma same_link_kept_same (r : gmap Z PointOnLink.t) (stopID : Z)
    (p q : PointOnLink.t) :
  r !! stopID = Some q ->
  GraphLink.id (PointOnLink.link p) = GraphLink.id (PointOnLink.link q) ->
  same_link_kept r (<[stopID := p]> r).
Proof.
  intros Hq Heq s q' Hq'. destruct (decide (s = stopID)) as [->|Hne].
  - exists p. rewrite lookup_insert_eq. split; [done|]. congruence.
  - exists q'. by rewrite lookup_insert_ne.
Qed.

Lemma walk_frame_refl (st : State) : walk_frame st st.
Proof.
  split; [apply same_link_kept_refl|]. split; [done|]. split; [done|].
  exists []. by rewrite app_nil_r.
Qed.

Lemma walk_frame_trans (st1 st2 st3 : State) :
  walk_frame st1 st2 -> walk_frame st2 st3 -> walk_frame st1 st3.
Proof.
  intros (Hr1 & Hp1 & Hv1 & evs1 & He1 & Hu1) (Hr2 & Hp2 & Hv2 & evs2 & He2 & Hu2).
  split; [by eapply same_link_kept_trans|].
  split; [congruence|]. split; [congruence|].
  exists (evs1 ++ evs2). rewrite He2, He1, <- app_assoc. split; [done|].
  by apply Forall_app.
Qed.

(** Lines 364-371. *)
Lemma assign_stop_frame (stopID : Z) (bestTreeEntry : PathEnd.t) (st : State) :
  wp (assign_stop stopID bestTreeEntry) st (fun st' r =>
    r = Ok tt /\ walk_frame st st' /\ outFile st' = outFile st).
Proof.
  unfold assign_stop. wp_steps; (split; [done|]); (split; [|done]).
  - split; [apply same_link_kept_refl|]. split; [done|]. split; [done|].
    eexists [_]. split; [done|]. by constructor.
  - split; [|split; [done|split; [done|exists []; by rewrite app_nil_r]]].
    eapply same_link_kept_same; [done|].
    apply negb_false_iff, Z.eqb_eq in Heqb. by rewrite Heqb.
  - split; [|split; [done|split; [done|exists []; by rewrite app_nil_r]]].
    by apply same_link_kept_new.
Qed.

Section LinkWalkProofs.
Variable tripID : Z.
Variable resultTree : list PathEnd.t.
Variable gtfsStopsLookup : gmap Z StopTimesEntry.t.

(** One pass of the walk writes one row, for the link at hand and under
    the current sequence number, unless an exception stops it first. *)
Lemma walk_link_spec (w : Walk.t) (linkID : Z) (st : State) :
  wp (walk_link tripID resultTree gtfsStopsLookup w linkID) st (fun st' r =>
    walk_frame st st' /\
    match r with
    | Ok w' =>
        Walk.outSeqCtr w' = Walk.outSeqCtr w + 1 /\
        exists row, outFile st' = outFile st ++ [row] /\
          row_route row = Some tripID /\
          row_sequence row = Some (Walk.outSeqCtr w) /\
          row_link row = Some linkID
    | Raise _ => outFile st' = outFile st
    end).
Proof.
  unfold walk_link.
  apply wp_bind, wp_lift.
  destruct (scan_link resultTree linkID _ _) as [s|e];
    [|split; [apply walk_frame_refl|done]].
  apply wp_bind.
  apply wp_conseq with (Q := fun st1 r1 =>
    walk_frame st st1 /\ outFile st1 = outFile st).
  { wp_steps; try (split; [apply walk_frame_refl|done]).
    split; [|done].
    split; [apply same_link_kept_refl|]. split; [done|]. split; [done|].
    eexists [_]. split; [done|]. by constructor. }
  intros st1 [[]|e] [Hf1 Ho1]; [|done].
  apply wp_bind.
  apply wp_conseq with (Q := fun st2 r2 =>
    walk_frame st st2 /\
    match r2 with
    | Ok _ => exists row, outFile st2 = outFile st ++ [row] /\
          row_route row = Some tripID /\
          row_sequence row = Some (Walk.outSeqCtr w) /\
          row_link row = Some linkID
    | Raise _ => outFile st2 = outFile st
    end).
  { destruct (0 <? Scan.matchCtr s).
    - apply wp_bind, wp_lift.
      destruct (best_stop gtfsStopsLookup _) as [bs|e]; [|done].
      apply wp_bind, wp_emit.
      eapply wp_conseq; [apply assign_stop_frame|].
      intros st2 r2 (-> & Hf2 & Ho2).
      split.
      + eapply walk_frame_trans; [exact Hf1|].
        destruct Hf2 as (Hr & Hp & Hv & He). by repeat split.
      + eexists. split; [by rewrite Ho2; simpl; rewrite Ho1|done].
    - apply wp_emit. split.
      + destruct Hf1 as (Hr & Hp & Hv & He). by repeat split.
      + eexists. split; [by simpl; rewrite Ho1|done]. }
  intros st2 [[]|e] [Hf2 Ho2]; [|done].
  apply wp_unit. by split.
Qed.

(** The walk writes its rows in the order of [outLinkIDList], numbered
    from [start] without a gap. *)
Lemma walk_links_spec (outLinkIDList : list Z) (start : Z) (st : State) :
  wp (walk_links tripID resultTree gtfsStopsLookup outLinkIDList start) st
    (fun st' r =>
       walk_frame st st' /\
       exists rows, outFile st' = outFile st ++ rows /\
         (forall i row, rows !! i = Some row ->
            row_at tripID start outLinkIDList i row) /\
         (forall w, r = Ok w -> length rows = length outLinkIDList)).
Proof.
  unfold walk_links.
  apply wp_for with (Inv := fun seen w st' =>
    walk_frame st st' /\
    Walk.outSeqCtr w = start + len seen /\
    exists rows, outFile st' = outFile st ++ rows /\
      length rows = length seen /\
      forall i row, rows !! i = Some row -> row_at tripID start seen i row).
  - split; [apply walk_frame_refl|]. split; [unfold len; simpl; lia|].
    exists []. rewrite app_nil_r. split; [done|]. split; [done|].
    intros i row Hrow. by rewrite lookup_nil in Hrow.
  - intros seen linkID rest w st1 Hl (Hf & Hctr & rows & Hout & Hlen & Hrows).
    eapply wp_conseq; [apply walk_link_spec|].
    intros st2 [w'|e] [Hf2 Hpost].
    + destruct Hpost as (Hctr' & row & Hout' & Hroute & Hseq & Hlink).
      split; [by eapply walk_frame_trans|].
      split; [rewrite Hctr', Hctr; unfold len; rewrite length_app; simpl; lia|].
      exists (rows ++ [row]). rewrite Hout', Hout, <- app_assoc.
      split; [done|]. split; [by rewrite !length_app, Hlen|].
      intros i r Hr. apply lookup_app_Some in Hr as [Hr|[Hge Hr]].
      * destruct (Hrows _ _ Hr) as (? & ? & Hl').
        split; [done|]. split; [done|]. rewrite Hl'.
        apply lookup_lt_Some in Hr. by rewrite lookup_app_l by lia.
      * apply list_lookup_singleton_Some in Hr as [Hi <-].
        assert (i = length seen) as -> by lia.
        split; [done|]. split; [rewrite Hseq, Hctr; unfold len; done|].
        rewrite Hlink. symmetry. by apply list_lookup_middle.
    + split; [by eapply walk_frame_trans|].
      exists rows. rewrite Hpost. split; [done|]. split; [|done].
      intros i r Hr. destruct (Hrows _ _ Hr) as (? & ? & Hl').
      split; [done|]. split; [done|]. rewrite Hl', Hl.
      apply lookup_lt_Some in Hr. by rewrite lookup_app_l by lia.
  - intros w st1 (Hf & Hctr & rows & Hout & Hlen & Hrows).
    split; [done|]. exists rows. split; [done|]. split; [done|]. by intros.
Qed.
End LinkWalkProofs.

(** ** Step 2: the small graph *)

Lemma log_frame_refl (st : State) : log_frame st st.
Proof.
  split; [done|]. split; [done|]. split; [done|].
  exists []. by rewrite app_nil_r.
Qed.

Lemma log_frame_trans (st1 st2 st3 : State) :
  log_frame st1 st2 -> log_frame st2 st3 -> log_frame st1 st3.
Proof.
  intros (Hr1 & Hp1 & Ho1 & evs1 & He1 & Hu1) (Hr2 & Hp2 & Ho2 & evs2 & He2 & Hu2).
  split; [congruence|]. split; [congruence|]. split; [congruence|].
  exists (evs1 ++ evs2). rewrite He2, He1, <- app_assoc. split; [done|].
  by apply Forall_app.
Qed.

Lemma log_frame_vistaNode (st : State) (n : option GraphNode.t) :
  log_frame st (mkState (ret st) (problemReportNodes st) (outFile st) (stderr st) n).
Proof.
  split; [done|]. split; [done|]. split; [done|].
  exists []. by rewrite app_nil_r.
Qed.

Lemma log_frame_log (st : State) (e : LogEvent) (n : option GraphNode.t) :
  is_unmatched e = false ->
  log_frame st (mkState (ret st) (problemReportNodes st) (outFile st)
                  (stderr st ++ [e]) n).
Proof.
  intros He. split; [done|]. split; [done|]. split; [done|].
  exists [e]. split; [done|]. by constructor.
Qed.

(** A loop whose passes satisfy a relation that is reflexive and
    transitive satisfies it as a whole. *)
Lemma wp_for_frame {A B} (R : State -> State -> Prop) (f : B -> A -> M B)
    (l : list A) (acc : B) (st : State) :
  (forall st, R st st) ->
  (forall st1 st2 st3, R st1 st2 -> R st2 st3 -> R st1 st3) ->
  (forall acc x st, wp (f acc x) st (fun st' _ => R st st')) ->
  wp (for_M f l acc) st (fun st' _ => R st st').
Proof.
  intros Hrefl Htrans Hstep.
  apply wp_for with (Inv := fun _ _ st' => R st st'); [done| |done].
  intros seen x rest acc' st1 _ Hst1.
  eapply wp_conseq; [apply Hstep|].
  intros st2 [?|?] Hst2; by eapply Htrans.
Qed.

Section SubgraphProofs.
Variable vistaNetwork : GraphLib.t.

Lemma build_link_frame (b : Build.t) (link : GraphLink.t) (st : State) :
  wp (build_link vistaNetwork b link) st (fun st' _ => log_frame st st').
Proof.
  unfold build_link. wp_steps;
    first [apply log_frame_vistaNode | by apply log_frame_log].
Qed.

Lemma build_node_frame (firstLinkID : Z) (b : Build.t) (nd : PathEnd.t)
    (st : State) :
  wp (build_node vistaNetwork firstLinkID b nd) st (fun st' _ => log_frame st st').
Proof.
  unfold build_node. apply wp_bind, wp_lift.
  destruct (no_new_links _ _ _) as [[]|]; try apply log_frame_refl.
  apply wp_for_frame;
    [apply log_frame_refl|apply log_frame_trans|apply build_link_frame].
Qed.

Lemma build_finish_frame (b : Build.t) (nd : PathEnd.t) (st : State) :
  wp (build_finish b nd) st (fun st' _ => log_frame st st').
Proof.
  unfold build_finish. wp_steps;
    first [apply log_frame_vistaNode | apply log_frame_refl].
Qed.

Lemma build_subgraph_frame (ourGTFSNodes : list PathEnd.t) (st : State) :
  wp (build_subgraph vistaNetwork ourGTFSNodes) st
    (fun st' _ => log_frame st st').
Proof.
  unfold build_subgraph. apply wp_bind, wp_lift.
  destruct (getitem ourGTFSNodes 0) as [first|]; [|apply log_frame_refl].
  apply wp_bind.
  eapply wp_conseq.
  { apply wp_for_frame with (R := log_frame);
      [apply log_frame_refl|apply log_frame_trans|apply build_node_frame]. }
  intros st1 [b|e] Hf1; [|done].
  apply wp_bind, wp_lift.
  destruct (getitem ourGTFSNodes (-1)) as [lastNode|]; [|done].
  eapply wp_conseq; [apply build_finish_frame|].
  intros st2 r Hf2. by eapply log_frame_trans.
Qed.

Lemma recorded_add (linkMap : gmap Z GraphLink.t) (calls : list GraphLink.t)
    (l : GraphLink.t) :
  recorded linkMap calls -> linkMap !! GraphLink.id l = None ->
  recorded (<[GraphLink.id l := l]> linkMap) (calls ++ [l]).
Proof.
  intros [Hnd Hrec] Hnone. split.
  - rewrite fmap_app. apply NoDup_app. split; [done|]. split.
    + intros i Hi ->%list_elem_of_singleton.
      apply list_elem_of_fmap in Hi as (l' & Hid & Hl').
      assert (linkMap !! GraphLink.id l = Some l') as Hsome
        by (apply Hrec; by split).
      by rewrite Hnone in Hsome.
    + apply NoDup_singleton.
  - intros i l'. rewrite elem_of_app, list_elem_of_singleton.
    destruct (decide (i = GraphLink.id l)) as [->|Hne].
    + rewrite lookup_insert_eq. split.
      * intros [= <-]. split; [by right|done].
      * intros [[Hin| ->] Hid]; [|done].
        assert (linkMap !! GraphLink.id l = Some l') as Hsome
          by (apply Hrec; by split).
        by rewrite Hnone in Hsome.
    + rewrite lookup_insert_ne by done. rewrite Hrec. split.
      * intros [Hin Hid]. split; [by left|done].
      * intros [[Hin| ->] Hid]; [done|]. by destruct Hne.
Qed.

Lemma build_link_recorded (b : Build.t) (link : GraphLink.t) (st : State) :
  links_recorded b ->
  wp (build_link vistaNetwork b link) st (fun _ r =>
    match r with Ok b' => links_recorded b' | Raise _ => True end).
Proof.
  intros Hb. unfold build_link.
  destruct (GraphLib.linkMap vistaNetwork !! GraphLink.id link) as [orig|];
    [|by wp_steps].
  destruct (GraphLib.nodeMap (Build.vistaSubset b) !! _) as [n|];
    wp_steps; try done; unfold links_recorded; simpl in *;
    try (eapply (recorded_add _ _ (GraphLink.mk _ _ _)); done); done.
Qed.

Lemma build_node_recorded (firstLinkID : Z) (b : Build.t) (nd : PathEnd.t)
    (st : State) :
  links_recorded b ->
  wp (build_node vistaNetwork firstLinkID b nd) st (fun _ r =>
    match r with Ok b' => links_recorded b' | Raise _ => True end).
Proof.
  intros Hb. unfold build_node. apply wp_bind, wp_lift.
  destruct (no_new_links _ _ _) as [[]|]; try done.
  apply wp_for with (Inv := fun _ b' _ => links_recorded b'); [done| |done].
  intros seen x rest b1 st1 _ Hb1.
  eapply wp_conseq; [by apply build_link_recorded|]. by intros st2 [b2|e].
Qed.

Lemma build_finish_recorded (b : Build.t) (nd : PathEnd.t) (st : State) :
  links_recorded b ->
  wp (build_finish b nd) st (fun _ r =>
    match r with Ok b' => links_recorded b' | Raise _ => True end).
Proof.
  intros Hb. unfold build_finish.
  destruct (GraphLib.nodeMap (Build.vistaSubset b) !! _) as [n|];
    wp_steps; try done; unfold links_recorded; simpl in *;
    try (eapply (recorded_add _ _ (GraphLink.mk _ _ _)); done); done.
Qed.

Lemma build_subgraph_recorded (ourGTFSNodes : list PathEnd.t) (st : State) :
  wp (build_subgraph vistaNetwork ourGTFSNodes) st (fun _ r =>
    match r with Ok b => links_recorded b | Raise _ => True end).
Proof.
  unfold build_subgraph. apply wp_bind, wp_lift.
  destruct (getitem ourGTFSNodes 0) as [first|]; [|done].
  apply wp_bind.
  apply wp_for with (Inv := fun _ b' _ => links_recorded b').
  - split; [constructor|]. intros i l. simpl. rewrite lookup_empty.
    split; [done|]. by intros [[]%elem_of_nil _].
  - intros seen x rest b1 st1 _ Hb1.
    eapply wp_conseq; [by apply build_node_recorded|]. by intros st2 [b2|e].
  - intros b1 st1 Hb1. apply wp_bind, wp_lift.
    destruct (getitem ourGTFSNodes (-1)) as [lastNode|]; [|done].
    by apply build_finish_recorded.
Qed.
End SubgraphProofs.

(** C4. In the graph rebuilt for a trip, no link identifier is handed to
    [addLink] twice, whatever the path does (a path may come back to a
    node or to a link): the identifiers of the links added are pairwise
    distinct, and the link map of the graph holds exactly the links
    added, each under its identifier. *)
Theorem subgraph_links_added_once
    (vistaNetwork : GraphLib.t) (ourGTFSNodes : list PathEnd.t)
    (st st' : State) (b : Build.t) :
  build_subgraph vistaNetwork ourGTFSNodes st = (st', Ok b) ->
  NoDup (GraphLink.id <$> Build.addLinkCalls b) /\
  forall i l,
    GraphLib.linkMap (Build.vistaSubset b) !! i = Some l <->
    l ∈ Build.addLinkCalls b /\ GraphLink.id l = i.
Proof.
  intros Hrun.
  exact (wp_run _ _ _ _ _ (build_subgraph_recorded vistaNetwork ourGTFSNodes st) Hrun).
Qed.

Lemma subgraph_links_added_once_witness :
  exists st' b,
    build_subgraph Demo.vistaNetwork Demo.treeNodes2 initial_state = (st', Ok b) /\
    Build.outLinkIDList b = [20; 21; 20] /\
    NoDup (GraphLink.id <$> Build.addLinkCalls b) /\
    forall i l,
      GraphLib.linkMap (Build.vistaSubset b) !! i = Some l <->
      l ∈ Build.addLinkCalls b /\ GraphLink.id l = i.
Proof.
  eexists _, _. split; [vm_compute; reflexivity|]. split; [done|].
  eapply (subgraph_links_added_once Demo.vistaNetwork Demo.treeNodes2 initial_state).
  vm_compute. reflexivity.
Defined.

(** ** The stops left over (lines 377-396) *)

Section ReportProofs.
Variable problemReport : bool.
Variables tripID shapeID : Z.
Variable foundStopSet : gset Z.

Local Abbreviation absent := (fun s => StopTimesEntry.stopSeq s ∉ foundStopSet).

Lemma report_stop_frame (gtfsStopTime : StopTimesEntry.t) (st : State) :
  wp (report_stop problemReport tripID shapeID foundStopSet tt gtfsStopTime) st
    (fun st' _ => diag_frame st st').
Proof. unfold report_stop. by wp_steps. Qed.

Lemma report_unmatched_frame (stopTimes : list StopTimesEntry.t) (st : State) :
  wp (report_unmatched problemReport tripID shapeID foundStopSet stopTimes) st
    (fun st' _ => diag_frame st st').
Proof.
  unfold report_unmatched. apply wp_for_frame.
  - done.
  - intros st1 st2 st3 (? & ? & ?) (? & ? & ?).
    split; [congruence|]. split; congruence.
  - intros [] x st1. apply report_stop_frame.
Qed.

Lemma report_stop_spec (nodes0 : gmap Z ReportNode.t) (st0 : State)
    (seen : list StopTimesEntry.t) (gtfsStopTime : StopTimesEntry.t)
    (st : State) :
  report_inv problemReport tripID shapeID foundStopSet nodes0 st0 seen st ->
  wp (report_stop problemReport tripID shapeID foundStopSet tt gtfsStopTime) st
    (fun st' r => r = Ok tt /\ report_inv problemReport tripID shapeID foundStopSet nodes0 st0 (seen ++ [gtfsStopTime]) st').
Proof.
  intros [Hlog Hnodes]. unfold report_stop.
  destruct (bool_decide _) eqn:Hfound.
  - apply bool_decide_eq_true in Hfound. apply wp_unit. split; [done|].
    split.
    + rewrite filter_app, filter_cons_False, filter_nil, app_nil_r; [done|].
      by intros [].
    + intros Hpr. destruct (Hnodes Hpr) as (nodes & Hn & Hkeep & Hsome).
      exists nodes. split; [done|]. split; [done|].
      intros s [Hs| ->%list_elem_of_singleton]%elem_of_app Habs; [auto|].
      by destruct Habs.
  - apply bool_decide_eq_false in Hfound.
    assert (forall st', stderr st' = stderr st ++ [unmatched_warning tripID gtfsStopTime] ->
              stderr st' = stderr st0 ++
                (unmatched_warning tripID <$> filter absent (seen ++ [gtfsStopTime])))
      as Hlog'.
    { intros st' ->. rewrite filter_app, filter_cons_True, filter_nil by done.
      by rewrite fmap_app, Hlog, <- app_assoc. }
    apply wp_bind, wp_log.
    destruct problemReport eqn:Hpr.
    2:{ apply wp_unit. split; [done|]. split; [by apply Hlog'|].
        done. }
    destruct (Hnodes eq_refl) as (nodes & Hn & Hkeep & Hsome).
    apply wp_bind, wp_get_problemReportNodes. cbn [problemReportNodes].
    apply wp_bind, wp_lift. unfold getkey. rewrite Hn.
    destruct (nodes !! StopTimesEntry.stopSeq gtfsStopTime) as [n|] eqn:Hseq.
    + apply wp_unit. split; [done|]. split; [by apply Hlog'|].
      intros _. exists nodes. split; [done|]. split; [done|].
      intros s [Hs| ->%list_elem_of_singleton]%elem_of_app Habs; [auto|].
      by rewrite Hseq.
    + apply wp_set_problemReportNodes. split; [done|]. split; [by apply Hlog'|].
      intros _. eexists. cbn [problemReportNodes].
      split; [by rewrite lookup_insert_eq|]. split.
      * intros q Hq.
        destruct (decide (q = StopTimesEntry.stopSeq gtfsStopTime)) as [->|Hne].
        -- right. eexists. split; [by rewrite lookup_insert_eq|].
           by eexists _, _, _, _.
        -- rewrite lookup_insert_ne by done. auto.
      * intros s [Hs| ->%list_elem_of_singleton]%elem_of_app Habs.
        -- destruct (decide (StopTimesEntry.stopSeq s
                             = StopTimesEntry.stopSeq gtfsStopTime)) as [->|Hne].
           ++ by rewrite lookup_insert_eq.
           ++ rewrite lookup_insert_ne by done. auto.
        -- by rewrite lookup_insert_eq.
Qed.

(** The loop over the stop times writes one warning for each stop time
    whose sequence number is not in the found-set, in the order of the
    schedule, and nothing else; with the problem report on, each such
    sequence number without a node gets a dummy node. *)
Lemma report_unmatched_spec (nodes0 : gmap Z ReportNode.t)
    (stopTimes : list StopTimesEntry.t) (st : State) :
  (problemReport = true -> problemReportNodes st !! shapeID = Some nodes0) ->
  wp (report_unmatched problemReport tripID shapeID foundStopSet stopTimes) st
    (fun st' r =>
       r = Ok tt /\
       stderr st' = stderr st ++
         (unmatched_warning tripID <$> filter absent stopTimes) /\
       (problemReport = true ->
        exists nodes, problemReportNodes st' !! shapeID = Some nodes /\
          forall s, s ∈ stopTimes -> absent s ->
            nodes0 !! StopTimesEntry.stopSeq s = None ->
            exists n, nodes !! StopTimesEntry.stopSeq s = Some n /\
              is_dummy shapeID (StopTimesEntry.stopSeq s) n)).
Proof.
  intros Hpre. unfold report_unmatched.
  apply wp_for with (Inv := fun seen _ st' => report_inv problemReport tripID shapeID foundStopSet nodes0 st seen st').
  - split; [by rewrite app_nil_r|].
    intros Hpr. exists nodes0. split; [auto|]. split; [auto|].
    by intros s []%elem_of_nil.
  - intros seen x rest [] st1 _ Hinv.
    eapply wp_conseq; [by apply report_stop_spec|].
    by intros st2 [[]|e] [? ?].
  - intros [] st1 [Hlog Hnodes]. split; [done|]. split; [done|].
    intros Hpr. destruct (Hnodes Hpr) as (nodes & Hn & Hkeep & Hsome).
    exists nodes. split; [done|]. intros s Hs Habs Hnone.
    destruct (Hsome s Hs Habs) as [n Hn'].
    destruct (Hkeep _ Hnone) as [Hcontra|(n' & Hn'' & Hd)]; [congruence|].
    by exists n'.
Qed.
End ReportProofs.

(** The sequence numbers of the nodes rebuilt for the problem report are
    those of the result entries. *)
Lemma revise_keys (vistaNetwork : GraphLib.t) (shapeID : Z)
    (resultTree : list PathEnd.t) (acc revised : gmap Z ReportNode.t) (q : Z) :
  for_R (revise_node vistaNetwork shapeID) resultTree acc = Ok revised ->
  acc !! q = None ->
  (forall e, e ∈ resultTree -> shapeSeq_of e <> q) ->
  revised !! q = None.
Proof.
  revert acc. induction resultTree as [|e l IH]; intros acc; simpl.
  - by intros [= <-].
  - unfold revise_node at 1.
    destruct (getkey _ (link_id_of e)) as [origLink|]; [simpl|done].
    destruct (for_R _ (PathEnd.routeInfo e) []) as [routeInfo|]; [simpl|done].
    intros Hrest Hacc Hne. eapply IH; [exact Hrest| |].
    + rewrite lookup_insert_ne; [done|]. apply Hne. by left.
    + intros e' He'. apply Hne. by right.
Qed.

(** ** One trip *)

Lemma quiet_refl (st : State) : quiet st st.
Proof.
  split; [done|]. split; [done|]. exists []. by rewrite app_nil_r.
Qed.

Lemma quiet_trans (st1 st2 st3 : State) :
  quiet st1 st2 -> quiet st2 st3 -> quiet st1 st3.
Proof.
  intros (Hr1 & Ho1 & evs1 & He1 & Hu1) (Hr2 & Ho2 & evs2 & He2 & Hu2).
  split; [congruence|]. split; [congruence|].
  exists (evs1 ++ evs2). rewrite He2, He1, <- app_assoc. split; [done|].
  by apply Forall_app.
Qed.

Lemma quiet_step (st : State) (p : gmap Z (gmap Z ReportNode.t))
    (evs : list LogEvent) (n : option GraphNode.t) :
  Forall (fun e => is_unmatched e = false) evs ->
  quiet st (mkState (ret st) p (outFile st) (stderr st ++ evs) n).
Proof. intros Hevs. split; [done|]. split; [done|]. by exists evs. Qed.

Lemma quiet_same (st : State) (p : gmap Z (gmap Z ReportNode.t))
    (n : option GraphNode.t) :
  quiet st (mkState (ret st) p (outFile st) (stderr st) n).
Proof.
  split; [done|]. split; [done|]. exists []. by rewrite app_nil_r.
Qed.

Lemma log_frame_quiet (st st' : State) : log_frame st st' -> quiet st st'.
Proof. intros (Hr & _ & Ho & He). split; [done|]. by split. Qed.

Lemma filter_not_unmatched (evs : list LogEvent) :
  Forall (fun e => is_unmatched e = false) evs ->
  filter (fun e => is_unmatched e) evs = [].
Proof.
  induction 1 as [|e evs He _ IH]; [done|].
  rewrite filter_cons_False; [done|]. rewrite He. by intros [].
Qed.

Lemma filter_unmatched_warnings (tripID : Z) (l : list StopTimesEntry.t) :
  filter (fun e => is_unmatched e) (unmatched_warning tripID <$> l)
  = unmatched_warning tripID <$> l.
Proof.
  induction l as [|s l IH]; [done|].
  rewrite fmap_cons, filter_cons_True by done. by rewrite IH.
Qed.

Section TripProofs.
Variable problemReport : bool.
Variable gtfsTrips : gmap Z TripsEntry.t.
Variable gtfsNodes : gmap Z (list PathEnd.t).
Variable gtfsStopTimes : gmap Z (list StopTimesEntry.t).
Variable vistaNetwork : GraphLib.t.
Variable constructPath : list ShapesEntry.t -> GraphLib.t -> Result (list PathEnd.t).

Local Abbreviation post :=
  (trip_post problemReport gtfsTrips gtfsNodes gtfsStopTimes vistaNetwork).

(** A trip that stops before its walk. *)
Lemma trip_post_quiet (tripID : Z) (st st' : State) (r : Result (option Trip.t)) :
  quiet st st' -> (forall t, r <> Ok (Some t)) -> post tripID st st' r.
Proof.
  intros (Hret & Hout & _) Hr. split; [|split].
  - rewrite Hret. apply same_link_kept_refl.
  - exists []. rewrite app_nil_r. split; [done|]. by left.
  - intros t Ht. by destruct (Hr t).
Qed.

Lemma process_trip_spec (tripID : Z) (st : State) :
  wp (process_trip problemReport gtfsTrips gtfsNodes gtfsStopTimes vistaNetwork
        constructPath tripID) st (post tripID st).
Proof.
  unfold process_trip.
  apply wp_bind, wp_lift. unfold getkey at 1.
  destruct (gtfsTrips !! tripID) as [trip|] eqn:Htrip;
    [|by apply trip_post_quiet; [apply quiet_refl|]].
  apply wp_bind, wp_lift.
  destruct (getitem (TripsEntry.shapeEntries trip) 0) as [shape0|] eqn:Hshape;
    [|by apply trip_post_quiet; [apply quiet_refl|]].
  apply getitem_inv in Hshape; [|done]. change (Z.to_nat 0) with 0%nat in Hshape.
  destruct (gtfsNodes !! ShapesEntry.shapeID shape0) as [treeNodes|] eqn:Hnodes;
    [|by apply wp_unit, trip_post_quiet; [apply quiet_refl|]].
  apply wp_bind, wp_log, wp_bind, wp_lift.
  destruct (segment_scan treeNodes) as [seg|] eqn:Hseg;
    [|by apply trip_post_quiet; [apply (quiet_step _ _ [_]); repeat constructor|]].
  destruct (Z.leb_spec 0 (Seg.longestStart seg)) as [Hstart|_].
  2:{ apply wp_bind, wp_log, wp_unit.
      apply trip_post_quiet; [|done].
      cbn [ret problemReportNodes outFile stderr vistaNode].
      rewrite <- app_assoc. apply quiet_step. by repeat constructor. }
  (* the state after "Outputting route" *)
  match goal with
  | |- wp _ ?s _ =>
      assert (quiet st s) as Hq1
        by (apply (quiet_step _ _ [_]); repeat constructor);
      generalize dependent s; intros st1 Hq1
  end.
  (* lines 208-212 *)
  apply wp_bind.
  apply wp_conseq with (Q := fun st2 _ => quiet st st2).
  { destruct (_ || _); [|by apply wp_unit].
    apply wp_bind, wp_lift.
    destruct (getitem treeNodes (Seg.longestStart seg)) as [a|]; [|done].
    apply wp_bind, wp_lift.
    destruct (getitem treeNodes (Seg.longestEnd seg - 1)) as [b|]; [|done].
    apply wp_log. eapply quiet_trans; [exact Hq1|].
    apply (quiet_step _ _ [_]). by repeat constructor. }
  clear st1 Hq1. intros st2 [[]|e] Hq2; [|by apply trip_post_quiet].
  (* line 215 *)
  apply wp_bind, wp_lift. unfold getkey at 1.
  destruct (gtfsStopTimes !! TripsEntry.tripID trip) as [stopTimes|] eqn:Hst;
    [|by apply trip_post_quiet].
  (* lines 219-273 *)
  apply wp_bind_run. intros st3 r3 Hbuild.
  assert (quiet st st3) as Hq3.
  { eapply quiet_trans; [exact Hq2|]. apply log_frame_quiet.
    exact (wp_run _ _ _ _ _ (build_subgraph_frame vistaNetwork _ st2) Hbuild). }
  clear Hq2. destruct r3 as [b|e]; [|by apply trip_post_quiet].
  assert (trip_plan gtfsTrips gtfsNodes vistaNetwork tripID
            (Seg.longestStart seg) (Build.outLinkIDList b)) as Hplan.
  { by exists trip, shape0, treeNodes, seg, st2, st3, b. }
  clear Hbuild.
  (* lines 276-301 *)
  apply wp_bind, wp_log.
  match goal with
  | |- wp _ ?s _ =>
      assert (quiet st s) as Hq4
        by (eapply quiet_trans; [exact Hq3|];
            apply (quiet_step _ _ [_]); repeat constructor);
      generalize dependent s; intros st4 Hq4
  end.
  apply wp_bind, wp_lift.
  destruct (getitem (slice treeNodes _ _) 0) as [first|];
    [|by apply trip_post_quiet].
  apply wp_bind, wp_lift.
  destruct (getitem (slice treeNodes _ _) (-1)) as [last|];
    [|by apply trip_post_quiet].
  apply wp_bind, wp_lift.
  destruct (constructPath _ _) as [found|]; [|by apply trip_post_quiet].
  apply wp_bind, wp_lift.
  destruct (del_last found) as [stripped|]; [|by apply trip_post_quiet].
  apply wp_bind, wp_lift.
  destruct (del_first stripped) as [resultTree|]; [|by apply trip_post_quiet].
  (* lines 308-329 *)
  apply wp_bind.
  apply wp_conseq with (Q := fun st5 r5 =>
    quiet st st5 /\
    (r5 = Ok tt ->
     problemReport = true ->
     exists revised,
       problemReportNodes st5 !! ShapesEntry.shapeID shape0 = Some revised /\
       for_R (revise_node vistaNetwork (ShapesEntry.shapeID shape0))
         resultTree ∅ = Ok revised)).
  { destruct problemReport; [|by apply wp_unit].
    apply wp_bind, wp_lift.
    destruct (for_R _ resultTree ∅) as [revised|] eqn:Hrev; [|done].
    apply wp_bind, wp_get_problemReportNodes, wp_set_problemReportNodes.
    split.
    - eapply quiet_trans; [exact Hq4|]. apply quiet_same.
    - intros _ _. exists revised. cbn [problemReportNodes].
      by rewrite lookup_insert_eq. }
  clear st4 Hq4. intros st5 [[]|e] [Hq5 Hrev]; [|by apply trip_post_quiet].
  specialize (Hrev eq_refl).
  (* lines 331-375 *)
  apply wp_bind_run. intros st6 r6 Hwalk.
  destruct (wp_run _ _ _ _ _
              (walk_links_spec tripID resultTree (stops_lookup stopTimes)
                 (Build.outLinkIDList b) (Seg.longestStart seg) st5) Hwalk)
    as ((Hret6 & Hprn6 & Hvn6 & evs6 & Hevs6 & Hquiet6)
        & rows & Hrows & Hat & Hlen).
  destruct Hq5 as (Hret5 & Hout5 & evs5 & Hevs5 & Hquiet5).
  assert (same_link_kept (ret st) (ret st6)) as Hkept by (by rewrite <- Hret5).
  destruct r6 as [w|e].
  2:{ split; [done|]. split; [|done].
      exists rows. rewrite Hrows, Hout5. split; [done|]. right.
      exists (Seg.longestStart seg), (Build.outLinkIDList b).
      split; [done|]. split; [done|]. done. }
  (* lines 377-396 *)
  apply wp_bind.
  eapply wp_conseq.
  { apply wp_and.
    - apply report_unmatched_frame.
    - apply (report_unmatched_spec problemReport tripID
               (ShapesEntry.shapeID shape0) (Walk.foundStopSet w)
               (match problemReportNodes st6 !! ShapesEntry.shapeID shape0 with
                | Some nodes => nodes
                | None => ∅
                end)).
      intros Hpr. destruct (Hrev Hpr) as (revised & Hprn5 & _).
      by rewrite Hprn6, Hprn5. }
  intros st7 r7 ((Hret7 & Hout7 & _) & -> & Hevs7 & Hnodes7).
  apply wp_unit. split; [by rewrite Hret7|]. split.
  - exists rows. rewrite Hout7, Hrows, Hout5. split; [done|]. right.
    exists (Seg.longestStart seg), (Build.outLinkIDList b).
    split; [done|]. split; [done|]. intros t _. by apply (Hlen w).
  - intros t [= <-]. split.
    + split; [done|]. by exists trip, shape0, st5, st6, w.
    + cbn [Trip.shapeID Trip.stopTimes Trip.foundStopSet Trip.resultTree].
      eexists. split.
      { rewrite Hevs7, Hevs6, Hevs5, <- !app_assoc. reflexivity. }
      split.
      { rewrite !filter_app, !filter_not_unmatched by done.
        by rewrite filter_unmatched_warnings. }
      intros Hpr. destruct (Hnodes7 Hpr) as (nodes & Hn7 & Hdummy).
      exists nodes. split; [done|]. intros s Hs Habs Hnone.
      apply Hdummy; [done|done|].
      destruct (Hrev Hpr) as (revised & Hprn5 & Hfor).
      rewrite Hprn6, Hprn5. by eapply revise_keys.
Qed.
End TripProofs.

(** ** The trips of a run *)

Lemma run_trips_keeps_links
    (problemReport : bool)
    (gtfsTrips : gmap Z TripsEntry.t)
    (gtfsNodes : gmap Z (list PathEnd.t))
    (gtfsStopTimes : gmap Z (list StopTimesEntry.t))
    (vistaNetwork : GraphLib.t)
    (constructPath : list ShapesEntry.t -> GraphLib.t -> Result (list PathEnd.t))
    (tripIDs : list Z) (st : State) :
  wp (run_trips problemReport gtfsTrips gtfsNodes gtfsStopTimes vistaNetwork
        constructPath tripIDs) st
    (fun st' _ => same_link_kept (ret st) (ret st')).
Proof.
  unfold run_trips.
  apply wp_for_frame with (R := fun st st' => same_link_kept (ret st) (ret st')).
  - intros st1. apply same_link_kept_refl.
  - intros st1 st2 st3. apply same_link_kept_trans.
  - intros [] tripID st1. apply wp_bind.
    eapply wp_conseq; [apply process_trip_spec|].
    by intros st2 [t|e] (Hkept & _).
Qed.

(** C1. A stop that [ret] holds stays in [ret], on a point of the same
    link, whatever trips are processed afterwards; and an attempt to
    assign it to another link changes nothing but for the conflict
    warning that it adds to the messages. *)
Theorem assignment_keeps_first_link
    (problemReport : bool)
    (gtfsTrips : gmap Z TripsEntry.t)
    (gtfsNodes : gmap Z (list PathEnd.t))
    (gtfsStopTimes : gmap Z (list StopTimesEntry.t))
    (vistaNetwork : GraphLib.t)
    (constructPath : list ShapesEntry.t -> GraphLib.t -> Result (list PathEnd.t))
    (st : State) (stopID : Z) (p : PointOnLink.t) :
  ret st !! stopID = Some p ->
  (forall tripIDs,
     exists p',
       ret (run_trips problemReport gtfsTrips gtfsNodes gtfsStopTimes
              vistaNetwork constructPath tripIDs st).1 !! stopID = Some p' /\
       GraphLink.id (PointOnLink.link p') = GraphLink.id (PointOnLink.link p))
  /\
  (forall bestTreeEntry,
     link_id_of bestTreeEntry <> GraphLink.id (PointOnLink.link p) ->
     assign_stop stopID bestTreeEntry st =
       (mkState (ret st) (problemReportNodes st) (outFile st)
          (stderr st ++ [WarnConflict stopID (link_id_of bestTreeEntry)
                           (GraphLink.id (PointOnLink.link p))])
          (vistaNode st),
        Ok tt)).
Proof.
  intros Hp. split.
  - intros tripIDs.
    by apply (run_trips_keeps_links problemReport gtfsTrips gtfsNodes
                gtfsStopTimes vistaNetwork constructPath tripIDs st).
  - intros best Hne. unfold assign_stop, bind_M, get_ret. rewrite Hp.
    destruct (Z.eqb_spec (GraphLink.id (PointOnLink.link p)) (link_id_of best));
      [congruence|done].
Qed.

Lemma assignment_keeps_first_link_witness :
  Demo.after_trip1.(ret) !! 501 = Some (PointOnLink.mk Demo.L10 0 0 4) /\
  (exists p',
     ret (Demo.run false [4] Demo.after_trip1).1 !! 501 = Some p' /\
     GraphLink.id (PointOnLink.link p') = 10) /\
  assign_stop 501 (Demo.matched 1 Demo.L11 1) Demo.after_trip1 =
    (mkState (ret Demo.after_trip1) (problemReportNodes Demo.after_trip1)
       (outFile Demo.after_trip1)
       (stderr Demo.after_trip1 ++ [WarnConflict 501 11 10])
       (vistaNode Demo.after_trip1),
     Ok tt).
Proof.
  assert (ret Demo.after_trip1 !! 501 = Some (PointOnLink.mk Demo.L10 0 0 4))
    as Hp by (vm_compute; reflexivity).
  destruct (assignment_keeps_first_link false Demo.gtfsTrips Demo.gtfsNodes
              Demo.gtfsStopTimes Demo.vistaNetwork Demo.constructPath
              Demo.after_trip1 501 _ Hp) as [Hrun Hassign].
  split; [exact Hp|]. split.
  - exact (Hrun [4]).
  - apply (Hassign (Demo.matched 1 Demo.L11 1)). vm_compute. discriminate.
Defined.

Lemma for_M_app {A B} (f : B -> A -> M B) (l1 l2 : list A) (acc : B) (st : State) :
  for_M f (l1 ++ l2) acc st =
  match for_M f l1 acc st with
  | (st1, Ok acc1) => for_M f l2 acc1 st1
  | (st1, Raise e) => (st1, Raise e)
  end.
Proof.
  revert acc st. induction l1 as [|x l1 IH]; intros acc st; [done|].
  simpl. unfold bind_M. destruct (f acc x st) as [st1 [acc1|e]]; [|done].
  apply IH.
Qed.

(** In a run of [dumpBusRouteLinks], whatever [ret] holds once the trips
    [before] are done is still there, on the same links, at the end. *)
Lemma dumpBusRouteLinks_keeps_links
    (problemReport : bool)
    (gtfsTrips : gmap Z TripsEntry.t)
    (gtfsNodes : gmap Z (list PathEnd.t))
    (gtfsStopTimes : gmap Z (list StopTimesEntry.t))
    (vistaNetwork : GraphLib.t)
    (constructPath : list ShapesEntry.t -> GraphLib.t -> Result (list PathEnd.t))
    (userName networkName : string) (before after : list Z) :
  sorted_keys gtfsTrips = before ++ after ->
  same_link_kept
    (ret (bind_M (emit (MetaHeader userName networkName))
            (fun _ => bind_M (emit ColumnNames)
               (fun _ => run_trips problemReport gtfsTrips gtfsNodes
                           gtfsStopTimes vistaNetwork constructPath before))
            initial_state).1)
    (ret (dumpBusRouteLinks problemReport gtfsTrips gtfsNodes gtfsStopTimes
            vistaNetwork constructPath userName networkName).1).
Proof.
  intros Hkeys. unfold dumpBusRouteLinks. rewrite Hkeys.
  unfold bind_M, emit. cbn -[run_trips].
  set (st0 := mkState _ _ _ _ _).
  assert (run_trips problemReport gtfsTrips gtfsNodes gtfsStopTimes vistaNetwork
            constructPath (before ++ after) st0 =
          match run_trips problemReport gtfsTrips gtfsNodes gtfsStopTimes
                  vistaNetwork constructPath before st0 with
          | (st1, Ok _) =>
              run_trips problemReport gtfsTrips gtfsNodes gtfsStopTimes
                vistaNetwork constructPath after st1
          | (st1, Raise e) => (st1, Raise e)
          end) as ->.
  { unfold run_trips. rewrite for_M_app.
    by destruct (for_M _ before tt st0) as [st1 [[]|e]]. }
  destruct (run_trips _ _ _ _ _ _ before st0) as [st1 [[]|e]] eqn:Hbefore;
    cbn [fst]; [|apply same_link_kept_refl].
  pose proof (run_trips_keeps_links problemReport gtfsTrips gtfsNodes
                gtfsStopTimes vistaNetwork constructPath after st1) as Hafter.
  unfold wp in Hafter.
  destruct (run_trips _ _ _ _ _ _ after st1) as [st2 [[]|e]]; cbn [fst] in *;
    [|done].
  by destruct problemReport.
Qed.

Section TripTheorems.
Variable problemReport : bool.
Variable gtfsTrips : gmap Z TripsEntry.t.
Variable gtfsNodes : gmap Z (list PathEnd.t).
Variable gtfsStopTimes : gmap Z (list StopTimesEntry.t).
Variable vistaNetwork : GraphLib.t.
Variable constructPath : list ShapesEntry.t -> GraphLib.t -> Result (list PathEnd.t).

Local Abbreviation process_trip' :=
  (process_trip problemReport gtfsTrips gtfsNodes gtfsStopTimes vistaNetwork
     constructPath).

(** C5 (amended). The rows that a trip writes stand, in order, for the
    positions of the list of links of its rebuilt path, and a row
    carries at most one stop.  A link identifier is therefore in two
    rows of a trip only if it is at two positions of that list; when
    no identifier is twice in the list, no link identifier is in two
    rows of the trip. *)
Theorem one_row_per_position (tripID : Z) (st st' : State)
    (r : Result (option Trip.t)) :
  process_trip' tripID st = (st', r) ->
  exists rows outLinkIDList, outFile st' = outFile st ++ rows /\
    (rows <> [] ->
     exists longestStart,
       trip_plan gtfsTrips gtfsNodes vistaNetwork tripID longestStart
         outLinkIDList) /\
    (forall i row, rows !! i = Some row -> row_link row = outLinkIDList !! i) /\
    (forall i j ri rj,
       rows !! i = Some ri -> rows !! j = Some rj ->
       row_link ri = row_link rj ->
       outLinkIDList !! i = outLinkIDList !! j) /\
    (NoDup outLinkIDList ->
     forall i j ri rj,
       rows !! i = Some ri -> rows !! j = Some rj ->
       row_link ri = row_link rj -> i = j).
Proof.
  intros Hrun.
  destruct (wp_run _ _ _ _ _ (process_trip_spec problemReport gtfsTrips
              gtfsNodes gtfsStopTimes vistaNetwork constructPath tripID st) Hrun)
    as (_ & (rows & Hout & [->|(start & out & Hplan & Hat & _)]) & _).
  - exists [], []. split; [done|]. split; [done|].
    split; [by intros i row ?|]. split; [by intros i j ri rj ?|].
    by intros _ i j ri rj ?.
  - exists rows, out. split; [done|]. split; [by exists start|].
    assert (forall i row, rows !! i = Some row -> row_link row = out !! i)
      as Hlink by (intros i row Hrow; by destruct (Hat i row Hrow) as (_ & _ & ?)).
    split; [done|]. split.
    + intros i j ri rj Hi Hj Heq.
      by rewrite <- (Hlink _ _ Hi), <- (Hlink _ _ Hj).
    + intros Hnd i j ri rj Hi Hj Heq.
      pose proof (Hlink _ _ Hi) as Hli. pose proof (Hlink _ _ Hj) as Hlj.
      destruct (Hat i ri Hi) as (Hroute & _ & _).
      destruct (out !! i) as [l|] eqn:Hoi.
      * eapply NoDup_lookup; [exact Hnd|exact Hoi|].
        by rewrite <- Hlj, <- Heq, Hli.
      * destruct ri; simpl in *; congruence.
Qed.

(** C7. When a trip ends without an exception, the warnings of
    unmatched stops among its messages are, in the order of the
    schedule, one for each stop time whose sequence number the walk has
    not put in the found-set; and if the problem report is on, each such
    sequence number that no result entry carries has, among the problem
    report nodes of the shape, a dummy node without link that is flagged
    [restart]. *)
Theorem unmatched_stops_reported (tripID : Z) (st st' : State) (t : Trip.t) :
  process_trip' tripID st = (st', Ok (Some t)) ->
  trip_locals gtfsTrips gtfsNodes gtfsStopTimes vistaNetwork tripID t /\
  exists evs, stderr st' = stderr st ++ evs /\
    filter (fun e => is_unmatched e) evs =
      unmatched_warning tripID <$>
        filter (fun s => StopTimesEntry.stopSeq s ∉ Trip.foundStopSet t)
          (Trip.stopTimes t) /\
    (problemReport = true ->
     exists nodes, problemReportNodes st' !! Trip.shapeID t = Some nodes /\
       forall s, s ∈ Trip.stopTimes t ->
         StopTimesEntry.stopSeq s ∉ Trip.foundStopSet t ->
         (forall e, e ∈ Trip.resultTree t ->
            shapeSeq_of e <> StopTimesEntry.stopSeq s) ->
         exists n, nodes !! StopTimesEntry.stopSeq s = Some n /\
           is_dummy (Trip.shapeID t) (StopTimesEntry.stopSeq s) n /\
           ReportNode.restart n = true).
Proof.
  intros Hrun.
  destruct (wp_run _ _ _ _ _ (process_trip_spec problemReport gtfsTrips
              gtfsNodes gtfsStopTimes vistaNetwork constructPath tripID st) Hrun)
    as (_ & _ & Hok).
  destruct (Hok t eq_refl) as (Hlocals & evs & Hevs & Hfilter & Hdummy).
  split; [done|]. exists evs. split; [done|]. split; [done|].
  intros Hpr. destruct (Hdummy Hpr) as (nodes & Hnodes & Hall).
  exists nodes. split; [done|]. intros s Hs Habs Hnone.
  destruct (Hall s Hs Habs Hnone) as (n & Hn & Hd).
  exists n. split; [done|]. split; [done|].
  by destruct Hd as (lat & lng & x & y & ->).
Qed.
End TripTheorems.

(** ** The theorems on the example trips *)

Lemma frequency_table_offsets_witness :
  exists rows,
    dumpBusFrequency Demo.gtfsTrips Demo.gtfsStopTimes 5000 = Ok rows /\
    map route rows = sorted_keys Demo.gtfsTrips /\
    forall row, row ∈ rows ->
      period row = 1 /\ frequency row = 86400 /\ preemption row = 0 /\
      0 <= offsettime row /\
      exists trip stopTimes first days,
        Demo.gtfsTrips !! route row = Some trip /\
        Demo.gtfsStopTimes !! TripsEntry.tripID trip = Some stopTimes /\
        stopTimes !! 0%nat = Some first /\
        0 <= days /\
        offsettime row = StopTimesEntry.time first + days * 86400 - 5000 /\
        (5000 <= StopTimesEntry.time first -> days = 0) /\
        (StopTimesEntry.time first < 5000 ->
         StopTimesEntry.time first + (days - 1) * 86400 <= 5000
           < StopTimesEntry.time first + days * 86400).
Proof.
  eexists. split; [vm_compute; reflexivity|].
  apply (frequency_table_offsets Demo.gtfsTrips Demo.gtfsStopTimes 5000).
  vm_compute. reflexivity.
Defined.

Lemma one_row_per_position_witness :
  exists st' r,
    Demo.process false 1 initial_state = (st', r) /\
    exists rows outLinkIDList, outFile st' = outFile initial_state ++ rows /\
      (rows <> [] ->
       exists longestStart,
         trip_plan Demo.gtfsTrips Demo.gtfsNodes Demo.vistaNetwork 1
           longestStart outLinkIDList) /\
      (forall i row, rows !! i = Some row -> row_link row = outLinkIDList !! i) /\
      (forall i j ri rj,
         rows !! i = Some ri -> rows !! j = Some rj ->
         row_link ri = row_link rj ->
         outLinkIDList !! i = outLinkIDList !! j) /\
      (NoDup outLinkIDList ->
       forall i j ri rj,
         rows !! i = Some ri -> rows !! j = Some rj ->
         row_link ri = row_link rj -> i = j).
Proof.
  eexists _, _. split; [vm_compute; reflexivity|].
  eapply (one_row_per_position false Demo.gtfsTrips Demo.gtfsNodes
           Demo.gtfsStopTimes Demo.vistaNetwork Demo.constructPath 1
           initial_state).
  vm_compute. reflexivity.
Defined.

(** C5, counterexample. Trip 2 passes link 20 twice and serves stop 601
    on each pass: its rows for positions 0 and 2 both carry link 20 and a
    stop. *)
Lemma loop_trip_two_stops_on_link :
  ~ one_stop_per_link (outFile (Demo.process false 2 initial_state).1).
Proof.
  intros Hone.
  assert (0 = 2)%nat as Habs; [|done].
  apply (Hone 0%nat 2%nat (RowStop 2 0 20 601 0) (RowStop 2 2 20 601 0));
    first [by vm_compute | by eexists].
Qed.

Lemma unmatched_stops_reported_witness :
  exists st' t,
    Demo.process true 1 initial_state = (st', Ok (Some t)) /\
    trip_locals Demo.gtfsTrips Demo.gtfsNodes Demo.gtfsStopTimes
      Demo.vistaNetwork 1 t /\
    exists evs, stderr st' = stderr initial_state ++ evs /\
      filter (fun e => is_unmatched e) evs =
        unmatched_warning 1 <$>
          filter (fun s => StopTimesEntry.stopSeq s ∉ Trip.foundStopSet t)
            (Trip.stopTimes t) /\
      (true = true ->
       exists nodes, problemReportNodes st' !! Trip.shapeID t = Some nodes /\
         forall s, s ∈ Trip.stopTimes t ->
           StopTimesEntry.stopSeq s ∉ Trip.foundStopSet t ->
           (forall e, e ∈ Trip.resultTree t ->
              shapeSeq_of e <> StopTimesEntry.stopSeq s) ->
           exists n, nodes !! StopTimesEntry.stopSeq s = Some n /\
             is_dummy (Trip.shapeID t) (StopTimesEntry.stopSeq s) n /\
             ReportNode.restart n = true).
Proof.
  eexists _, _. split; [vm_compute; reflexivity|].
  apply (unmatched_stops_reported true Demo.gtfsTrips Demo.gtfsNodes
           Demo.gtfsStopTimes Demo.vistaNetwork Demo.constructPath 1
           initial_state).
  vm_compute. reflexivity.
Defined.

(** ** Sorted keys of a dictionary *)

Lemma sorted_keys_perm {V} (d : gmap Z V) :
  sorted_keys d ≡ₚ (map_to_list d).*1.
Proof. apply merge_sort_Permutation. Qed.

Lemma elem_of_sorted_keys {V} (d : gmap Z V) (k : Z) :
  k ∈ sorted_keys d <-> is_Some (d !! k).
Proof.
  rewrite sorted_keys_perm, list_elem_of_fmap. split.
  - intros ([k' v] & -> & Hin). apply elem_of_map_to_list in Hin. by exists v.
  - intros [v Hv]. exists (k, v). split; [done|]. by apply elem_of_map_to_list.
Qed.

Lemma NoDup_sorted_keys {V} (d : gmap Z V) : NoDup (sorted_keys d).
Proof. rewrite sorted_keys_perm. apply NoDup_fst_map_to_list. Qed.

Lemma sorted_keys_le {V} (d : gmap Z V) : StronglySorted Z.le (sorted_keys d).
Proof. apply StronglySorted_merge_sort; apply _. Qed.

Lemma StronglySorted_le_lt (l : list Z) :
  StronglySorted Z.le l -> NoDup l -> StronglySorted Z.lt l.
Proof.
  induction 1 as [|x l Hl IH Hx]; intros Hnd; [constructor|].
  apply NoDup_cons in Hnd as [Hnotin Hnd]. constructor; [by apply IH|].
  rewrite Forall_forall in Hx |- *. intros y Hy.
  specialize (Hx y Hy). assert (x <> y) by (intros ->; done). lia.
Qed.

Lemma sorted_keys_lt {V} (d : gmap Z V) : StronglySorted Z.lt (sorted_keys d).
Proof. apply StronglySorted_le_lt; [apply sorted_keys_le | apply NoDup_sorted_keys]. Qed.

Lemma sorted_keys_length {V} (d : gmap Z V) : length (sorted_keys d) = size d.
Proof.
  rewrite sorted_keys_perm, length_fmap. by rewrite length_map_to_list.
Qed.

(** ** The route table *)

Lemma route_rows_acc (trip_route : TripsEntry.t -> RoutesEntry.t)
    (gtfsTrips : gmap Z TripsEntry.t) (tripIDs : list Z) (acc : list RouteLine) :
  (forall k, k ∈ tripIDs -> is_Some (gtfsTrips !! k)) ->
  exists rows,
    for_R (route_row trip_route gtfsTrips) tripIDs acc = Ok (acc ++ rows) /\
    Forall2 (fun tripID row =>
               exists trip, gtfsTrips !! tripID = Some trip /\
                 row = RouteRow tripID (route_label (trip_route trip)))
      tripIDs rows.
Proof.
  revert acc. induction tripIDs as [|tripID tripIDs IH]; intros acc Hkeys; simpl.
  - exists []. by rewrite app_nil_r.
  - destruct (Hkeys tripID) as [trip Htrip]; [by left|].
    unfold route_row at 1, getkey. rewrite Htrip. simpl.
    destruct (IH (acc ++ [RouteRow tripID (route_label (trip_route trip))]))
      as (rows & -> & Hrows).
    { intros k Hk. apply Hkeys. by right. }
    eexists (_ :: rows). rewrite <- app_assoc. split; [done|].
    constructor; [|done]. by exists trip.
Qed.

Lemma append_empty_r (s : string) : s +:+ "" = s.
Proof.
  induction s as [|a s IH]; [done|].
  change (String a s +:+ "") with (String a (s +:+ "")). by rewrite IH.
Qed.

(** X2. The route table never fails: under its two header lines it has one
    line per trip, in strictly increasing order of trip identifier; the
    name of a line is the short name of the route of the trip, followed
    by a colon and the name of the route when that name is not empty. *)
Theorem bus_routes_one_line_per_trip
    (trip_route : TripsEntry.t -> RoutesEntry.t)
    (gtfsTrips : gmap Z TripsEntry.t) (userName networkName : string) :
  exists rows,
    dumpBusRoutes trip_route gtfsTrips userName networkName
      = Ok ([RouteHeader userName networkName; RouteColumns] ++ rows) /\
    omap route_line_id rows = sorted_keys gtfsTrips /\
    length rows = size gtfsTrips /\
    StronglySorted Z.lt (omap route_line_id rows) /\
    (forall tripID trip, gtfsTrips !! tripID = Some trip ->
       RouteRow tripID (route_label (trip_route trip)) ∈ rows) /\
    (forall row, row ∈ rows ->
       exists tripID trip, gtfsTrips !! tripID = Some trip /\
         row = RouteRow tripID
                 (if decide (RoutesEntry.name (trip_route trip) = "")
                  then RoutesEntry.shortName (trip_route trip)
                  else RoutesEntry.shortName (trip_route trip) +:+ ": "
                         +:+ RoutesEntry.name (trip_route trip))).
Proof.
  destruct (route_rows_acc trip_route gtfsTrips (sorted_keys gtfsTrips)
              [RouteHeader userName networkName; RouteColumns])
    as (rows & Hrun & Hrows).
  { intros k. by rewrite elem_of_sorted_keys. }
  exists rows. split; [done|].
  assert (omap route_line_id rows = sorted_keys gtfsTrips) as Hids.
  { clear Hrun. induction Hrows as [|k row ks rows (trip & _ & ->) _ IH];
      [done|]. csimpl. by rewrite IH. }
  split; [done|]. split.
  { rewrite <- (sorted_keys_length gtfsTrips). symmetry.
    by eapply Forall2_length. }
  split; [rewrite Hids; apply sorted_keys_lt|]. split.
  - intros tripID trip Htrip.
    assert (tripID ∈ sorted_keys gtfsTrips) as Hin
      by (by apply elem_of_sorted_keys).
    apply list_elem_of_lookup in Hin as [i Hi].
    destruct (Forall2_lookup_l _ _ _ _ _ Hrows Hi) as (row & Hrow & trip' & Ht' & ->).
    rewrite Htrip in Ht'. injection Ht' as <-.
    by eapply list_elem_of_lookup_2.
  - intros row Hrow. apply list_elem_of_lookup in Hrow as [i Hi].
    destruct (Forall2_lookup_r _ _ _ _ _ Hrows Hi) as (k & _ & trip & Htrip & ->).
    exists k, trip. split; [done|]. f_equal. unfold route_label.
    destruct (trip_route trip) as [short name]. simpl.
    destruct name as [|a name]; simpl; [|done].
    apply append_empty_r.
Qed.

(** ** The stop table *)

Section BusStopsProofs.
Variable stopName : StopsEntry.t -> string.
Variable gtfsStops : gmap Z StopsEntry.t.

Lemma stop_rows_spec (entries : list (Z * PointOnLink.t)) (lines : list StopLine) :
  exists done rest rows,
    entries = done ++ rest /\
    (stop_rows stopName gtfsStops entries lines).1 = lines ++ rows /\
    Forall2 (fun entry row =>
               exists stop, gtfsStops !! entry.1 = Some stop /\
                 row = stop_row stopName entry.1 entry.2 stop) done rows /\
    match (stop_rows stopName gtfsStops entries lines).2 with
    | Ok _ => rest = []
    | Raise e => e = KeyError /\
        exists entry rest', rest = entry :: rest' /\ gtfsStops !! entry.1 = None
    end.
Proof.
  revert lines. induction entries as [|[stopID p] entries IH]; intros lines.
  - exists [], [], []. simpl. by rewrite app_nil_r.
  - simpl. destruct (gtfsStops !! stopID) as [stop|] eqn:Hstop.
    + destruct (IH (lines ++ [stop_row stopName stopID p stop]))
        as (done & rest & rows & -> & Hlines & Hrows & Hres).
      exists ((stopID, p) :: done), rest, (stop_row stopName stopID p stop :: rows).
      split; [done|]. split; [by rewrite Hlines, <- app_assoc|].
      split; [|done]. constructor; [|done]. by exists stop.
    + exists [], ((stopID, p) :: entries), []. simpl.
      split; [done|]. split; [by rewrite app_nil_r|]. split; [constructor|].
      split; [done|]. by eexists _, _.
Qed.
End BusStopsProofs.

(** X19. The stop table has, under its two header lines, one line for each
    stop of the stop-to-link map for which [gtfsStops] knows the stop, no
    stop twice; the line gives the link of the point filed for the stop
    and the integer part of its distance.  The table is complete when
    every stop of the map is in [gtfsStops]; otherwise the function stops
    with [KeyError] at a stop that is not, which gets no line. *)
Theorem bus_stops_one_line_per_stop
    (stopName : StopsEntry.t -> string)
    (gtfsStops : gmap Z StopsEntry.t)
    (stopLinkMap : gmap Z PointOnLink.t) (userName networkName : string) :
  exists rows,
    (dumpBusStops stopName gtfsStops stopLinkMap userName networkName).1
      = [StopHeader userName networkName; StopColumns] ++ rows /\
    NoDup (omap stop_line_id rows) /\
    (forall row, row ∈ rows ->
       exists stopID p stop,
         stopLinkMap !! stopID = Some p /\ gtfsStops !! stopID = Some stop /\
         row = StopRow stopID (GraphLink.id (PointOnLink.link p)) (stopName stop)
                 (int_of_float (PointOnLink.dist p))) /\
    match (dumpBusStops stopName gtfsStops stopLinkMap userName networkName).2 with
    | Ok _ =>
        length rows = size stopLinkMap /\
        forall stopID p, stopLinkMap !! stopID = Some p ->
          exists stop, gtfsStops !! stopID = Some stop /\
            stop_row stopName stopID p stop ∈ rows
    | Raise e =>
        e = KeyError /\
        exists stopID, is_Some (stopLinkMap !! stopID) /\
          gtfsStops !! stopID = None /\ stopID ∉ omap stop_line_id rows
    end.
Proof.
  unfold dumpBusStops.
  destruct (stop_rows_spec stopName gtfsStops (map_to_list stopLinkMap)
              [StopHeader userName networkName; StopColumns])
    as (done & rest & rows & Hsplit & Hlines & Hrows & Hres).
  exists rows. split; [done|].
  assert (omap stop_line_id rows = done.*1) as Hids.
  { clear Hlines Hsplit. induction Hrows as [|e row es rows (stop & _ & ->) _ IH];
      [done|]. csimpl. by rewrite IH. }
  pose proof (NoDup_fst_map_to_list stopLinkMap) as Hnd.
  rewrite Hsplit, fmap_app in Hnd. apply NoDup_app in Hnd as (Hnd1 & Hdisj & _).
  split; [by rewrite Hids|]. split.
  { intros row Hrow. apply list_elem_of_lookup in Hrow as [i Hi].
    destruct (Forall2_lookup_r _ _ _ _ _ Hrows Hi) as ([k p] & Hk & stop & Hstop & ->).
    exists k, p, stop. split; [|done].
    apply elem_of_map_to_list. rewrite Hsplit. apply elem_of_app. left.
    by eapply list_elem_of_lookup_2. }
  destruct (stop_rows _ _ _ _).2 as [[]|e].
  - subst rest. rewrite app_nil_r in Hsplit. subst done. split.
    { rewrite <- (length_map_to_list stopLinkMap). symmetry.
      by eapply Forall2_length. }
    intros stopID p Hp. apply elem_of_map_to_list in Hp.
    apply list_elem_of_lookup in Hp as [i Hi].
    destruct (Forall2_lookup_l _ _ _ _ _ Hrows Hi) as (row & Hrow & stop & Hstop & ->).
    exists stop. split; [done|]. by eapply list_elem_of_lookup_2.
  - destruct Hres as (-> & [k p] & rest' & -> & Hnone). split; [done|].
    exists k. split; [|split; [done|]].
    + exists p. apply elem_of_map_to_list. rewrite Hsplit.
      apply elem_of_app. right. by left.
    + rewrite Hids. intros Hin. apply (Hdisj k Hin). simpl. by left.
Qed.

(** ** The frequency table, when a trip has no stop time *)

Lemma frequency_rows_raise gtfsTrips gtfsStopTimes refTime tripIDs acc e :
  for_R (frequency_row gtfsTrips gtfsStopTimes refTime) tripIDs acc = Raise e ->
  (forall k, k ∈ tripIDs -> is_Some (gtfsTrips !! k)) ->
  exists before tripID after trip,
    tripIDs = before ++ tripID :: after /\
    gtfsTrips !! tripID = Some trip /\
    ((e = KeyError /\ gtfsStopTimes !! TripsEntry.tripID trip = None) \/
     (e = IndexError /\ gtfsStopTimes !! TripsEntry.tripID trip = Some [])) /\
    forall k t, k ∈ before -> gtfsTrips !! k = Some t ->
      exists first rest, gtfsStopTimes !! TripsEntry.tripID t = Some (first :: rest).
Proof.
  revert acc. induction tripIDs as [|tripID tripIDs IH]; intros acc; simpl; [done|].
  intros Hrun Hkeys. destruct (Hkeys tripID) as [trip Htrip]; [by left|].
  unfold frequency_row at 1, getkey in Hrun. rewrite Htrip in Hrun. simpl in Hrun.
  destruct (gtfsStopTimes !! TripsEntry.tripID trip) as [stopTimes|] eqn:Hst.
  2:{ injection Hrun as <-. exists [], tripID, tripIDs, trip.
      split; [done|]. split; [done|]. split; [by left|].
      intros k t Hk. by apply elem_of_nil in Hk. }
  simpl in Hrun. destruct stopTimes as [|first rest].
  { injection Hrun as <-. exists [], tripID, tripIDs, trip.
    split; [done|]. split; [done|]. split; [by right|].
    intros k t Hk. by apply elem_of_nil in Hk. }
  change (getitem (first :: rest) 0) with (Ok (A := StopTimesEntry.t) first) in Hrun.
  simpl in Hrun. destruct (IH _ Hrun)
    as (before & bad & after & badTrip & -> & Hbad & He & Hbefore).
  { intros k Hk. apply Hkeys. by right. }
  exists (tripID :: before), bad, after, badTrip.
  split; [done|]. split; [done|]. split; [done|].
  intros k t Hk Ht. apply elem_of_cons in Hk as [->|Hk]; [|by eapply Hbefore].
  rewrite Htrip in Ht. injection Ht as <-. by exists first, rest.
Qed.

(** X21. The frequency table is written in full exactly when every trip has
    a first stop time.  Otherwise the loop stops at the trip of least
    identifier that has none: with [KeyError] when the trip has no list
    of stop times, with [IndexError] when its list is empty. *)
Theorem frequency_table_needs_stop_times
    (gtfsTrips : gmap Z TripsEntry.t)
    (gtfsStopTimes : gmap Z (list StopTimesEntry.t)) (refTime : Z) :
  match dumpBusFrequency gtfsTrips gtfsStopTimes refTime with
  | Ok rows =>
      length rows = size gtfsTrips /\
      forall tripID trip, gtfsTrips !! tripID = Some trip ->
        exists first rest,
          gtfsStopTimes !! TripsEntry.tripID trip = Some (first :: rest)
  | Raise e =>
      exists tripID trip,
        gtfsTrips !! tripID = Some trip /\
        ((e = KeyError /\ gtfsStopTimes !! TripsEntry.tripID trip = None) \/
         (e = IndexError /\ gtfsStopTimes !! TripsEntry.tripID trip = Some [])) /\
        forall k t, k < tripID -> gtfsTrips !! k = Some t ->
          exists first rest,
            gtfsStopTimes !! TripsEntry.tripID t = Some (first :: rest)
  end.
Proof.
  unfold dumpBusFrequency.
  destruct (for_R _ _ _) as [rows|e] eqn:Hrun.
  - apply frequency_rows_acc in Hrun as (new & -> & Hroutes & Hall). simpl.
    split.
    { rewrite <- (sorted_keys_length gtfsTrips), <- Hroutes.
      by rewrite length_map. }
    intros tripID trip Htrip.
    assert (tripID ∈ map route new) as Hin
      by (rewrite Hroutes; by apply elem_of_sorted_keys).
    apply list_elem_of_fmap in Hin as (row & -> & Hrow).
    rewrite Forall_forall in Hall.
    destruct (Hall row Hrow) as (trip' & stopTimes & first & Ht' & Hst & Hfirst & _).
    rewrite Htrip in Ht'. injection Ht' as <-.
    destruct stopTimes as [|first' rest]; [done|]. by exists first', rest.
  - apply frequency_rows_raise in Hrun
      as (before & tripID & after & trip & Hsplit & Htrip & He & Hbefore).
    2:{ intros k. by rewrite elem_of_sorted_keys. }
    exists tripID, trip. split; [done|]. split; [done|].
    intros k t Hk Ht. apply (Hbefore k t); [|done].
    assert (k ∈ sorted_keys gtfsTrips) as Hin by (by apply elem_of_sorted_keys).
    rewrite Hsplit in Hin. apply elem_of_app in Hin as [Hin|Hin]; [done|].
    pose proof (sorted_keys_le gtfsTrips) as Hsorted. rewrite Hsplit in Hsorted.
    apply StronglySorted_app_1_r, StronglySorted_inv in Hsorted as [_ Hall].
    apply elem_of_cons in Hin as [->|Hin]; [lia|].
    rewrite Forall_forall in Hall. specialize (Hall k Hin). lia.
Qed.

(** ** The lists of the problem report *)

Lemma omap_lookup_keys {V} (nodes : gmap Z V) (keys : list Z) :
  (forall k, k ∈ keys -> is_Some (nodes !! k)) ->
  Forall2 (fun seq n => nodes !! seq = Some n) keys
    (omap (fun seq => nodes !! seq) keys).
Proof.
  induction keys as [|k keys IH]; intros Hkeys; [constructor|].
  destruct (Hkeys k) as [n Hn]; [by left|]. csimpl. rewrite Hn. simpl.
  constructor; [done|]. apply IH. intros k' Hk'. apply Hkeys. by right.
Qed.

(** X18. The problem report is given, for every shape that has report
    nodes, the list of all nodes of the shape in strictly increasing
    order of their sequence number (the key under which they are filed),
    and nothing for any other shape. *)
Theorem problem_report_lists_sorted
    (prn : gmap Z (gmap Z ReportNode.t)) (shapeID : Z) :
  match prn !! shapeID with
  | None => problemReportNodesOut prn !! shapeID = None
  | Some nodes =>
      exists seqs l,
        problemReportNodesOut prn !! shapeID = Some l /\
        Forall2 (fun seq n => nodes !! seq = Some n) seqs l /\
        StronglySorted Z.lt seqs /\
        (forall seq, seq ∈ seqs <-> is_Some (nodes !! seq)) /\
        length l = size nodes
  end.
Proof.
  unfold problemReportNodesOut. rewrite lookup_fmap.
  destruct (prn !! shapeID) as [nodes|]; [|done]. simpl.
  exists (sorted_keys nodes), (omap (fun seq => nodes !! seq) (sorted_keys nodes)).
  split; [done|].
  assert (Forall2 (fun seq n => nodes !! seq = Some n) (sorted_keys nodes)
            (omap (fun seq => nodes !! seq) (sorted_keys nodes))) as Hall.
  { apply omap_lookup_keys. intros k. by rewrite elem_of_sorted_keys. }
  split; [done|]. split; [apply sorted_keys_lt|].
  split; [apply elem_of_sorted_keys|].
  rewrite <- (sorted_keys_length nodes). symmetry. by eapply Forall2_length.
Qed.

(** ** The shapes without a path *)

Lemma drop_unused_fold {Shape Path} (gtfsNodes : gmap Z Path) (keys : list Z)
    (shapes : gmap Z Shape) (unused : gset Z) :
  let res := foldl (drop_unused gtfsNodes) (shapes, unused) keys in
  (forall k, res.1 !! k =
             if bool_decide (k ∈ keys /\ gtfsNodes !! k = None) then None
             else shapes !! k) /\
  (forall k, k ∈ res.2 <-> k ∈ unused \/ (k ∈ keys /\ gtfsNodes !! k = None)).
Proof.
  revert shapes unused.
  induction keys as [|x keys IH]; intros shapes unused; cbn [foldl fst snd].
  - split; intros k.
    + rewrite bool_decide_eq_false_2; [done|]. intros [H _]. by apply elem_of_nil in H.
    + split; [by left|]. intros [?|[H _]]; [done|]. by apply elem_of_nil in H.
  - destruct (gtfsNodes !! x) as [p|] eqn:Hx.
    + assert (drop_unused gtfsNodes (shapes, unused) x = (shapes, unused)) as ->
        by (unfold drop_unused; by rewrite Hx).
      destruct (IH shapes unused) as [H1 H2]. split; intros k.
      * rewrite H1. apply (f_equal (fun b : bool => if b then None else shapes !! k)).
        apply bool_decide_ext. rewrite elem_of_cons. split.
        { intros [? ?]. split; [by right|done]. }
        intros [[->|?] ?]; [congruence|done].
      * rewrite H2, elem_of_cons. split.
        { intros [?|[? ?]]; [by left|right; split; [by right|done]]. }
        intros [?|[[->|?] ?]]; [by left|congruence|by right].
    + assert (drop_unused gtfsNodes (shapes, unused) x
              = (delete x shapes, {[x]} ∪ unused)) as ->
        by (unfold drop_unused; by rewrite Hx).
      destruct (IH (delete x shapes) ({[x]} ∪ unused)) as [H1 H2]. split; intros k.
      * rewrite H1. destruct (decide (k = x)) as [->|Hne].
        { rewrite lookup_delete_eq.
          rewrite (bool_decide_eq_true_2 (x ∈ x :: keys /\ _));
            [by destruct (bool_decide _)|]. split; [by left|done]. }
        rewrite lookup_delete_ne by done.
        apply (f_equal (fun b : bool => if b then None else shapes !! k)).
        apply bool_decide_ext. rewrite elem_of_cons. split.
        { intros [? ?]. split; [by right|done]. }
        intros [[?|?] ?]; [done|done].
      * rewrite H2, elem_of_union, elem_of_singleton, elem_of_cons. split.
        { intros [[->|?]|[? ?]].
          - right. split; [by left|done].
          - by left.
          - right. split; [by right|done]. }
        intros [?|[[->|?] ?]].
        { left. by right. }
        { left. by left. }
        right. done.
Qed.

(** X1. After the filter of [restorePathMatch], the shapes kept are the
    shapes that have a path, unchanged; the unused shape identifiers are
    those of the shapes that have none; so every shape is either kept or
    listed as unused, never both. *)
Theorem unused_shapes_filtered {Shape Path : Type}
    (gtfsShapes : gmap Z Shape) (gtfsNodes : gmap Z Path) :
  let kept := (filter_unused_shapes gtfsShapes gtfsNodes).1 in
  let unusedShapeIDs := (filter_unused_shapes gtfsShapes gtfsNodes).2 in
  (forall shapeID,
     kept !! shapeID =
       match gtfsNodes !! shapeID with
       | Some _ => gtfsShapes !! shapeID
       | None => None
       end) /\
  (forall shapeID,
     shapeID ∈ unusedShapeIDs <->
     is_Some (gtfsShapes !! shapeID) /\ gtfsNodes !! shapeID = None) /\
  (forall shapeID, is_Some (gtfsShapes !! shapeID) ->
     (is_Some (kept !! shapeID) /\ shapeID ∉ unusedShapeIDs) \/
     (kept !! shapeID = None /\ shapeID ∈ unusedShapeIDs)).
Proof.
  intros kept unused. subst kept unused. unfold filter_unused_shapes.
  destruct (drop_unused_fold gtfsNodes (map fst (map_to_list gtfsShapes))
              gtfsShapes ∅) as [H1 H2].
  assert (forall k, k ∈ map fst (map_to_list gtfsShapes)
                    <-> is_Some (gtfsShapes !! k)) as Hkeys.
  { intros k. rewrite <- elem_of_sorted_keys, sorted_keys_perm. done. }
  assert (forall shapeID,
            (foldl (drop_unused gtfsNodes) (gtfsShapes, ∅)
               (map fst (map_to_list gtfsShapes))).1 !! shapeID =
            match gtfsNodes !! shapeID with
            | Some _ => gtfsShapes !! shapeID
            | None => None
            end) as Hkept.
  { intros k. rewrite H1. destruct (gtfsNodes !! k) as [p|] eqn:Hk.
    - rewrite bool_decide_eq_false_2; [done|]. by intros [_ ?].
    - destruct (gtfsShapes !! k) as [s|] eqn:Hs; [|by destruct (bool_decide _)].
      rewrite bool_decide_eq_true_2; [done|]. split; [|done].
      apply Hkeys. by rewrite Hs. }
  assert (forall shapeID,
            shapeID ∈ (foldl (drop_unused gtfsNodes) (gtfsShapes, ∅)
                         (map fst (map_to_list gtfsShapes))).2 <->
            is_Some (gtfsShapes !! shapeID) /\ gtfsNodes !! shapeID = None)
    as Hunused.
  { intros k. rewrite H2, Hkeys. split; [|by right].
    intros [H|H]; [by apply elem_of_empty in H|done]. }
  split; [done|]. split; [done|].
  intros k Hk. rewrite Hkept, Hunused.
  destruct (gtfsNodes !! k) as [p|]; [left|right].
  - split; [done|]. by intros [_ ?].
  - done.
Qed.

(** ** Step 1: the counters and the selected slice *)

Section SegmentCounts.
Variable treeNodes : list PathEnd.t.

Lemma seg_body_counts (s s' : Seg.t) :
  seg_body treeNodes s = Ok s' -> seg_counts s -> seg_counts s'.
Proof.
  destruct s as [si ci lc tl ls le ld llc].
  unfold seg_counts, seg_body, seg_at_boundary, seg_close, rbind, len. simpl.
  intros Hrun (Hci & Hlc & Hllc & Htl).
  repeat match type of Hrun with
         | context [if ?b then _ else _] => destruct b eqn:?
         | context [match getitem ?l ?i with _ => _ end] => destruct (getitem l i)
         end;
    try discriminate; injection Hrun as <-; simpl in *;
    repeat split; try lia.
Qed.

Lemma seg_loop_counts (fuel : nat) (s s' : Seg.t) :
  seg_loop treeNodes fuel s = Ok s' -> seg_counts s -> seg_counts s'.
Proof.
  revert s. induction fuel as [|fuel IH]; intros s; simpl.
  - destruct (_ <=? _); [done|]. by intros [= ->].
  - destruct (_ <=? _); [|by intros [= ->]].
    destruct (seg_body treeNodes s) as [s1|] eqn:Hbody; [simpl|done].
    intros Hrun Hs. apply (IH s1 Hrun). by eapply seg_body_counts.
Qed.
End SegmentCounts.

(** X3. The scan of Step 1 ends with at least one link counted in
    [totalLinks] and with [longestLinkCount] between 0 and [totalLinks]:
    the share of links that the warning of line 209 prints is a number
    between 0 and 100, and its division is never by zero. *)
Theorem link_counts_bounded (treeNodes : list PathEnd.t) :
  exists seg, segment_scan treeNodes = Ok seg /\
    1 <= Seg.totalLinks seg /\
    0 <= Seg.longestLinkCount seg <= Seg.totalLinks seg /\
    (0 <= 100 * inject_Z (Seg.longestLinkCount seg)
            / inject_Z (Seg.totalLinks seg) <= 100)%Q.
Proof.
  destruct (segment_scan_inv treeNodes) as (seg & Hrun & Hcur & _).
  exists seg. split; [done|].
  destruct (seg_loop_counts treeNodes _ _ _ Hrun) as (_ & _ & Hllc & Htl).
  { unfold seg_counts, seg_init. simpl. lia. }
  assert (1 <= Seg.totalLinks seg) as Hpos
    by (apply Htl; rewrite Hcur; unfold len; lia).
  split; [done|]. split; [done|].
  assert (0 < inject_Z (Seg.totalLinks seg))%Q as HposQ.
  { change 0%Q with (inject_Z 0). rewrite <- Zlt_Qlt. lia. }
  split.
  - apply Qle_shift_div_l; [done|]. rewrite Qmult_0_l.
    apply Qmult_le_0_compat; [done|].
    change 0%Q with (inject_Z 0). rewrite <- Zle_Qle. lia.
  - apply Qle_shift_div_r; [done|].
    apply Qmult_le_l; [done|]. rewrite <- Zle_Qle. lia.
Qed.

Lemma slice_length {A} (l : list A) (s e : Z) :
  0 <= s <= e -> e <= len l -> len (slice l s e) = e - s.
Proof.
  intros Hs He. unfold slice, len in *. rewrite length_take, length_drop. lia.
Qed.

Lemma slice_lookup {A} (l : list A) (s e : Z) (i : nat) :
  0 <= s <= e -> Z.of_nat i < e - s ->
  slice l s e !! i = l !! (Z.to_nat s + i)%nat.
Proof.
  intros Hs Hi. unfold slice. rewrite lookup_take_lt by lia. by rewrite lookup_drop.
Qed.

Lemma getitem_last {A} (l : list A) :
  0 < len l ->
  exists x, l !! Z.to_nat (len l - 1) = Some x /\ getitem l (-1) = Ok x.
Proof.
  intros Hl. unfold getitem. simpl.
  destruct (Z.ltb_spec (-1 + Z.of_nat (length l)) 0); [unfold len in *; lia|].
  destruct (lookup_lt_is_Some_2 l (Z.to_nat (len l - 1))) as [x Hx];
    [unfold len in *; lia|].
  exists x. split; [done|].
  replace (-1 + Z.of_nat (length l)) with (len l - 1) by (unfold len; lia).
  by rewrite Hx.
Qed.

(** X4. When Step 1 selects an interval, the slice taken at line 219 is
    not empty (as the comment of line 218 assumes): it has
    [longestEnd - longestStart] positions, its first and last positions
    can be read, it begins at the start of the sequence or at a position
    flagged [restart], and none of its later positions is flagged
    [restart]. *)
Theorem selected_slice_contiguous (treeNodes : list PathEnd.t) (seg : Seg.t) :
  segment_scan treeNodes = Ok seg ->
  0 <= Seg.longestStart seg ->
  let ourGTFSNodes :=
    slice treeNodes (Seg.longestStart seg) (Seg.longestEnd seg) in
  Seg.longestStart seg < Seg.longestEnd seg <= len treeNodes /\
  len ourGTFSNodes = Seg.longestEnd seg - Seg.longestStart seg /\
  (exists first last,
     getitem ourGTFSNodes 0 = Ok first /\
     getitem ourGTFSNodes (-1) = Ok last /\
     treeNodes !! Z.to_nat (Seg.longestStart seg) = Some first /\
     treeNodes !! Z.to_nat (Seg.longestEnd seg - 1) = Some last /\
     (0 < Seg.longestStart seg -> PathEnd.restart first = true)) /\
  (forall i nd, (0 < i)%nat -> ourGTFSNodes !! i = Some nd ->
     PathEnd.restart nd = false).
Proof.
  intros Hrun Hstart ourGTFSNodes.
  destruct (segment_scan_inv treeNodes) as (seg' & Hrun' & _ & Hbest).
  rewrite Hrun in Hrun'. injection Hrun' as <-.
  destruct Hbest as [(Hnone & _)|(Hisrun & _)]; [lia|].
  destruct Hisrun as (Hse & Hlen & Hbs & _ & Hin).
  set (s := Seg.longestStart seg) in *. set (e := Seg.longestEnd seg) in *.
  assert (len ourGTFSNodes = e - s) as Hl by (apply slice_length; lia).
  split; [lia|]. split; [done|]. split.
  - destruct (getitem_ok ourGTFSNodes 0) as (first & Hfirst & Hget0); [lia|].
    destruct (getitem_last ourGTFSNodes) as (last & Hlast & Hget1); [lia|].
    exists first, last. split; [done|]. split; [done|].
    unfold ourGTFSNodes in Hfirst, Hlast.
    rewrite slice_lookup in Hfirst by (simpl; lia).
    rewrite slice_lookup in Hlast by (fold ourGTFSNodes; lia).
    fold ourGTFSNodes in Hlast.
    replace (Z.to_nat s + Z.to_nat 0)%nat with (Z.to_nat s) in Hfirst by lia.
    replace (Z.to_nat s + Z.to_nat (len ourGTFSNodes - 1))%nat
      with (Z.to_nat (e - 1)) in Hlast by lia.
    split; [done|]. split; [done|]. intros Hpos.
    rewrite <- (boundary_restart treeNodes s first); [done| |done].
    unfold len in *. lia.
  - intros i nd Hi Hnd.
    assert (Z.of_nat i < e - s) as Hilt.
    { apply lookup_lt_Some in Hnd. unfold len in Hl. lia. }
    unfold ourGTFSNodes in Hnd. rewrite slice_lookup in Hnd by lia.
    rewrite <- (boundary_restart treeNodes (s + Z.of_nat i) nd).
    + apply Hin. lia.
    + unfold len in *. lia.
    + by replace (Z.to_nat (s + Z.of_nat i)) with (Z.to_nat s + i)%nat by lia.
Qed.

Lemma selected_slice_contiguous_witness :
  exists seg,
    segment_scan Demo.treeNodes1 = Ok seg /\
    0 <= Seg.longestStart seg /\
    Seg.longestStart seg < Seg.longestEnd seg <= len Demo.treeNodes1 /\
    len (slice Demo.treeNodes1 (Seg.longestStart seg) (Seg.longestEnd seg))
      = Seg.longestEnd seg - Seg.longestStart seg /\
    (exists first last,
       getitem (slice Demo.treeNodes1 (Seg.longestStart seg) (Seg.longestEnd seg)) 0
         = Ok first /\
       getitem (slice Demo.treeNodes1 (Seg.longestStart seg) (Seg.longestEnd seg)) (-1)
         = Ok last /\
       Demo.treeNodes1 !! Z.to_nat (Seg.longestStart seg) = Some first /\
       Demo.treeNodes1 !! Z.to_nat (Seg.longestEnd seg - 1) = Some last /\
       (0 < Seg.longestStart seg -> PathEnd.restart first = true)) /\
    (forall i nd, (0 < i)%nat ->
       slice Demo.treeNodes1 (Seg.longestStart seg) (Seg.longestEnd seg) !! i
         = Some nd ->
       PathEnd.restart nd = false).
Proof.
  eexists. split; [vm_compute; reflexivity|].
  split; [simpl; lia|].
  apply (selected_slice_contiguous Demo.treeNodes1); [vm_compute; reflexivity|].
  simpl. lia.
Defined.

(** The scan follows the arithmetic of doubles: of two runs of which the
    second spans more, but by less than the rounding of the subtraction
    can tell, the first is kept. *)
Lemma rounded_spans_keep_first :
  exists seg,
    segment_scan DemoFloat.treeNodes = Ok seg /\
    Seg.longestStart seg = 0 /\ Seg.longestEnd seg = 2 /\
    is_run DemoFloat.treeNodes 0 2 /\ is_run DemoFloat.treeNodes 2 4 /\
    (span DemoFloat.treeNodes 0 2 < span DemoFloat.treeNodes 2 4)%Q /\
    (float_span DemoFloat.treeNodes 0 2 == float_span DemoFloat.treeNodes 2 4)%Q.
Proof.
  eexists. split; [vm_compute; reflexivity|].
  split; [reflexivity|]. split; [reflexivity|].
  split; [split; [lia|]; split; [done|]; do 2 (split; [done|]);
          intros i Hi; by assert (i = 1) as -> by lia|].
  split; [split; [lia|]; split; [done|]; do 2 (split; [done|]);
          intros i Hi; by assert (i = 3) as -> by lia|].
  split; [apply Qlt_alt; vm_compute; reflexivity|].
  apply Qeq_bool_iff. vm_compute. reflexivity.
Qed.

(** ** Step 2: the output links are the links of the small graph *)

Lemma getitem_app_last {A} (l : list A) (x : A) : getitem (l ++ [x]) (-1) = Ok x.
Proof.
  destruct (getitem_last (l ++ [x])) as (y & Hy & ->).
  { unfold len. rewrite length_app. simpl. lia. }
  f_equal. unfold len in Hy. rewrite length_app in Hy. simpl in Hy.
  replace (Z.to_nat (Z.of_nat (length l + 1) - 1)) with (length l + 0)%nat in Hy by lia.
  rewrite lookup_app_r in Hy by lia.
  replace (length l + 0 - length l)%nat with 0%nat in Hy by lia.
  by injection Hy.
Qed.

Section SubgraphLinks.
Variable vistaNetwork : GraphLib.t.
Variable first : PathEnd.t.
Variable ourGTFSNodes : list PathEnd.t.
Variable st0 : State.

Local Abbreviation inv := (build_inv vistaNetwork first ourGTFSNodes st0).

Lemma build_inv_stderr (b : Build.t) (st : State) (evs : list LogEvent) :
  inv b st ->
  inv b (mkState (ret st) (problemReportNodes st) (outFile st) evs (vistaNode st)).
Proof. done. Qed.

(** The step of lines 263-266, once [vistaNode] is bound. *)
Lemma build_inv_append (b : Build.t) (st : State) (sub : GraphLib.t)
    (n prior : GraphNode.t) (link : GraphLink.t) (lastID : Z)
    (calls : list GraphLink.t) (linkMap' : gmap Z GraphLink.t) :
  inv b st ->
  getitem (Build.outLinkIDList b) (-1) = Ok lastID ->
  is_Some (GraphLib.linkMap vistaNetwork !! GraphLink.id link) ->
  (exists nd, nd ∈ ourGTFSNodes /\ link ∈ PathEnd.routeInfo nd) ->
  GraphLib.linkMap sub = linkMap' ->
  (linkMap' = GraphLib.linkMap (Build.vistaSubset b) /\ is_Some (linkMap' !! lastID)
   \/ exists l, linkMap' = <[lastID := l]> (GraphLib.linkMap (Build.vistaSubset b))) ->
  inv (Build.mk sub prior (Build.outLinkIDList b ++ [GraphLink.id link]) calls)
    (mkState (ret st) (problemReportNodes st) (outFile st) (stderr st) (Some n)).
Proof.
  intros ((rest & Hout & Hrest & _ & _) & (init & lastID' & Hsplit & Hinit & Hkeys))
    Hlast Hnet (nd & Hnd & Hlink) Hsub Hmap.
  rewrite Hsplit, getitem_app_last in Hlast. injection Hlast as ->.
  split.
  - exists (rest ++ [GraphLink.id link]). cbn [Build.outLinkIDList vistaNode].
    split; [by rewrite Hout|]. split.
    { apply Forall_app. split; [done|]. constructor; [|done].
      split; [done|]. by exists nd, link. }
    split; [intros H; by destruct rest|]. by eexists.
  - exists (Build.outLinkIDList b), (GraphLink.id link).
    cbn [Build.outLinkIDList Build.vistaSubset]. rewrite Hsub.
    split; [done|]. split.
    + intros i Hi. rewrite Hsplit in Hi.
      apply elem_of_app in Hi as [Hi|Hi%list_elem_of_singleton].
      * destruct Hmap as [[-> _]|[l ->]]; [by apply Hinit|].
        destruct (decide (i = lastID)) as [->|Hne];
          [by rewrite lookup_insert_eq|].
        rewrite lookup_insert_ne by done. by apply Hinit.
      * subst i. destruct Hmap as [[_ ?]|[l ->]]; [done|].
        by rewrite lookup_insert_eq.
    + intros i Hi. apply elem_of_app. left.
      destruct Hmap as [[-> _]|[l ->]]; [by apply Hkeys|].
      destruct (decide (i = lastID)) as [->|Hne].
      * rewrite Hsplit. apply elem_of_app. right. by left.
      * rewrite lookup_insert_ne in Hi by done. by apply Hkeys.
Qed.

Lemma build_inv_last (b : Build.t) (st : State) :
  inv b st -> exists lastID, getitem (Build.outLinkIDList b) (-1) = Ok lastID.
Proof.
  intros (_ & init & lastID & -> & _). exists lastID. apply getitem_app_last.
Qed.

Lemma build_link_inv (b : Build.t) (link : GraphLink.t) (st : State) :
  inv b st ->
  (exists nd, nd ∈ ourGTFSNodes /\ link ∈ PathEnd.routeInfo nd) ->
  wp (build_link vistaNetwork b link) st (fun st' r =>
    exists b', r = Ok b' /\ inv b' st').
Proof.
  intros Hb Hlink. unfold build_link.
  destruct (GraphLib.linkMap vistaNetwork !! GraphLink.id link) as [orig|] eqn:Hnet.
  2:{ apply wp_bind, wp_log, wp_unit. exists b. split; [done|].
      by apply build_inv_stderr. }
  destruct (build_inv_last b st Hb) as [lastID Hlast].
  destruct (GraphLib.nodeMap (Build.vistaSubset b) !! _) as [n|];
    apply wp_bind, wp_set_vistaNode, wp_bind, wp_lift; rewrite Hlast;
    cbn [GraphLib.linkMap GraphLib.addNode];
    destruct (GraphLib.linkMap (Build.vistaSubset b) !! lastID) as [l|] eqn:Hl;
    apply wp_unit; eexists; (split; [reflexivity|]);
    (eapply build_inv_append; [exact Hb|exact Hlast|by eexists|exact Hlink|reflexivity|]);
    cbn [GraphLib.linkMap GraphLib.addLink GraphLib.addNode];
    first [left; split; [reflexivity|by rewrite Hl] | right; by eexists].
Qed.

Lemma build_node_inv (b : Build.t) (nd : PathEnd.t) (st : State) :
  inv b st -> nd ∈ ourGTFSNodes ->
  wp (build_node vistaNetwork (link_id_of first) b nd) st (fun st' r =>
    exists b', r = Ok b' /\ inv b' st').
Proof.
  intros Hb Hnd. unfold build_node. apply wp_bind, wp_lift.
  unfold no_new_links.
  destruct (Z.ltb_spec (len (PathEnd.routeInfo nd)) 1) as [|Hlen].
  { apply wp_unit. by exists b. }
  assert (forall st1, inv b st1 ->
            wp (for_M (build_link vistaNetwork) (PathEnd.routeInfo nd) b) st1
              (fun st' r => exists b', r = Ok b' /\ inv b' st')) as Hloop.
  { intros st1 Hb1.
    apply wp_for with (Inv := fun _ b' st' => inv b' st'); [done| |].
    - intros seen x rest b1 st2 Hsplit Hb2.
      eapply wp_conseq.
      { apply build_link_inv; [done|]. exists nd. split; [done|].
        rewrite Hsplit. apply elem_of_app. right. by left. }
      by intros st3 r (b3 & -> & Hb3).
    - intros b1 st2 Hb2. by exists b1. }
  destruct (len (Build.outLinkIDList b) =? 1); [|by apply Hloop].
  destruct (getitem_ok (PathEnd.routeInfo nd) 0) as (l0 & _ & ->); [lia|]. simpl.
  destruct (_ =? _); [|by apply Hloop].
  apply wp_unit. by exists b.
Qed.

Lemma build_nodes_inv (nodes : list PathEnd.t) (b : Build.t) (st : State) :
  inv b st -> (forall nd, nd ∈ nodes -> nd ∈ ourGTFSNodes) ->
  wp (for_M (build_node vistaNetwork (link_id_of first)) nodes b) st
    (fun st' r => exists b', r = Ok b' /\ inv b' st').
Proof.
  intros Hb Hnodes.
  apply wp_for with (Inv := fun _ b' st' => inv b' st'); [done| |].
  - intros seen x rest b1 st1 Hsplit Hb1.
    eapply wp_conseq.
    { apply build_node_inv; [done|]. apply Hnodes. rewrite Hsplit.
      apply elem_of_app. right. by left. }
    by intros st2 r (b2 & -> & Hb2).
  - intros b1 st1 Hb1. by exists b1.
Qed.

Lemma build_finish_inv (b : Build.t) (nd : PathEnd.t) (st : State) :
  inv b st ->
  wp (build_finish b nd) st (fun st' r =>
    match r with
    | Ok b' =>
        Build.outLinkIDList b' = Build.outLinkIDList b /\
        forall i, is_Some (GraphLib.linkMap (Build.vistaSubset b') !! i)
                  <-> i ∈ Build.outLinkIDList b
    | Raise e =>
        e = UnboundLocalError /\ vistaNode st0 = None /\ vistaNode st' = None /\
        Build.outLinkIDList b = [link_id_of first] /\
        GraphNode.id (GraphLink.destNode (PointOnLink.link (PathEnd.pointOnLink nd)))
        = GraphNode.id (GraphLink.origNode (PointOnLink.link (PathEnd.pointOnLink first)))
    end).
Proof.
  intros Hb. destruct (build_inv_last b st Hb) as [lastID Hlast].
  pose proof Hb as ((rest & Hout & _ & Hnone & Hsome)
                    & (init & lastID' & Hsplit & Hinit & Hkeys)).
  pose proof Hlast as Hlast'. rewrite Hsplit, getitem_app_last in Hlast'.
  injection Hlast' as ->.
  assert (forall (l : GraphLink.t) i,
            GraphLink.id l = lastID ->
            is_Some (<[lastID := l]> (GraphLib.linkMap (Build.vistaSubset b)) !! i)
            <-> i ∈ Build.outLinkIDList b) as Hadd.
  { intros l i _. destruct (decide (i = lastID)) as [->|Hne].
    - rewrite lookup_insert_eq. split; [|done]. intros _. rewrite Hsplit.
      apply elem_of_app. right. by left.
    - rewrite lookup_insert_ne by done. split; [apply Hkeys|].
      rewrite Hsplit. intros [?|?%list_elem_of_singleton]%elem_of_app; [|done].
      by apply Hinit. }
  assert (is_Some (GraphLib.linkMap (Build.vistaSubset b) !! lastID) ->
          forall i, is_Some (GraphLib.linkMap (Build.vistaSubset b) !! i)
                    <-> i ∈ Build.outLinkIDList b) as Hthere.
  { intros Hl i. split; [apply Hkeys|].
    rewrite Hsplit. intros [?|Hi%list_elem_of_singleton]%elem_of_app;
      [by apply Hinit|by subst]. }
  unfold build_finish.
  destruct (GraphLib.nodeMap (Build.vistaSubset b) !! _) as [n|] eqn:Hdest.
  - apply wp_bind, wp_unit, wp_bind, wp_lift. rewrite Hlast. cbv beta.
    destruct (GraphLib.linkMap (Build.vistaSubset b) !! lastID) as [l|] eqn:Hl.
    { apply wp_unit. split; [done|]. apply Hthere. first [done | by rewrite Hl]. }
    apply wp_bind, wp_get_vistaNode.
    destruct (vistaNode st) as [vn|] eqn:Hvn.
    { apply wp_unit. split; [done|]. intros i. by apply Hadd. }
    destruct rest as [|x rest]; [|by destruct Hsome].
    destruct Hnone as [Hst0 Hnodes]; [done|].
    split; [done|]. split; [by rewrite <- Hst0|]. split; [done|].
    split; [done|]. apply Hnodes. by rewrite Hdest.
  - apply wp_bind, wp_bind, wp_set_vistaNode, wp_unit, wp_bind, wp_lift.
    rewrite Hlast. cbv beta. cbn [GraphLib.linkMap GraphLib.addNode].
    destruct (GraphLib.linkMap (Build.vistaSubset b) !! lastID) as [l|] eqn:Hl.
    { apply wp_unit. split; [done|]. apply Hthere. first [done | by rewrite Hl]. }
    apply wp_bind, wp_get_vistaNode. cbn [vistaNode].
    apply wp_unit. split; [done|]. intros i. by apply Hadd.
Qed.
End SubgraphLinks.

Lemma getitem_last_inv {A} (l : list A) (x : A) :
  getitem l (-1) = Ok x -> last l = Some x.
Proof.
  intros Hget. destruct l as [|a l]; [done|].
  destruct (getitem_last (a :: l)) as (y & Hy & Hget');
    [unfold len; simpl; lia|].
  rewrite Hget in Hget'. injection Hget' as <-.
  rewrite last_lookup. rewrite <- Hy. f_equal. unfold len. simpl. lia.
Qed.

(** What the reconstruction of lines 223-273 gives, and how it can fail. *)
Lemma build_subgraph_links (vistaNetwork : GraphLib.t)
    (ourGTFSNodes : list PathEnd.t) (st : State) :
  wp (build_subgraph vistaNetwork ourGTFSNodes) st (fun st' r =>
    match r with
    | Ok b =>
        (forall i, is_Some (GraphLib.linkMap (Build.vistaSubset b) !! i)
                   <-> i ∈ Build.outLinkIDList b) /\
        exists first rest,
          ourGTFSNodes !! 0%nat = Some first /\
          Build.outLinkIDList b = link_id_of first :: rest /\
          Forall (fun i =>
                    is_Some (GraphLib.linkMap vistaNetwork !! i) /\
                    exists nd link, nd ∈ ourGTFSNodes /\
                      link ∈ PathEnd.routeInfo nd /\ GraphLink.id link = i) rest
    | Raise e =>
        (ourGTFSNodes = [] /\ e = IndexError) \/
        (e = UnboundLocalError /\ vistaNode st = None /\ vistaNode st' = None /\
         exists first lastNode,
           ourGTFSNodes !! 0%nat = Some first /\
           last ourGTFSNodes = Some lastNode /\
           GraphNode.id (GraphLink.destNode
                           (PointOnLink.link (PathEnd.pointOnLink lastNode)))
           = GraphNode.id (GraphLink.origNode
                             (PointOnLink.link (PathEnd.pointOnLink first))))
    end).
Proof.
  unfold build_subgraph. apply wp_bind, wp_lift.
  destruct ourGTFSNodes as [|first nodes] eqn:Hnodes; [by left|].
  rewrite <- Hnodes.
  assert (getitem ourGTFSNodes 0 = Ok first) as -> by (by rewrite Hnodes).
  assert (ourGTFSNodes !! 0%nat = Some first) as Hfirst by (by rewrite Hnodes).
  apply wp_bind. eapply wp_conseq.
  { apply (build_nodes_inv vistaNetwork first ourGTFSNodes st); [|done].
    split.
    - exists []. split; [done|]. split; [constructor|]. split; [|done].
      intros _. split; [done|]. intros i. cbn.
      destruct (decide (i = GraphNode.id (GraphLink.origNode
                  (PointOnLink.link (PathEnd.pointOnLink first))))) as [->|Hne];
        [done|].
      rewrite lookup_insert_ne by done. rewrite lookup_empty. by intros [].
    - exists [], (link_id_of first). split; [done|]. split.
      + intros i Hi. by apply elem_of_nil in Hi.
      + intros i. cbn. rewrite lookup_empty. by intros []. }
  intros st1 r (b & -> & Hb).
  apply wp_bind, wp_lift.
  destruct (getitem ourGTFSNodes (-1)) as [lastNode|] eqn:Hlast.
  2:{ destruct (getitem_last ourGTFSNodes) as (y & _ & Hy);
        [rewrite Hnodes; unfold len; simpl; lia|]. by rewrite Hy in Hlast. }
  apply getitem_last_inv in Hlast.
  eapply wp_conseq; [by apply (build_finish_inv vistaNetwork first ourGTFSNodes st)|].
  intros st2 [b'|e].
  - intros [Hout Hkeys]. rewrite Hout. split; [done|].
    destruct Hb as ((rest & Hrest & Hall & _) & _).
    by exists first, rest.
  - intros (-> & Hst & Hst2 & _ & Hdest). right.
    split; [done|]. split; [done|]. split; [done|]. by exists first, lastNode.
Qed.

(** X6. When the reconstruction of the small graph succeeds, the links of
    the graph are exactly the links of the output list: every identifier
    of [outLinkIDList] is a link of [vistaSubset] and [vistaSubset] has no
    other link.  The output list begins with the link of the first
    position of the run; every later element is the identifier of a link
    of the network that stands in the route information of a position of
    the run. *)
Theorem subgraph_links_are_output_links
    (vistaNetwork : GraphLib.t) (ourGTFSNodes : list PathEnd.t)
    (st st' : State) (b : Build.t) :
  build_subgraph vistaNetwork ourGTFSNodes st = (st', Ok b) ->
  (forall i, is_Some (GraphLib.linkMap (Build.vistaSubset b) !! i)
             <-> i ∈ Build.outLinkIDList b) /\
  exists first rest,
    ourGTFSNodes !! 0%nat = Some first /\
    Build.outLinkIDList b = link_id_of first :: rest /\
    Forall (fun i =>
              is_Some (GraphLib.linkMap vistaNetwork !! i) /\
              exists nd link, nd ∈ ourGTFSNodes /\
                link ∈ PathEnd.routeInfo nd /\ GraphLink.id link = i) rest.
Proof.
  intros Hrun.
  exact (wp_run _ _ _ _ _ (build_subgraph_links vistaNetwork ourGTFSNodes st) Hrun).
Qed.

Lemma subgraph_links_are_output_links_witness :
  exists st' b,
    build_subgraph Demo.vistaNetwork Demo.treeNodes2 initial_state = (st', Ok b) /\
    (forall i, is_Some (GraphLib.linkMap (Build.vistaSubset b) !! i)
               <-> i ∈ Build.outLinkIDList b) /\
    exists first rest,
      Demo.treeNodes2 !! 0%nat = Some first /\
      Build.outLinkIDList b = link_id_of first :: rest /\
      Forall (fun i =>
                is_Some (GraphLib.linkMap Demo.vistaNetwork !! i) /\
                exists nd link, nd ∈ Demo.treeNodes2 /\
                  link ∈ PathEnd.routeInfo nd /\ GraphLink.id link = i) rest.
Proof.
  eexists _, _. split; [vm_compute; reflexivity|].
  eapply (subgraph_links_are_output_links Demo.vistaNetwork Demo.treeNodes2
            initial_state).
  vm_compute. reflexivity.
Defined.

(** X7. On a run that is not empty the reconstruction of the small graph
    can fail in one way only: with [UnboundLocalError] at line 273, when
    [vistaNode] was never bound (no earlier trip and no link of this run
    bound it) and the last position of the run lies on a link that ends
    at the node where the link of the first position begins.  Once
    [vistaNode] is bound, the reconstruction of a run that is not empty
    does not fail. *)
Theorem subgraph_fails_only_unbound
    (vistaNetwork : GraphLib.t) (ourGTFSNodes : list PathEnd.t)
    (st st' : State) (e : exn) :
  ourGTFSNodes <> [] ->
  build_subgraph vistaNetwork ourGTFSNodes st = (st', Raise e) ->
  e = UnboundLocalError /\ vistaNode st = None /\ vistaNode st' = None /\
  exists first lastNode,
    ourGTFSNodes !! 0%nat = Some first /\
    last ourGTFSNodes = Some lastNode /\
    GraphNode.id (GraphLink.destNode
                    (PointOnLink.link (PathEnd.pointOnLink lastNode)))
    = GraphNode.id (GraphLink.origNode
                      (PointOnLink.link (PathEnd.pointOnLink first))).
Proof.
  intros Hne Hrun.
  by destruct (wp_run _ _ _ _ _
                 (build_subgraph_links vistaNetwork ourGTFSNodes st) Hrun)
    as [[? _]|?].
Qed.

Lemma subgraph_fails_only_unbound_witness :
  exists st',
    DemoX.turnaround <> [] /\
    build_subgraph Demo.vistaNetwork DemoX.turnaround initial_state
      = (st', Raise UnboundLocalError) /\
    UnboundLocalError = UnboundLocalError /\
    vistaNode initial_state = None /\ vistaNode st' = None /\
    exists first lastNode,
      DemoX.turnaround !! 0%nat = Some first /\
      last DemoX.turnaround = Some lastNode /\
      GraphNode.id (GraphLink.destNode
                      (PointOnLink.link (PathEnd.pointOnLink lastNode)))
      = GraphNode.id (GraphLink.origNode
                        (PointOnLink.link (PathEnd.pointOnLink first))).
Proof.
  eexists. split; [done|]. split; [vm_compute; reflexivity|].
  apply (subgraph_fails_only_unbound Demo.vistaNetwork DemoX.turnaround
           initial_state); [done|].
  vm_compute. reflexivity.
Defined.

(** ** The stop times by sequence number (lines 286-289) *)

Lemma stops_lookup_snoc (stopTimes : list StopTimesEntry.t) (st : StopTimesEntry.t) :
  stops_lookup (stopTimes ++ [st])
  = <[StopTimesEntry.stopSeq st := st]> (stops_lookup stopTimes).
Proof. unfold stops_lookup. by rewrite foldl_app. Qed.

(** X8. [gtfsStopsLookup] files under a sequence number the last stop time
    of the trip that carries that number: a later stop time replaces an
    earlier one of the same number, and a number that no stop time
    carries has no entry. *)
Theorem stops_lookup_keeps_last
    (stopTimes : list StopTimesEntry.t) (stopSeq : Z) (st : StopTimesEntry.t) :
  stops_lookup stopTimes !! stopSeq = Some st <->
  exists before after,
    stopTimes = before ++ st :: after /\
    StopTimesEntry.stopSeq st = stopSeq /\
    forall s, s ∈ after -> StopTimesEntry.stopSeq s <> stopSeq.
Proof.
  induction stopTimes as [|x l IH] using rev_ind.
  - split; [done|]. intros (before & after & Hsplit & _). by destruct before.
  - rewrite stops_lookup_snoc.
    destruct (decide (StopTimesEntry.stopSeq x = stopSeq)) as [Heq|Hne].
    + rewrite <- Heq, lookup_insert_eq. split.
      * intros [= <-]. exists l, []. split; [done|]. split; [done|].
        by intros s ?%elem_of_nil.
      * intros (before & after & Hsplit & Hseq & Hafter).
        destruct after as [|y after _] using rev_ind.
        { apply app_inj_tail in Hsplit as [_ ->]. done. }
        rewrite app_comm_cons, app_assoc in Hsplit.
        apply app_inj_tail in Hsplit as [_ <-].
        destruct (Hafter x); [|done]. apply elem_of_app. right. by left.
    + rewrite lookup_insert_ne by done. rewrite IH. split.
      * intros (before & after & -> & Hseq & Hafter).
        exists before, (after ++ [x]). rewrite <- app_assoc. split; [done|].
        split; [done|]. intros s [?|Hs%list_elem_of_singleton]%elem_of_app;
          [by apply Hafter|by subst].
      * intros (before & after & Hsplit & Hseq & Hafter).
        destruct after as [|y after _] using rev_ind.
        { apply app_inj_tail in Hsplit as [_ ->]. done. }
        rewrite app_comm_cons, app_assoc in Hsplit.
        apply app_inj_tail in Hsplit as [-> <-].
        exists before, after. split; [done|]. split; [done|].
        intros s Hs. apply Hafter. apply elem_of_app. by left.
Qed.

(** ** The walk: what it reads and what it writes *)

Lemma take_while_elem {A} (P : A -> bool) (l : list A) (x : A) :
  x ∈ take_while P l -> x ∈ l.
Proof.
  induction l as [|y l IH]; simpl; [done|].
  destruct (P y); [|by intros ?%elem_of_nil].
  intros [->|?]%elem_of_cons; [by left|right; by apply IH].
Qed.

Lemma take_while_length {A} (P : A -> bool) (l : list A) :
  (length (take_while P l) <= length l)%nat.
Proof.
  induction l as [|y l IH]; simpl; [done|]. destruct (P y); simpl; lia.
Qed.

Lemma elem_of_drop {A} (l : list A) (n : nat) (x : A) : x ∈ drop n l -> x ∈ l.
Proof.
  intros Hx. rewrite <- (take_drop n l). apply elem_of_app. by right.
Qed.

Lemma elem_of_seqs_of (block : list PathEnd.t) (q : Z) :
  q ∈ seqs_of block <-> exists e, e ∈ block /\ shapeSeq_of e = q.
Proof.
  unfold seqs_of. rewrite elem_of_list_to_set, list_elem_of_fmap.
  split; intros (e & ? & ?); by exists e.
Qed.

Lemma foldl_nearer_elem (b : PathEnd.t) (l : list PathEnd.t) :
  foldl nearer b l ∈ b :: l.
Proof.
  destruct (foldl_nearer_first b l) as (pre & post & -> & _).
  apply elem_of_app. right. by left.
Qed.

(** What the walk needs to know of the scan of one link. *)
Lemma scan_link_facts (resultTree : list PathEnd.t) (linkID r : Z) (found : gset Z) :
  0 <= r <= len resultTree ->
  exists s, scan_link resultTree linkID r found = Ok s /\
    r <= Scan.resultIndex s <= len resultTree /\
    (forall q, q ∈ Scan.foundStopSet s ->
       q ∈ found \/
       exists e, e ∈ resultTree /\ shapeSeq_of e = q /\ link_id_of e = linkID) /\
    (forall q, q ∈ found -> q ∈ Scan.foundStopSet s) /\
    match Scan.bestTreeEntry s with
    | Some best => 0 < Scan.matchCtr s /\ best ∈ resultTree
    | None => Scan.matchCtr s = 0
    end.
Proof.
  intros Hr. unfold scan_link.
  destruct (scan_loop_skip resultTree linkID (length resultTree)
              (Z.to_nat r) r found)
    as (s & Hs & Hm & Hfound & Hri & _ & Hbest); [lia|lia|].
  rewrite Z2Nat.id in Hs by lia. exists s. split; [done|].
  cbv zeta in Hm, Hfound, Hri, Hbest.
  set (rest := drop (Z.to_nat r) resultTree) in *.
  set (skipped := take_while (off_link linkID) rest) in *.
  set (block := take_while (on_link linkID) (drop (length skipped) rest)) in *.
  assert (forall e, e ∈ block -> e ∈ resultTree) as Hblock.
  { intros e He. apply take_while_elem, elem_of_drop in He.
    by apply elem_of_drop in He. }
  assert (forall e, e ∈ block -> link_id_of e = linkID) as Hon.
  { intros e He. subst block. revert He.
    generalize (drop (length skipped) rest). intros l.
    induction l as [|y l IH]; simpl; [by intros ?%elem_of_nil|].
    destruct (on_link linkID y) eqn:Hy; [|by intros ?%elem_of_nil].
    intros [->|?]%elem_of_cons; [|by apply IH].
    by apply Z.eqb_eq. }
  assert (Z.of_nat (Z.to_nat r) + len skipped + len block <= len resultTree) as Hlen.
  { pose proof (take_while_length (off_link linkID) rest).
    pose proof (take_while_length (on_link linkID) (drop (length skipped) rest)).
    fold skipped in H. fold block in H0.
    rewrite length_drop in H0. unfold rest in H, H0. rewrite length_drop in H, H0.
    unfold len in *. lia. }
  split.
  { rewrite Hri. destruct block; [lia|]. unfold len in *. lia. }
  split.
  { intros q. rewrite Hfound, elem_of_union, elem_of_seqs_of.
    intros [(e & He & Hq)|?]; [right|by left]. exists e. by auto. }
  split.
  { intros q Hq. rewrite Hfound, elem_of_union. by right. }
  rewrite Hm. destruct block as [|c0 others] eqn:Hb.
  - by rewrite Hbest.
  - destruct Hbest as (c & Hc & ->). split; [unfold len; simpl; lia|].
    pose proof (foldl_nearer_elem c others) as [->|Hin]%elem_of_cons.
    + by eapply list_elem_of_lookup_2.
    + apply Hblock. by right.
Qed.

Lemma walk_writes_refl resultTree gtfsStopsLookup (st : State) :
  walk_writes resultTree gtfsStopsLookup st st.
Proof.
  exists []. rewrite app_nil_r. split; [done|]. split.
  - by intros row stopID ?%elem_of_nil.
  - split; [by left|done].
Qed.

Lemma walk_writes_trans resultTree gtfsStopsLookup (st1 st2 st3 : State) :
  walk_writes resultTree gtfsStopsLookup st1 st2 ->
  walk_writes resultTree gtfsStopsLookup st2 st3 ->
  walk_writes resultTree gtfsStopsLookup st1 st3.
Proof.
  intros (rows1 & Hout1 & Hrows1 & Hret1 & Hkeep1)
         (rows2 & Hout2 & Hrows2 & Hret2 & Hkeep2).
  exists (rows1 ++ rows2). split; [by rewrite Hout2, Hout1, app_assoc|].
  split; [|split].
  - intros row stopID [Hin|Hin]%elem_of_app Hstop.
    + destruct (Hrows1 row stopID Hin Hstop) as [Hsome Hp].
      split; [by apply Hkeep2|done].
    + by apply (Hrows2 row stopID).
  - intros stopID p Hp. destruct (Hret2 stopID p Hp) as [Hp2|(Hs & row & Hrow & Hstop)].
    + destruct (Hret1 stopID p Hp2) as [?|(Hs & row & Hrow & Hstop)]; [by left|].
      right. split; [done|]. exists row. split; [|done]. apply elem_of_app. by left.
    + right. split; [done|]. exists row. split; [|done]. apply elem_of_app. by right.
  - intros stopID Hs. by apply Hkeep2, Hkeep1.
Qed.

(** A change of the messages, of the problem report nodes or of
    [vistaNode] is no change to what the walk writes. *)
Lemma walk_writes_same resultTree gtfsStopsLookup (st st' : State) :
  ret st' = ret st -> outFile st' = outFile st ->
  walk_writes resultTree gtfsStopsLookup st st'.
Proof.
  intros Hret Hout. exists []. rewrite app_nil_r. split; [done|]. split.
  - by intros row stopID ?%elem_of_nil.
  - rewrite Hret. split; [by left|done].
Qed.

Section LinkWalkWrites.
Variable tripID : Z.
Variable resultTree : list PathEnd.t.
Variable gtfsStopsLookup : gmap Z StopTimesEntry.t.

Local Abbreviation writes := (walk_writes resultTree gtfsStopsLookup).

(** Lines 362-371 for a best entry that is a result entry. *)
Lemma assign_stop_writes (seq linkID : Z) (best : PathEnd.t)
    (stopTime : StopTimesEntry.t) (st : State) :
  best ∈ resultTree ->
  gtfsStopsLookup !! shapeSeq_of best = Some stopTime ->
  wp (bind_M (emit (RowStop tripID seq linkID (stopID_of stopTime)
                      DWELLTIME_DEFAULT))
        (fun _ => assign_stop (stopID_of stopTime) best)) st
    (fun st' r => r = Ok tt /\ writes st st').
Proof.
  intros Hbest Hlookup.
  assert (from_search resultTree gtfsStopsLookup (stopID_of stopTime)
            (PathEnd.pointOnLink best)) as Hfrom
    by (by exists best, stopTime).
  apply wp_bind, wp_emit. unfold assign_stop. apply wp_bind, wp_get_ret.
  cbn [ret].
  assert (forall sl n,
            writes st
              (mkState (<[stopID_of stopTime := PathEnd.pointOnLink best]> (ret st))
                 (problemReportNodes st)
                 (outFile st ++ [RowStop tripID seq linkID (stopID_of stopTime)
                                   DWELLTIME_DEFAULT]) sl n)) as Hset.
  { intros sl n. eexists. split; [reflexivity|]. cbn [ret]. split; [|split].
    - intros row stopID ->%list_elem_of_singleton [= <-].
      rewrite lookup_insert_eq. split; [done|]. by eexists.
    - intros stopID p. destruct (decide (stopID = stopID_of stopTime)) as [->|Hne].
      + rewrite lookup_insert_eq. intros [= <-]. right. split; [done|].
        eexists. split; [by apply list_elem_of_singleton|done].
      + rewrite lookup_insert_ne by done. by left.
    - intros stopID Hs. destruct (decide (stopID = stopID_of stopTime)) as [->|Hne].
      + by rewrite lookup_insert_eq.
      + by rewrite lookup_insert_ne. }
  destruct (ret st !! stopID_of stopTime) as [p|] eqn:Hp.
  - destruct (negb _).
    + apply wp_log. split; [done|]. eexists. split; [reflexivity|].
      cbn [ret]. split; [|split; [by left|done]].
      intros row stopID ->%list_elem_of_singleton [= <-].
      rewrite Hp. split; [done|]. by eexists.
    + apply wp_set_ret. split; [done|]. apply Hset.
  - apply wp_set_ret. split; [done|]. apply Hset.
Qed.

Lemma walk_link_writes (w : Walk.t) (linkID : Z) (st : State) :
  0 <= Walk.resultIndex w <= len resultTree ->
  wp (walk_link tripID resultTree gtfsStopsLookup w linkID) st (fun st' r =>
    writes st st' /\
    match r with
    | Ok w' =>
        Walk.resultIndex w <= Walk.resultIndex w' <= len resultTree /\
        Walk.outSeqCtr w' = Walk.outSeqCtr w + 1 /\
        (forall q, q ∈ Walk.foundStopSet w -> q ∈ Walk.foundStopSet w') /\
        (forall q, q ∈ Walk.foundStopSet w' ->
           q ∈ Walk.foundStopSet w \/
           exists e, e ∈ resultTree /\ shapeSeq_of e = q /\ link_id_of e = linkID)
    | Raise e =>
        e = KeyError /\
        exists e', e' ∈ resultTree /\ gtfsStopsLookup !! shapeSeq_of e' = None
    end).
Proof.
  intros Hw. unfold walk_link.
  destruct (scan_link_facts resultTree linkID (Walk.resultIndex w)
              (Walk.foundStopSet w) Hw)
    as (s & Hs & Hri & Hnew & Hold & Hbest).
  apply wp_bind, wp_lift. rewrite Hs.
  destruct (Scan.bestTreeEntry s) as [best|] eqn:Hb.
  2:{ rewrite Hbest. cbn [Z.ltb Z.compare].
      apply wp_bind, wp_unit, wp_bind, wp_emit, wp_unit.
      split; [|done]. eexists. split; [reflexivity|]. cbn [ret].
      split; [|split; [by left|done]].
      by intros row stopID ->%list_elem_of_singleton. }
  destruct Hbest as [Hm Hin].
  destruct (Z.ltb_spec 0 (Scan.matchCtr s)); [|lia].
  unfold best_stop.
  destruct (gtfsStopsLookup !! shapeSeq_of best) as [stopTime|] eqn:Hlookup.
  2:{ apply wp_bind. destruct (1 <? Scan.matchCtr s).
      - apply wp_bind, wp_lift. split; [apply walk_writes_refl|].
        split; [done|]. by exists best.
      - apply wp_unit, wp_bind, wp_bind, wp_lift.
        split; [apply walk_writes_refl|]. split; [done|]. by exists best. }
  apply wp_bind.
  apply wp_conseq with (Q := fun st1 r1 =>
    r1 = Ok tt /\ ret st1 = ret st /\ outFile st1 = outFile st).
  { destruct (1 <? Scan.matchCtr s); [|by apply wp_unit].
    by apply wp_bind, wp_lift, wp_log. }
  intros st1 r1 (-> & Hret1 & Hout1).
  apply wp_bind, wp_bind, wp_lift. cbn [fst snd].
  eapply wp_conseq; [by apply assign_stop_writes|].
  intros st2 r2 [-> Hwrites]. apply wp_unit. split.
  - eapply walk_writes_trans; [|exact Hwrites]. by apply walk_writes_same.
  - done.
Qed.

Lemma walk_links_writes (outLinkIDList : list Z) (start : Z) (st : State) :
  wp (walk_links tripID resultTree gtfsStopsLookup outLinkIDList start) st
    (fun st' r =>
       writes st st' /\
       match r with
       | Ok w =>
           0 <= Walk.resultIndex w <= len resultTree /\
           Walk.outSeqCtr w = start + len outLinkIDList /\
           (forall q, q ∈ Walk.foundStopSet w ->
              exists e linkID, e ∈ resultTree /\ shapeSeq_of e = q /\
                link_id_of e = linkID /\ linkID ∈ outLinkIDList)
       | Raise e =>
           e = KeyError /\
           exists e', e' ∈ resultTree /\ gtfsStopsLookup !! shapeSeq_of e' = None
       end).
Proof.
  unfold walk_links.
  apply wp_for with (Inv := fun seen w st' =>
    writes st st' /\
    0 <= Walk.resultIndex w <= len resultTree /\
    Walk.outSeqCtr w = start + len seen /\
    (forall q, q ∈ Walk.foundStopSet w ->
       exists e linkID, e ∈ resultTree /\ shapeSeq_of e = q /\
         link_id_of e = linkID /\ linkID ∈ seen)).
  - split; [apply walk_writes_refl|]. cbn. split; [unfold len; lia|].
    split; [unfold len; simpl; lia|]. by intros q ?%elem_of_empty.
  - intros seen linkID rest w st1 Hsplit (Hwrites & Hri & Hctr & Hfound).
    eapply wp_conseq; [by apply walk_link_writes|].
    intros st2 [w'|e] [Hwrites2 Hres].
    + destruct Hres as (Hri' & Hctr' & Hold & Hnew).
      split; [by eapply walk_writes_trans|]. split; [lia|]. split.
      { rewrite Hctr', Hctr. unfold len. rewrite length_app. simpl. lia. }
      intros q Hq. destruct (Hnew q Hq) as [Hq'|(e & He & Hseq & Hlink)].
      * destruct (Hfound q Hq') as (e & l & He & Hseq & Hlink & Hl).
        exists e, l. do 3 (split; [done|]). apply elem_of_app. by left.
      * exists e, linkID. do 3 (split; [done|]). apply elem_of_app. right. by left.
    + split; [by eapply walk_writes_trans|done].
  - intros w st1 (Hwrites & Hri & Hctr & Hfound). done.
Qed.
End LinkWalkWrites.

(** ** The phases of a trip *)

Lemma del_ends {A} (found stripped resultTree : list A) :
  del_last found = Ok stripped -> del_first stripped = Ok resultTree ->
  exists a z, found = a :: resultTree ++ [z].
Proof.
  intros H1 H2. destruct found as [|a found]; [done|].
  destruct found as [|b found _] using rev_ind.
  { injection H1 as <-. done. }
  change (a :: found ++ [b]) with ((a :: found) ++ [b]) in H1.
  unfold del_last in H1. rewrite removelast_last in H1.
  destruct (_ ++ [b]) eqn:Hnil in H1; [by destruct found|].
  injection H1 as <-. injection H2 as <-. by exists a, b.
Qed.

Lemma log_frame_step (st : State) (e : LogEvent) :
  is_unmatched e = false ->
  log_frame st (mkState (ret st) (problemReportNodes st) (outFile st)
                  (stderr st ++ [e]) (vistaNode st)).
Proof. apply log_frame_log. Qed.

Section TripPhasesProofs.
Variable problemReport : bool.
Variable gtfsTrips : gmap Z TripsEntry.t.
Variable gtfsNodes : gmap Z (list PathEnd.t).
Variable gtfsStopTimes : gmap Z (list StopTimesEntry.t).
Variable vistaNetwork : GraphLib.t.
Variable constructPath : list ShapesEntry.t -> GraphLib.t -> Result (list PathEnd.t).

Local Abbreviation phases :=
  (trip_phases problemReport gtfsTrips gtfsNodes gtfsStopTimes vistaNetwork
     constructPath).

Local Abbreviation error := (trip_error constructPath).

Lemma trip_phases_early (tripID : Z) (st st' : State) (e : exn) :
  log_frame st st' -> error e -> phases tripID st st' (Raise e).
Proof.
  intros H He. left. split; [done|]. split; [by intros t|]. by intros e' [= <-].
Qed.

Lemma error_key : error KeyError.
Proof. by left. Qed.

Lemma error_getitem {A} (l : list A) (i : Z) (e : exn) :
  getitem l i = Raise e -> error e.
Proof.
  unfold getitem. destruct (_ <? _); [by intros [= <-]; right; left|].
  destruct (_ !! _); [done|]. intros [= <-]. right. by left.
Qed.

Lemma error_revise (shapeID : Z) (resultTree : list PathEnd.t)
    (acc : gmap Z ReportNode.t) (e : exn) :
  for_R (revise_node vistaNetwork shapeID) resultTree acc = Raise e ->
  e = KeyError.
Proof.
  revert acc. induction resultTree as [|x l IH]; intros acc; simpl; [done|].
  unfold revise_node at 1, getkey at 1.
  destruct (GraphLib.linkMap vistaNetwork !! link_id_of x) as [origLink|];
    [simpl|by intros [= <-]].
  assert (forall links acc',
            for_R (fun acc link =>
                     rbind (getkey (GraphLib.linkMap vistaNetwork)
                              (GraphLink.id link))
                       (fun l => Ok (acc ++ [l]))) links acc' = Raise e ->
            e = KeyError) as Hinfo.
  { induction links as [|y links IHl]; intros acc'; simpl; [done|].
    unfold getkey at 1.
    destruct (GraphLib.linkMap vistaNetwork !! GraphLink.id y);
      [simpl; apply IHl|by intros [= <-]]. }
  destruct (for_R _ (PathEnd.routeInfo x) []) as [routeInfo|e'] eqn:Hri; simpl.
  - apply IH.
  - intros [= <-]. by eapply Hinfo.
Qed.

Lemma process_trip_phases (tripID : Z) (st : State) :
  wp (process_trip problemReport gtfsTrips gtfsNodes gtfsStopTimes vistaNetwork
        constructPath tripID) st (phases tripID st).
Proof.
  unfold process_trip.
  apply wp_bind, wp_lift. unfold getkey at 1.
  destruct (gtfsTrips !! tripID) as [trip|] eqn:Htrip;
    [|by apply trip_phases_early; [apply log_frame_refl|apply error_key]].
  apply wp_bind, wp_lift.
  destruct (getitem (TripsEntry.shapeEntries trip) 0) as [shape0|] eqn:Hshape;
    [|by apply trip_phases_early;
         [apply log_frame_refl|eapply error_getitem]].
  apply getitem_inv in Hshape; [|done]. change (Z.to_nat 0) with 0%nat in Hshape.
  destruct (gtfsNodes !! ShapesEntry.shapeID shape0) as [treeNodes|] eqn:Hnodes.
  2:{ apply wp_unit. left. split; [apply log_frame_refl|done]. }
  apply wp_bind, wp_log, wp_bind, wp_lift.
  destruct (segment_scan_inv treeNodes) as (seg & Hseg & _). rewrite Hseg.
  destruct (Z.leb_spec 0 (Seg.longestStart seg)) as [Hstart|_].
  2:{ apply wp_bind, wp_log, wp_unit. left. split; [|done].
      eapply log_frame_trans; [by apply (log_frame_step _ (InfoRoute tripID))|].
      by apply log_frame_step. }
  match goal with
  | |- wp _ ?s _ =>
      assert (log_frame st s) as Hq1 by (by apply log_frame_step);
      generalize dependent s; intros st1 Hq1
  end.
  (* lines 208-212 *)
  apply wp_bind.
  apply wp_conseq with (Q := fun st2 r2 =>
    match r2 with
    | Ok _ => log_frame st st2
    | Raise e => log_frame st st2 /\ error e
    end).
  { destruct (_ || _); [|by apply wp_unit].
    apply wp_bind, wp_lift.
    destruct (getitem treeNodes (Seg.longestStart seg)) as [a|] eqn:Ha;
      [|split; [done|by eapply error_getitem]].
    apply wp_bind, wp_lift.
    destruct (getitem treeNodes (Seg.longestEnd seg - 1)) as [b|] eqn:Hb;
      [|split; [done|by eapply error_getitem]].
    apply wp_log. eapply log_frame_trans; [exact Hq1|].
    by apply log_frame_step. }
  clear st1 Hq1. intros st2 [[]|e] Hq2;
    [|by destruct Hq2; apply trip_phases_early].
  (* line 215 *)
  apply wp_bind, wp_lift. unfold getkey at 1.
  destruct (gtfsStopTimes !! TripsEntry.tripID trip) as [stopTimes|] eqn:Hst;
    [|by apply trip_phases_early; [|apply error_key]].
  (* lines 219-273 *)
  apply wp_bind_run. intros st3 r3 Hbuild.
  assert (log_frame st st3) as Hq3.
  { eapply log_frame_trans; [exact Hq2|].
    exact (wp_run _ _ _ _ _ (build_subgraph_frame vistaNetwork _ st2) Hbuild). }
  destruct r3 as [b|e].
  2:{ apply trip_phases_early; [done|].
      destruct (wp_run _ _ _ _ _ (build_subgraph_links vistaNetwork _ st2) Hbuild)
        as [[_ ->]|[-> _]]; [right; by left|right; right; by left]. }
  (* lines 276-301 *)
  apply wp_bind, wp_log.
  match goal with
  | |- wp _ ?s _ =>
      assert (log_frame st s) as Hq4
        by (eapply log_frame_trans; [exact Hq3|]; by apply log_frame_step);
      generalize dependent s; intros st4 Hq4
  end.
  apply wp_bind, wp_lift.
  destruct (getitem (slice treeNodes _ _) 0) as [first|] eqn:Hfirst;
    [|by apply trip_phases_early; [|eapply error_getitem]].
  apply wp_bind, wp_lift.
  destruct (getitem (slice treeNodes _ _) (-1)) as [last|] eqn:Hlast;
    [|by apply trip_phases_early; [|eapply error_getitem]].
  apply wp_bind, wp_lift.
  destruct (constructPath _ _) as [found|] eqn:Hfound.
  2:{ apply trip_phases_early; [done|]. right. right. right. by eexists _, _. }
  apply wp_bind, wp_lift.
  destruct (del_last found) as [stripped|] eqn:Hdel1.
  2:{ apply trip_phases_early; [done|]. destruct found; [|done].
      injection Hdel1 as <-. right. by left. }
  apply wp_bind, wp_lift.
  destruct (del_first stripped) as [resultTree|] eqn:Hdel2.
  2:{ apply trip_phases_early; [done|]. destruct stripped; [|done].
      injection Hdel2 as <-. right. by left. }
  pose proof (del_ends _ _ _ Hdel1 Hdel2) as Hends.
  (* lines 308-329 *)
  apply wp_bind.
  apply wp_conseq with (Q := fun st5 r5 =>
    match r5 with
    | Ok _ => before_walk problemReport vistaNetwork
                (ShapesEntry.shapeID shape0) resultTree st4 st5
    | Raise e => log_frame st st5 /\ e = KeyError
    end).
  { unfold before_walk. destruct problemReport; [|by apply wp_unit].
    apply wp_bind, wp_lift.
    destruct (for_R _ resultTree ∅) as [revised|] eqn:Hrev;
      [|split; [done|by eapply error_revise]].
    apply wp_bind, wp_get_problemReportNodes, wp_set_problemReportNodes.
    by exists revised. }
  intros st5 [[]|e] Hq5;
    [|by destruct Hq5 as [? ->]; apply trip_phases_early; [|apply error_key]].
  (* lines 331-375 *)
  apply wp_bind_run. intros st6 r6 Hwalk.
  assert (problemReport = true ->
          is_Some (problemReportNodes st6 !! ShapesEntry.shapeID shape0))
    as Hprn.
  { intros Hpr.
    destruct (wp_run _ _ _ _ _
                (walk_links_spec tripID resultTree (stops_lookup stopTimes)
                   (Build.outLinkIDList b) (Seg.longestStart seg) st5) Hwalk)
      as ((_ & -> & _) & _).
    unfold before_walk in Hq5. rewrite Hpr in Hq5.
    destruct Hq5 as (revised & _ & ->). cbn. by rewrite lookup_insert_eq. }
  destruct r6 as [w|e].
  2:{ right. exists trip, shape0, treeNodes, seg, stopTimes, b, first, last,
        found, resultTree, st2, st3, st4, st5, st6, (Raise e). done. }
  (* lines 377-396 *)
  apply wp_bind_run. intros st7 r7 Hreport.
  assert (r7 = Ok tt) as ->.
  { destruct (problemReportNodes st6 !! ShapesEntry.shapeID shape0)
      as [nodes0|] eqn:Hn0.
    - by destruct (wp_run _ _ _ _ _
                     (report_unmatched_spec problemReport tripID
                        (ShapesEntry.shapeID shape0) (Walk.foundStopSet w)
                        nodes0 stopTimes st6 (fun _ => Hn0)) Hreport).
    - assert (problemReport = true -> problemReportNodes st6
                !! ShapesEntry.shapeID shape0 = Some ∅) as Hn.
      { intros Hpr. destruct (Hprn Hpr) as [? ?]. congruence. }
      by destruct (wp_run _ _ _ _ _
                     (report_unmatched_spec problemReport tripID
                        (ShapesEntry.shapeID shape0) (Walk.foundStopSet w)
                        ∅ stopTimes st6 Hn) Hreport). }
  apply wp_unit. right.
  exists trip, shape0, treeNodes, seg, stopTimes, b, first, last,
    found, resultTree, st2, st3, st4, st5, st6, (Ok w). done.
Qed.
End TripPhasesProofs.

(** ** Whole trips *)

Lemma stops_lookup_elem (stopTimes : list StopTimesEntry.t) (stopSeq : Z)
    (st : StopTimesEntry.t) :
  stops_lookup stopTimes !! stopSeq = Some st ->
  st ∈ stopTimes /\ StopTimesEntry.stopSeq st = stopSeq.
Proof.
  induction stopTimes as [|x l IH] using rev_ind; [done|].
  rewrite stops_lookup_snoc.
  destruct (decide (StopTimesEntry.stopSeq x = stopSeq)) as [Heq|Hne].
  - rewrite <- Heq, lookup_insert_eq. intros [= <-].
    split; [|done]. apply elem_of_app. right. by left.
  - rewrite lookup_insert_ne by done. intros [Hin Hseq]%IH.
    split; [|done]. apply elem_of_app. by left.
Qed.

Lemma walk_writes_stops_in_rows resultTree gtfsStopsLookup (st st' : State) :
  walk_writes resultTree gtfsStopsLookup st st' ->
  stops_in_rows st -> stops_in_rows st'.
Proof.
  intros (rows & Hout & Hrows & Hret & Hkeep) Hinv stopID. rewrite Hout. split.
  - intros [p Hp]. destruct (Hret stopID p Hp) as [Hold|(_ & row & Hrow & Hstop)].
    + destruct (proj1 (Hinv stopID)) as (row & Hrow & Hstop); [by eexists|].
      exists row. split; [|done]. apply elem_of_app. by left.
    + exists row. split; [|done]. apply elem_of_app. by right.
  - intros (row & [Hrow|Hrow]%elem_of_app & Hstop).
    + apply Hkeep, Hinv. by exists row.
    + by apply (Hrows row stopID).
Qed.

Section TripWritesProofs.
Variable problemReport : bool.
Variable gtfsTrips : gmap Z TripsEntry.t.
Variable gtfsNodes : gmap Z (list PathEnd.t).
Variable gtfsStopTimes : gmap Z (list StopTimesEntry.t).
Variable vistaNetwork : GraphLib.t.
Variable constructPath : list ShapesEntry.t -> GraphLib.t -> Result (list PathEnd.t).

Local Abbreviation process_trip' :=
  (process_trip problemReport gtfsTrips gtfsNodes gtfsStopTimes vistaNetwork
     constructPath).

Lemma before_walk_same (shapeID : Z) (resultTree : list PathEnd.t)
    (st4 st5 : State) :
  before_walk problemReport vistaNetwork shapeID resultTree st4 st5 ->
  ret st5 = ret st4 /\ outFile st5 = outFile st4.
Proof.
  unfold before_walk. destruct problemReport; [|by intros ->].
  by intros (revised & _ & ->).
Qed.

Lemma process_trip_writes (tripID : Z) (st st' : State)
    (r : Result (option Trip.t)) :
  process_trip' tripID st = (st', r) ->
  trip_writes gtfsTrips gtfsStopTimes tripID st st'.
Proof.
  intros Hrun.
  destruct (wp_run _ _ _ _ _
              (process_trip_phases problemReport gtfsTrips gtfsNodes
                 gtfsStopTimes vistaNetwork constructPath tripID st) Hrun)
    as [((Hret & _ & Hout & _) & _)|Hwalked]; [by left|].
  destruct Hwalked
    as (trip & shape0 & treeNodes & seg & stopTimes & b & first & last & found
        & resultTree & st2 & st3 & st4 & st5 & st6 & rw
        & Htrip & _ & _ & _ & _ & Hst & _ & _ & _ & Hq4 & Hq5 & Hwalk & Hend).
  right. exists trip, stopTimes, resultTree. split; [done|]. split; [done|].
  destruct Hq4 as (Hret4 & _ & Hout4 & _).
  apply before_walk_same in Hq5 as [Hret5 Hout5].
  destruct (wp_run _ _ _ _ _
              (walk_links_writes tripID resultTree (stops_lookup stopTimes)
                 (Build.outLinkIDList b) (Seg.longestStart seg) st5) Hwalk)
    as [Hwrites _].
  eapply walk_writes_trans.
  { apply walk_writes_same; [by rewrite Hret5|by rewrite Hout5]. }
  eapply walk_writes_trans; [exact Hwrites|].
  destruct rw as [w|e].
  - destruct Hend as [Hreport _].
    destruct (wp_run _ _ _ _ _
                (report_unmatched_frame problemReport tripID _ _ stopTimes st6)
                Hreport) as (Hret7 & Hout7 & _).
    by apply walk_writes_same.
  - destruct Hend as [-> _]. apply walk_writes_refl.
Qed.

Lemma data_row_link (tripID : Z) (row : Row) :
  row_route row = Some tripID -> is_Some (row_link row).
Proof. by destruct row. Qed.

(** C8. A trip that ends without an exception and has a selected run
    writes exactly one row for each position of the list of links of
    its rebuilt path, in the order of that list; the row of position
    [i] carries the link at position [i] and the sequence number
    [longestStart + i], where [longestStart] is the start index of the
    run that Step 1 selects among the matched positions of the trip,
    so that the numbers are consecutive and begin at [longestStart],
    not at zero.  A trip that is passed over writes no row, and a trip
    that an exception stops has written the rows of the first
    positions, numbered in the same way. *)
Theorem route_link_rows_numbered (tripID : Z) (st st' : State)
    (r : Result (option Trip.t)) :
  process_trip' tripID st = (st', r) ->
  exists rows, outFile st' = outFile st ++ rows /\
    match r with
    | Ok (Some t) =>
        trip_plan gtfsTrips gtfsNodes vistaNetwork tripID
          (Trip.longestStart t) (Trip.outLinkIDList t) /\
        length rows = length (Trip.outLinkIDList t) /\
        forall i row, rows !! i = Some row ->
          row_route row = Some tripID /\
          row_sequence row = Some (Trip.longestStart t + Z.of_nat i) /\
          row_link row = Trip.outLinkIDList t !! i
    | Ok None => rows = []
    | Raise _ =>
        rows = [] \/
        exists longestStart outLinkIDList,
          trip_plan gtfsTrips gtfsNodes vistaNetwork tripID longestStart
            outLinkIDList /\
          (length rows <= length outLinkIDList)%nat /\
          forall i row, rows !! i = Some row ->
            row_route row = Some tripID /\
            row_sequence row = Some (longestStart + Z.of_nat i) /\
            row_link row = outLinkIDList !! i
    end.
Proof.
  intros Hrun.
  destruct (wp_run _ _ _ _ _
              (process_trip_phases problemReport gtfsTrips gtfsNodes
                 gtfsStopTimes vistaNetwork constructPath tripID st) Hrun)
    as [((_ & _ & Hout & _) & Hnot & _)|Hwalked].
  { exists []. rewrite app_nil_r. split; [done|].
    destruct r as [[t|]|e]; [by destruct (Hnot t)|done|by left]. }
  destruct Hwalked
    as (trip & shape0 & treeNodes & seg & stopTimes & b & first & last & found
        & resultTree & st2 & st3 & st4 & st5 & st6 & rw
        & Htrip & Hshape & Hnodes & Hseg & Hstart & Hst & Hbuild & _ & _
        & Hq4 & Hq5 & Hwalk & Hend).
  assert (trip_plan gtfsTrips gtfsNodes vistaNetwork tripID
            (Seg.longestStart seg) (Build.outLinkIDList b)) as Hplan.
  { by exists trip, shape0, treeNodes, seg, st2, st3, b. }
  destruct Hq4 as (_ & _ & Hout4 & _).
  apply before_walk_same in Hq5 as [_ Hout5].
  destruct (wp_run _ _ _ _ _
              (walk_links_spec tripID resultTree (stops_lookup stopTimes)
                 (Build.outLinkIDList b) (Seg.longestStart seg) st5) Hwalk)
    as (_ & rows & Hrows & Hat & Hlen).
  rewrite Hout5, Hout4 in Hrows.
  destruct rw as [w|e].
  - destruct Hend as [Hreport ->].
    destruct (wp_run _ _ _ _ _
                (report_unmatched_frame problemReport tripID _ _ stopTimes st6)
                Hreport) as (_ & Hout7 & _).
    exists rows. rewrite Hout7. split; [done|].
    cbn [Trip.longestStart Trip.outLinkIDList].
    split; [done|]. split; [by apply (Hlen w)|done].
  - destruct Hend as [-> ->]. exists rows. split; [done|]. right.
    exists (Seg.longestStart seg), (Build.outLinkIDList b).
    split; [done|]. split; [|done].
    destruct (Nat.le_gt_cases (length rows) (length (Build.outLinkIDList b)))
      as [|Hgt]; [done|].
    destruct (lookup_lt_is_Some_2 rows (length (Build.outLinkIDList b)) Hgt)
      as [row Hrow].
    destruct (Hat _ _ Hrow) as (Hroute & _ & Hlink).
    apply data_row_link in Hroute as [l Hl].
    rewrite Hl, lookup_ge_None_2 in Hlink; [done|lia].
Qed.

(** X13. Every row with a stop that a trip writes names a stop of a stop
    time of that trip, and that stop is in [ret] when the trip is done;
    a trip changes [ret] only at stops that it names in a row, filing
    for such a stop a point that the search has matched for it. *)
Theorem rows_name_scheduled_stops (tripID : Z) (st st' : State)
    (r : Result (option Trip.t)) :
  process_trip' tripID st = (st', r) ->
  exists rows, outFile st' = outFile st ++ rows /\
    (forall row stopID, row ∈ rows -> row_stop row = Some stopID ->
       is_Some (ret st' !! stopID) /\
       exists trip stopTimes stopTime,
         gtfsTrips !! tripID = Some trip /\
         gtfsStopTimes !! TripsEntry.tripID trip = Some stopTimes /\
         stopTime ∈ stopTimes /\ stopID_of stopTime = stopID) /\
    (forall stopID p, ret st' !! stopID = Some p ->
       ret st !! stopID = Some p \/
       exists row, row ∈ rows /\ row_stop row = Some stopID) /\
    (forall stopID, is_Some (ret st !! stopID) -> is_Some (ret st' !! stopID)).
Proof.
  intros Hrun.
  destruct (process_trip_writes tripID st st' r Hrun)
    as [[Hret Hout]|(trip & stopTimes & resultTree & Htrip & Hst & Hwrites)].
  - exists []. rewrite app_nil_r, Hret. split; [done|]. split.
    + by intros row stopID ?%elem_of_nil.
    + split; [by left|done].
  - destruct Hwrites as (rows & Hout & Hrows & Hret & Hkeep).
    exists rows. split; [done|]. split; [|split; [|done]].
    + intros row stopID Hrow Hstop.
      destruct (Hrows row stopID Hrow Hstop)
        as (Hsome & p & e & stopTime & _ & Hlookup & Hid & _).
      split; [done|]. exists trip, stopTimes, stopTime.
      split; [done|]. split; [done|]. split; [|done].
      by apply stops_lookup_elem in Hlookup as [? _].
    + intros stopID p Hp.
      destruct (Hret stopID p Hp) as [?|[_ ?]]; [by left|by right].
Qed.

(** X15. A trip fails only with [KeyError], [IndexError] or
    [UnboundLocalError], or with what the search raises: the fields of
    [bestTreeEntry] are never read while it is [None], and the two
    [while] loops end within the bounds of their lists. *)
Theorem trip_exceptions (tripID : Z) (st st' : State) (e : exn) :
  process_trip' tripID st = (st', Raise e) ->
  e = KeyError \/ e = IndexError \/ e = UnboundLocalError \/
  exists gtfsShapes vistaSubset, constructPath gtfsShapes vistaSubset = Raise e.
Proof.
  intros Hrun.
  destruct (wp_run _ _ _ _ _
              (process_trip_phases problemReport gtfsTrips gtfsNodes
                 gtfsStopTimes vistaNetwork constructPath tripID st) Hrun)
    as [(_ & _ & He)|Hwalked]; [by apply He|].
  destruct Hwalked
    as (trip & shape0 & treeNodes & seg & stopTimes & b & first & last & found
        & resultTree & st2 & st3 & st4 & st5 & st6 & rw
        & _ & _ & _ & _ & _ & _ & _ & _ & _ & _ & _ & Hwalk & Hend).
  destruct rw as [w|e']; [by destruct Hend as [_ ?]|].
  destruct Hend as [_ [= <-]].
  destruct (wp_run _ _ _ _ _
              (walk_links_writes tripID resultTree (stops_lookup stopTimes)
                 (Build.outLinkIDList b) (Seg.longestStart seg) st5) Hwalk)
    as [_ [-> _]].
  by left.
Qed.

(** X5. A trip whose matched positions have no run that spans more than
    [sys.float_info.min] (no position at all, a single position,
    positions that do not advance) writes the message of line 170 and
    the warning of line 398 and nothing else: no row, no stop, no
    report node, and no exception. *)
Theorem trip_without_run_warned (tripID : Z) (trip : TripsEntry.t)
    (shape0 : ShapesEntry.t) (treeNodes : list PathEnd.t) (st : State) :
  gtfsTrips !! tripID = Some trip ->
  TripsEntry.shapeEntries trip !! 0%nat = Some shape0 ->
  gtfsNodes !! ShapesEntry.shapeID shape0 = Some treeNodes ->
  (forall a b, is_run treeNodes a b ->
     (span treeNodes a b <= float_info_min)%Q) ->
  process_trip' tripID st =
    (mkState (ret st) (problemReportNodes st) (outFile st)
       (stderr st ++ [InfoRoute tripID; WarnNoLinks tripID]) (vistaNode st),
     Ok None).
Proof.
  intros Htrip Hshape Hnodes Hruns.
  destruct (segment_scan_inv treeNodes) as (seg & Hseg & _ & Hbest).
  assert (Seg.longestStart seg = -1) as Hnone.
  { destruct Hbest as [[? _]|(Hrun & _ & Hdist & Hlt & _)]; [done|].
    specialize (Hruns _ _ Hrun). apply float_round_small in Hruns.
    rewrite Hdist in Hlt. unfold float_span, float_sub in Hlt.
    unfold span in Hruns. lra. }
  unfold process_trip, bind_M, lift, getkey. rewrite Htrip.
  rewrite (getitem_nat _ 0), Hshape, Hnodes. unfold log at 1.
  rewrite Hseg, Hnone. cbn. by rewrite <- app_assoc.
Qed.
End TripWritesProofs.

(** ** The whole of [dumpBusRouteLinks] *)

Lemma omap_route_same (tripID : Z) (rows : list Row) :
  (forall row, row ∈ rows -> row_route row = Some tripID) ->
  omap row_route rows = replicate (length rows) tripID.
Proof.
  induction rows as [|row rows IH]; intros Hrows; [done|].
  csimpl. rewrite (Hrows row) by (by left). simpl. f_equal.
  apply IH. intros row' Hrow'. apply Hrows. by right.
Qed.

Lemma StronglySorted_replicate (n : nat) (x : Z) :
  StronglySorted Z.le (replicate n x).
Proof.
  induction n as [|n IH]; simpl; constructor; [done|].
  apply Forall_forall. intros y Hy%elem_of_replicate. lia.
Qed.

Section DumpProofs.
Variable problemReport : bool.
Variable gtfsTrips : gmap Z TripsEntry.t.
Variable gtfsNodes : gmap Z (list PathEnd.t).
Variable gtfsStopTimes : gmap Z (list StopTimesEntry.t).
Variable vistaNetwork : GraphLib.t.
Variable constructPath : list ShapesEntry.t -> GraphLib.t -> Result (list PathEnd.t).
Variable userName networkName : string.

Local Abbreviation process_trip' :=
  (process_trip problemReport gtfsTrips gtfsNodes gtfsStopTimes vistaNetwork
     constructPath).
Local Abbreviation run_trips' :=
  (run_trips problemReport gtfsTrips gtfsNodes gtfsStopTimes vistaNetwork
     constructPath).
Local Abbreviation dump :=
  (dumpBusRouteLinks problemReport gtfsTrips gtfsNodes gtfsStopTimes
     vistaNetwork constructPath userName networkName).

(** The state in which the loop over the trips begins. *)
Local Abbreviation st_header :=
  (mkState ∅ ∅ [MetaHeader userName networkName; ColumnNames] [] None).

(** After the loop over the trips only a message may follow. *)
Lemma dump_after_trips (Q : State -> Prop) :
  wp (run_trips' (sorted_keys gtfsTrips)) st_header (fun st' _ => Q st') ->
  (forall st e, Q st ->
     Q (mkState (ret st) (problemReportNodes st) (outFile st)
          (stderr st ++ [e]) (vistaNode st))) ->
  Q dump.1 /\ forall m, dump.2 = Ok m -> m = ret dump.1.
Proof.
  intros Hrun Hlog.
  change (wp (bind_M (emit (MetaHeader userName networkName))
                (fun _ => bind_M (emit ColumnNames)
                   (fun _ => bind_M (run_trips' (sorted_keys gtfsTrips))
                      (fun _ => bind_M
                         (if problemReport then log InfoProblemReport
                          else unit_M tt)
                         (fun _ => get_ret)))))
            initial_state
            (fun st' r => Q st' /\ forall m, r = Ok m -> m = ret st')).
  apply wp_bind, wp_emit, wp_bind, wp_emit, wp_bind.
  eapply wp_conseq; [exact Hrun|].
  intros st1 [[]|e] HQ; [|done].
  apply wp_bind. destruct problemReport.
  - apply wp_log, wp_get_ret. split; [by apply Hlog|]. by intros m [= <-].
  - apply wp_unit, wp_get_ret. split; [done|]. by intros m [= <-].
Qed.

Lemma run_trips_inv (Q : State -> Prop) (tripIDs : list Z) (st : State) :
  Q st ->
  (forall tripID st st' r, process_trip' tripID st = (st', r) -> Q st -> Q st') ->
  wp (run_trips' tripIDs) st (fun st' _ => Q st').
Proof.
  intros HQ Hstep. unfold run_trips.
  apply wp_for with (Inv := fun _ _ st' => Q st'); [done| |done].
  intros seen tripID rest [] st1 _ HQ1.
  apply wp_bind_run. intros st2 r2 Hrun.
  specialize (Hstep _ _ _ _ Hrun HQ1). destruct r2; [by apply wp_unit|done].
Qed.

Lemma dump_stops_in_rows :
  stops_in_rows dump.1 /\
  (forall stopLinkMap, dump.2 = Ok stopLinkMap -> stopLinkMap = ret dump.1).
Proof.
  apply (dump_after_trips stops_in_rows); [|done].
  apply run_trips_inv.
  - intros stopID. cbn. rewrite lookup_empty. split; [by intros []|].
    intros (row & Hrow & Hstop).
    apply elem_of_cons in Hrow as [->|Hrow]; [done|].
    apply list_elem_of_singleton in Hrow as ->. done.
  - intros tripID st st' r Hrun Hinv.
    destruct (process_trip_writes problemReport gtfsTrips gtfsNodes
                gtfsStopTimes vistaNetwork constructPath tripID st st' r Hrun)
      as [[Hret Hout]|(trip & stopTimes & resultTree & _ & _ & Hwrites)].
    + intros stopID. rewrite Hret, Hout. apply Hinv.
    + by eapply walk_writes_stops_in_rows.
Qed.

(** X16. When [dumpBusRouteLinks] ends, by its [return] or by an
    exception, the stops of the stop-to-link map are exactly the stops
    named in the rows written to the file; the map returned is that
    map. *)
Theorem stop_map_matches_rows :
  (forall stopID,
     is_Some (ret dump.1 !! stopID) <->
     exists row, row ∈ outFile dump.1 /\ row_stop row = Some stopID) /\
  (forall stopLinkMap, dump.2 = Ok stopLinkMap -> stopLinkMap = ret dump.1).
Proof. exact dump_stops_in_rows. Qed.

(** X17. The file of [dumpBusRouteLinks] begins with its two header
    lines; all other lines are rows of trips of [gtfsTrips], and they
    stand in increasing order of trip identifier, so that the rows of
    one trip are together. *)
Theorem route_link_rows_sorted_by_trip :
  exists rows,
    outFile dump.1 = MetaHeader userName networkName :: ColumnNames :: rows /\
    Forall (fun row => exists tripID,
              row_route row = Some tripID /\ is_Some (gtfsTrips !! tripID)) rows /\
    StronglySorted Z.le (omap row_route rows).
Proof.
  refine (proj1 (dump_after_trips (fun st => exists rows,
    outFile st = MetaHeader userName networkName :: ColumnNames :: rows /\
    Forall (fun row => exists tripID,
              row_route row = Some tripID /\ is_Some (gtfsTrips !! tripID)) rows /\
    StronglySorted Z.le (omap row_route rows)) _ _)); [|done].
  unfold run_trips.
  apply wp_for with (Inv := fun seen _ st => exists rows,
    outFile st = MetaHeader userName networkName :: ColumnNames :: rows /\
    Forall (fun row => exists tripID,
              row_route row = Some tripID /\ is_Some (gtfsTrips !! tripID)) rows /\
    StronglySorted Z.le (omap row_route rows) /\
    forall x, x ∈ omap row_route rows -> x ∈ seen).
  - exists []. split; [done|]. split; [constructor|]. split; [constructor|].
    by intros x ?%elem_of_nil.
  - intros seen tripID rest [] st1 Hsplit (rows & Hout & Hall & Hsorted & Hseen).
    apply wp_bind.
    eapply wp_conseq; [apply process_trip_spec|].
    intros st2 r2 (_ & (rows' & Hout' & Hrows') & _).
    assert (forall row, row ∈ rows' -> row_route row = Some tripID) as Hroute.
    { destruct Hrows' as [->|(start & out & _ & Hat & _)];
        [by intros row ?%elem_of_nil|].
      intros row [i Hi]%list_elem_of_lookup. by destruct (Hat i row Hi). }
    assert (is_Some (gtfsTrips !! tripID)) as Htrip.
    { apply elem_of_sorted_keys. rewrite Hsplit. apply elem_of_app. right. by left. }
    assert (forall x, x ∈ seen -> x <= tripID) as Hle.
    { intros x Hx. pose proof (sorted_keys_le gtfsTrips) as Hs.
      rewrite Hsplit in Hs.
      apply (StronglySorted_app_1_elem_of _ _ _ x tripID Hs); [done|by left]. }
    assert (exists rows2,
              outFile st2 = MetaHeader userName networkName :: ColumnNames :: rows2 /\
              Forall (fun row => exists tripID,
                        row_route row = Some tripID /\
                        is_Some (gtfsTrips !! tripID)) rows2 /\
              StronglySorted Z.le (omap row_route rows2) /\
              forall x, x ∈ omap row_route rows2 -> x ∈ seen ++ [tripID])
      as Hinv.
    { exists (rows ++ rows'). split; [by rewrite Hout', Hout|]. split.
      { apply Forall_app. split; [done|]. apply Forall_forall.
        intros row Hrow. exists tripID. split; [by apply Hroute|done]. }
      rewrite omap_app, (omap_route_same tripID rows') by done. split.
      - apply StronglySorted_app_2; [|done|apply StronglySorted_replicate].
        intros x1 x2 Hx1 [-> _]%elem_of_replicate. by apply Hle, Hseen.
      - intros x [Hx|[-> _]%elem_of_replicate]%elem_of_app;
          apply elem_of_app; [left; by apply Hseen|right; by left]. }
    destruct r2 as [t|e]; [by apply wp_unit|].
    destruct Hinv as (rows2 & ? & ? & ? & _). by exists rows2.
  - intros [] st1 (rows & ? & ? & ? & _). by exists rows.
Qed.

Lemma stop_lines_ids (stopName : StopsEntry.t -> string)
    (gtfsStops : gmap Z StopsEntry.t) (stopLinkMap : gmap Z PointOnLink.t)
    (lines : list StopLine) :
  dumpBusStops stopName gtfsStops stopLinkMap userName networkName
    = (lines, Ok tt) ->
  forall stopID,
    (exists line, line ∈ lines /\ stop_line_id line = Some stopID) <->
    is_Some (stopLinkMap !! stopID).
Proof.
  intros Hrun stopID. unfold dumpBusStops in Hrun.
  destruct (stop_rows_spec stopName gtfsStops (map_to_list stopLinkMap)
              [StopHeader userName networkName; StopColumns])
    as (done & rest & rows & Hsplit & Hlines & Hrows & Hres).
  rewrite Hrun in Hlines, Hres. simpl in Hlines, Hres. subst rest lines.
  rewrite app_nil_r in Hsplit. subst done. split.
  - intros (line & Hline & Hid).
    apply elem_of_cons in Hline as [->|Hline]; [done|].
    apply elem_of_cons in Hline as [->|Hline]; [done|].
    apply list_elem_of_lookup in Hline as [i Hi].
    destruct (Forall2_lookup_r _ _ _ _ _ Hrows Hi)
      as ([k p] & Hk & stop & _ & ->).
    injection Hid as <-. exists p. apply elem_of_map_to_list.
    by eapply list_elem_of_lookup_2.
  - intros [p Hp]. apply elem_of_map_to_list in Hp.
    apply list_elem_of_lookup in Hp as [i Hi].
    destruct (Forall2_lookup_l _ _ _ _ _ Hrows Hi) as (row & Hrow & stop & _ & ->).
    exists (stop_row stopName stopID p stop). split; [|reflexivity].
    do 2 (apply elem_of_cons; right). by eapply list_elem_of_lookup_2.
Qed.

(** X20. When [dumpBusRouteLinks] returns and the stop table is then
    written in full from the map it returns, as [main] does, the stop
    table has a line for a stop exactly when a row of the route-link
    table names that stop. *)
Theorem stop_table_matches_route_links
    (stopName : StopsEntry.t -> string) (gtfsStops : gmap Z StopsEntry.t)
    (st : State) (stopLinkMap : gmap Z PointOnLink.t) (lines : list StopLine) :
  dump = (st, Ok stopLinkMap) ->
  dumpBusStops stopName gtfsStops stopLinkMap userName networkName
    = (lines, Ok tt) ->
  forall stopID,
    (exists line, line ∈ lines /\ stop_line_id line = Some stopID) <->
    (exists row, row ∈ outFile st /\ row_stop row = Some stopID).
Proof.
  intros Hdump Hstops stopID.
  rewrite (stop_lines_ids stopName gtfsStops stopLinkMap lines Hstops).
  destruct dump_stops_in_rows as [Hrows Hret].
  rewrite Hdump in Hrows, Hret. simpl in Hrows, Hret.
  rewrite (Hret stopLinkMap eq_refl). apply Hrows.
Qed.
End DumpProofs.

(** ** The command line *)

Lemma getitem_app_mid {A} (pre : list A) (x : A) (rest : list A) :
  getitem (pre ++ x :: rest) (len pre) = Ok x.
Proof.
  unfold len. rewrite getitem_nat.
  rewrite lookup_app_r by lia. by rewrite Nat.sub_diag.
Qed.

Lemma len_app {A} (l1 l2 : list A) : len (l1 ++ l2) = len l1 + len l2.
Proof. unfold len. rewrite length_app. lia. Qed.

Section ArgumentsProofs.
Variable strptime : string -> option Z.
Variable int_of_str : string -> option Z.

Local Abbreviation arg_loop' := (arg_loop strptime int_of_str).
Local Abbreviation opts_apply' := (opts_apply strptime int_of_str).

Lemma arg_loop_end (fuel : nat) (argv : list string) (o : Options.t) :
  arg_loop' fuel argv (len argv) o = Go o.
Proof.
  destruct fuel; simpl; by rewrite Z.ltb_irrefl.
Qed.

(** A word that is no flag, or a flag with a value that is the last
    word, is passed over. *)
Lemma arg_step_other (pre rest : list string) (a : string) (o : Options.t) :
  is_flag a = false \/ (a <> "-p" /\ rest = []) ->
  arg_step strptime int_of_str (pre ++ a :: rest) (len pre) o
  = Go (len pre + 1, o).
Proof.
  intros Ha. unfold arg_step. rewrite getitem_app_mid.
  rewrite len_app, len_cons.
  destruct Ha as [Ha|[Hp ->]].
  - unfold is_flag in Ha.
    apply orb_false_elim in Ha as [Ha Hp].
    apply orb_false_elim in Ha as [Ha Hc].
    apply orb_false_elim in Ha as [Ht He].
    by rewrite Ht, He, Hc, Hp.
  - change (len []) with 0.
    destruct (Z.ltb_spec (len pre) (len pre + (1 + 0) - 1)); [lia|].
    rewrite !andb_false_r.
    destruct (String.eqb_spec a "-p"); [done|done].
Qed.

Lemma getitem_app_next {A} (pre : list A) (x y : A) (rest : list A) :
  getitem (pre ++ x :: y :: rest) (len pre + 1) = Ok y.
Proof.
  change (pre ++ x :: y :: rest) with (pre ++ [x] ++ y :: rest).
  rewrite (app_assoc pre [x]).
  replace (len pre + 1) with (len (pre ++ [x])) by (by rewrite len_app).
  apply getitem_app_mid.
Qed.

(** One pass of the loop reads one option. *)
Lemma arg_step_opt (pre rest : list string) (x : Opt) (o : Options.t) :
  well_formed x ->
  arg_step strptime int_of_str (pre ++ opt_words x ++ rest) (len pre) o
  = match opt_apply strptime int_of_str o x with
    | Go o' => Go (len pre + len (opt_words x), o')
    | Stop s => Stop s
    end.
Proof.
  intros Hx.
  assert (forall (flag v : string),
            (len pre <? len (pre ++ flag :: v :: rest) - 1) = true) as Hlt.
  { intros flag v. rewrite len_app, !len_cons. apply Z.ltb_lt.
    unfold len. lia. }
  destruct x as [v|v|v| |a]; cbn [opt_words app opt_apply].
  - unfold arg_step. rewrite getitem_app_mid, Hlt, getitem_app_next.
    cbn [String.eqb Ascii.eqb Bool.eqb andb].
    destruct (strptime v); [|done]. do 2 f_equal. unfold len. simpl. lia.
  - unfold arg_step. rewrite getitem_app_mid, Hlt, getitem_app_next.
    cbn [String.eqb Ascii.eqb Bool.eqb andb].
    destruct (int_of_str v); [|done]. do 2 f_equal. unfold len. simpl. lia.
  - unfold arg_step. rewrite getitem_app_mid, Hlt, getitem_app_next.
    cbn [String.eqb Ascii.eqb Bool.eqb andb]. do 2 f_equal. unfold len. simpl. lia.
  - unfold arg_step. rewrite getitem_app_mid.
    cbn [String.eqb Ascii.eqb Bool.eqb andb]. done.
  - by rewrite arg_step_other by (by left).
Qed.

Lemma arg_loop_opts (opts : list Opt) :
  forall (pre tail : list string) (fuel : nat) (o : Options.t),
    Forall well_formed opts -> dangling tail ->
    (length (flat_map opt_words opts ++ tail) <= fuel)%nat ->
    arg_loop' fuel (pre ++ flat_map opt_words opts ++ tail) (len pre) o
    = opts_apply' opts o.
Proof.
  induction opts as [|x opts IH]; intros pre tail fuel o Hwf Htail Hfuel.
  - simpl in *. destruct Htail as [->|Htail].
    { rewrite app_nil_r. apply arg_loop_end. }
    assert (exists a, tail = [a] /\ a <> "-p") as (a & Heq & Ha).
    { destruct Htail as [-> | [-> | ->]]; by eexists. }
    subst tail.
    destruct fuel as [|fuel]; [simpl in Hfuel; lia|].
    cbn [arg_loop]. rewrite len_app.
    destruct (Z.ltb_spec (len pre) (len pre + len [a]));
      [|unfold len in *; simpl in *; lia].
    rewrite arg_step_other by (right; done).
    replace (len pre + 1) with (len (pre ++ [a])) by (rewrite len_app; done).
    apply arg_loop_end.
  - apply Forall_cons in Hwf as [Hx Hwf].
    cbn [flat_map] in *. rewrite <- app_assoc in *.
    assert (1 <= length (opt_words x))%nat as Hwords
      by (destruct x; simpl; lia).
    rewrite length_app in Hfuel.
    destruct fuel as [|fuel]; [lia|].
    cbn [arg_loop]. rewrite len_app.
    destruct (Z.ltb_spec (len pre)
                (len pre + len (opt_words x ++ flat_map opt_words opts ++ tail)));
      [|unfold len in *; rewrite length_app in *; lia].
    rewrite arg_step_opt by done. cbn [opts_apply].
    destruct (opt_apply strptime int_of_str o x) as [o'|s]; [|done].
    rewrite (app_assoc pre), <- len_app. apply IH; [done|done|lia].
Qed.

Lemma arg_loop_sound (fuel : nat) :
  forall (argv : list string) (i : Z) (o : Options.t),
    0 <= i -> len argv <= Z.of_nat fuel + i ->
    match arg_loop' fuel argv i o with
    | Go o' =>
        Options.refTime o' = Options.refTime o \/
        exists j v t,
          i <= j /\ argv !! Z.to_nat j = Some "-t" /\
          argv !! Z.to_nat (j + 1) = Some v /\
          strptime v = Some t /\ Options.refTime o' = Some t
    | Stop ValueError =>
        exists j v,
          i <= j /\ argv !! Z.to_nat (j + 1) = Some v /\
          ((argv !! Z.to_nat j = Some "-t" /\ strptime v = None) \/
           (argv !! Z.to_nat j = Some "-e" /\ int_of_str v = None))
    | Stop _ => False
    end.
Proof.
  induction fuel as [|fuel IH]; intros argv i o Hi Hfuel; cbn [arg_loop].
  - destruct (Z.ltb_spec i (len argv)); [lia|]. by left.
  - destruct (Z.ltb_spec i (len argv)) as [Hlt|]; [|by left].
    assert (forall i' o',
              i < i' ->
              (Options.refTime o' = Options.refTime o \/
               exists j v t,
                 i <= j /\ j < i' /\ argv !! Z.to_nat j = Some "-t" /\
                 argv !! Z.to_nat (j + 1) = Some v /\
                 strptime v = Some t /\ Options.refTime o' = Some t) ->
              match arg_loop' fuel argv i' o' with
              | Go o'' =>
                  Options.refTime o'' = Options.refTime o \/
                  exists j v t,
                    i <= j /\ argv !! Z.to_nat j = Some "-t" /\
                    argv !! Z.to_nat (j + 1) = Some v /\
                    strptime v = Some t /\ Options.refTime o'' = Some t
              | Stop ValueError =>
                  exists j v,
                    i <= j /\ argv !! Z.to_nat (j + 1) = Some v /\
                    ((argv !! Z.to_nat j = Some "-t" /\ strptime v = None) \/
                     (argv !! Z.to_nat j = Some "-e" /\ int_of_str v = None))
              | Stop _ => False
              end) as Hnext.
    { intros i' o' Hi' Ho'. specialize (IH argv i' o' ltac:(lia) ltac:(lia)).
      destruct (arg_loop' fuel argv i' o') as [o''|[]]; try done.
      - destruct IH as [Heq|(j & v & t & Hj & Hflag & Hv & Ht & Href)].
        + rewrite Heq. destruct Ho' as [?|(j & v & t & ? & ? & ?)]; [by left|].
          right. by exists j, v, t.
        + right. exists j, v, t. split; [lia|done].
      - destruct IH as (j & v & Hj & Hrest). exists j, v. split; [lia|done]. }
    unfold arg_step.
    destruct (getitem_ok argv i) as (a & Ha & ->); [lia|].
    destruct (String.eqb_spec a "-t") as [->|_]; cbn [andb].
    { destruct (Z.ltb_spec i (len argv - 1)) as [Hlt1|].
      - destruct (getitem_ok argv (i + 1)) as (v & Hv & ->); [lia|].
        destruct (strptime v) as [t|] eqn:Ht;
          [|exists i, v; split; [lia|]; split; [done|]; by left].
        apply Hnext; [lia|]. right. exists i, v, t. cbn. by repeat split; try lia.
      - cbn [String.eqb Ascii.eqb Bool.eqb andb].
        apply Hnext; [lia|by left]. }
    destruct (String.eqb_spec a "-e") as [->|_]; cbn [andb].
    { destruct (Z.ltb_spec i (len argv - 1)) as [Hlt1|].
      - destruct (getitem_ok argv (i + 1)) as (v & Hv & ->); [lia|].
        destruct (int_of_str v) as [n|] eqn:Hn;
          [|exists i, v; split; [lia|]; split; [done|]; by right].
        apply Hnext; [lia|by left].
      - cbn [String.eqb Ascii.eqb Bool.eqb andb].
        apply Hnext; [lia|by left]. }
    destruct (String.eqb_spec a "-c") as [->|_]; cbn [andb].
    { destruct (Z.ltb_spec i (len argv - 1)) as [Hlt1|].
      - destruct (getitem_ok argv (i + 1)) as (v & Hv & ->); [lia|].
        apply Hnext; [lia|by left].
      - cbn [String.eqb Ascii.eqb Bool.eqb andb].
        apply Hnext; [lia|by left]. }
    destruct (String.eqb a "-p"); apply Hnext; try lia; by left.
Qed.
End ArgumentsProofs.

(** X22. The words of the command line after the six positional arguments
    are read from left to right as options: [-t], [-e] and [-c] take the
    next word as their value, whatever it is, [-p] takes none, any other
    word is passed over, and so is a [-t], [-e] or [-c] that is the last
    word.  A later [-t] or [-e] replaces an earlier one, the values of
    [-c] are collected, a malformed value of [-t] or [-e] stops [main]
    with [ValueError].  When no [-t] was read, [main] ends at line 470
    with the [TypeError] of [syntax(1)]. *)
Theorem options_read_in_order
    (strptime int_of_str : string -> option Z)
    (positional : list string) (opts : list Opt) (tail : list string) :
  length positional = 7%nat ->
  Forall well_formed opts ->
  dangling tail ->
  main_start strptime int_of_str (positional ++ flat_map opt_words opts ++ tail)
  = match opts_apply strptime int_of_str opts default_options with
    | Stop s => Stop s
    | Go o =>
        match Options.refTime o with
        | None => Stop TypeError
        | Some _ => Go o
        end
    end.
Proof.
  intros Hpos Hwf Htail. unfold main_start.
  assert (len positional = 7) as Hlen by (unfold len; lia).
  rewrite len_app, Hlen.
  destruct (Z.ltb_spec (7 + len (flat_map opt_words opts ++ tail)) 7);
    [unfold len in *; lia|].
  destruct (Z.ltb_spec 6 (7 + len (flat_map opt_words opts ++ tail)));
    [|unfold len in *; lia].
  rewrite <- Hlen.
  rewrite (arg_loop_opts strptime int_of_str opts positional tail); [done..|].
  rewrite !length_app. lia.
Qed.

Lemma options_read_in_order_witness :
  length DemoArgs.positional = 7%nat /\
  Forall well_formed DemoArgs.opts /\
  dangling ["-c"] /\
  main_start DemoArgs.strptime DemoArgs.int_of_str
    (DemoArgs.positional ++ flat_map opt_words DemoArgs.opts ++ ["-c"])
  = match opts_apply DemoArgs.strptime DemoArgs.int_of_str DemoArgs.opts
            default_options with
    | Stop s => Stop s
    | Go o =>
        match Options.refTime o with
        | None => Stop TypeError
        | Some _ => Go o
        end
    end /\
  opts_apply DemoArgs.strptime DemoArgs.int_of_str DemoArgs.opts default_options
  = Go (Options.mk (Some 28800) 90000 ({["weekday"]} ∪ ∅) true).
Proof.
  split; [reflexivity|]. split; [by repeat constructor|].
  split; [right; right; right; reflexivity|].
  split; [|reflexivity].
  apply (options_read_in_order DemoArgs.strptime DemoArgs.int_of_str
           DemoArgs.positional DemoArgs.opts ["-c"]).
  - reflexivity.
  - by repeat constructor.
  - right; right; right; reflexivity.
Defined.

(** X23. How [main] can end before it reads its input (lines 438-470).
    It goes on only when the command line has, after the six positional
    arguments, a [-t] followed by a value that [strptime] accepts, and the
    reference time is then the value of such a [-t].  With fewer than six
    arguments it prints the usage text and exits with status 0.  With six
    arguments or more it can end in two other ways: with the [ValueError]
    of a [-t] whose value [strptime] rejects or of an [-e] whose value
    [int] rejects, the flag being a word after the positional arguments
    and having a next word; or with the [TypeError] of [syntax(1)] at
    line 470, not with the exit status of [syntax].  No access to [argv]
    is out of range and the loop over the options ends. *)
Theorem main_start_outcomes
    (strptime int_of_str : string -> option Z) (argv : list string) :
  match main_start strptime int_of_str argv with
  | Go o =>
      9 <= len argv /\
      exists i v t,
        7 <= i /\ argv !! Z.to_nat i = Some "-t" /\
        argv !! Z.to_nat (i + 1) = Some v /\
        strptime v = Some t /\ Options.refTime o = Some t
  | Stop Exit0 => len argv < 7
  | Stop ValueError =>
      9 <= len argv /\
      exists i v,
        7 <= i /\ argv !! Z.to_nat (i + 1) = Some v /\
        ((argv !! Z.to_nat i = Some "-t" /\ strptime v = None) \/
         (argv !! Z.to_nat i = Some "-e" /\ int_of_str v = None))
  | Stop TypeError => 7 <= len argv
  | Stop (Uncaught _) => False
  end.
Proof.
  unfold main_start.
  destruct (Z.ltb_spec (len argv) 7) as [|Hlen]; [done|].
  destruct (Z.ltb_spec 6 (len argv)); [|lia].
  assert (len argv <= Z.of_nat (length argv) + 7) as Hfuel by (unfold len; lia).
  pose proof (arg_loop_sound strptime int_of_str (length argv) argv 7
                default_options ltac:(lia) Hfuel) as Hsound.
  destruct (arg_loop _ _ _ _ _ _) as [o|[]]; try done.
  - destruct (Options.refTime o) as [t'|] eqn:Href; [|done].
    destruct Hsound as [Heq|(j & v & t & Hj & Hflag & Hv & Ht & Href')]; [done|].
    split.
    + apply lookup_lt_Some in Hv. unfold len. lia.
    + exists j, v, t. do 4 (split; [done|]). congruence.
  - destruct Hsound as (j & v & Hj & Hv & Hrest). split.
    + apply lookup_lt_Some in Hv. unfold len. lia.
    + by exists j, v.
Qed.

(** A [-t] without a usable value, followed by [-p]: the loop reads [-p]
    as the value of [-t] and [main] ends with [ValueError], before it
    reaches line 470. *)
Lemma flag_read_as_value :
  main_start DemoArgs.strptime DemoArgs.int_of_str
    (DemoArgs.positional ++ ["-t"; "-p"]) = Stop ValueError.
Proof. reflexivity. Qed.

(** ** The walk and the scan, again *)

(** X12. The walk over the output links fails in one way only: with
    [KeyError], when a result entry carries a sequence number that
    [gtfsStopsLookup] does not have; [bestTreeEntry] is never [None]
    where its fields are read.  A walk that does not fail has numbered
    one row for every output link, its cursor is within the result tree,
    and every sequence number of its found-set is that of a result entry
    on one of the output links. *)
Theorem walk_fails_only_on_unknown_stop
    (tripID : Z) (resultTree : list PathEnd.t)
    (gtfsStopsLookup : gmap Z StopTimesEntry.t)
    (outLinkIDList : list Z) (longestStart : Z) (st : State) :
  match (walk_links tripID resultTree gtfsStopsLookup outLinkIDList
           longestStart st).2 with
  | Ok w =>
      0 <= Walk.resultIndex w <= len resultTree /\
      Walk.outSeqCtr w = longestStart + len outLinkIDList /\
      forall q, q ∈ Walk.foundStopSet w ->
        exists e linkID, e ∈ resultTree /\ shapeSeq_of e = q /\
          link_id_of e = linkID /\ linkID ∈ outLinkIDList
  | Raise e =>
      e = KeyError /\
      exists e', e' ∈ resultTree /\ gtfsStopsLookup !! shapeSeq_of e' = None
  end.
Proof.
  exact (proj2 (walk_links_writes tripID resultTree gtfsStopsLookup
                  outLinkIDList longestStart st)).
Qed.

(** X11. When the result entry at the cursor lies on the link that is
    scanned, the scan consumes the entries on that link that begin at the
    cursor and no other: it counts them, marks their sequence numbers as
    found, moves the cursor just past them, and keeps the first of them
    that has the least reference distance. *)
Theorem scan_at_cursor
    (resultTree : list PathEnd.t) (linkID resultIndex : Z)
    (foundStopSet : gset Z) (c : PathEnd.t) :
  0 <= resultIndex ->
  resultTree !! Z.to_nat resultIndex = Some c ->
  on_link linkID c = true ->
  let block :=
    take_while (on_link linkID) (drop (Z.to_nat resultIndex) resultTree) in
  exists s kept,
    scan_link resultTree linkID resultIndex foundStopSet = Ok s /\
    Scan.matchCtr s = len block /\
    Scan.resultIndex s = resultIndex + len block /\
    Scan.foundStopSet s = seqs_of block ∪ foundStopSet /\
    Scan.bestTreeEntry s = Some kept /\
    first_nearest kept block.
Proof.
  intros Hr Hc Hon block. unfold scan_link.
  destruct (scan_loop_skip resultTree linkID (length resultTree)
              (Z.to_nat resultIndex) resultIndex foundStopSet)
    as (s & Hs & Hm & Hfound & Hri & _ & Hbest); [lia|lia|].
  rewrite Z2Nat.id in Hs, Hri by lia.
  cbv zeta in Hm, Hfound, Hri, Hbest.
  assert (take_while (off_link linkID) (drop (Z.to_nat resultIndex) resultTree)
          = []) as Hskip.
  { rewrite (drop_S _ _ _ Hc). cbn [take_while]. unfold off_link.
    by rewrite Hon. }
  rewrite Hskip in Hm, Hfound, Hri, Hbest. cbn [length drop] in *.
  assert (exists others, block = c :: others) as [others Hblock].
  { unfold block. rewrite (drop_S _ _ _ Hc). cbn [take_while]. rewrite Hon.
    by eexists. }
  unfold block in Hblock.
  rewrite drop_0, Hblock in Hm, Hfound, Hri, Hbest.
  destruct Hbest as (c' & Hc' & Hkept).
  assert (c' = c) as -> by congruence.
  subst block. rewrite Hblock.
  exists s, (foldl nearer c others). split; [done|]. split; [done|].
  split; [rewrite Hri; unfold len; simpl; lia|].
  split; [done|]. split; [done|].
  apply foldl_nearer_first.
Qed.

Lemma scan_at_cursor_witness :
  exists s kept,
    0 <= 1 /\
    Demo.second_pass !! Z.to_nat 1 = Some (Demo.matched 2 Demo.L20 3) /\
    on_link 20 (Demo.matched 2 Demo.L20 3) = true /\
    scan_link Demo.second_pass 20 1 ∅ = Ok s /\
    Scan.matchCtr s = len (drop 1 Demo.second_pass) /\
    Scan.resultIndex s = 1 + len (drop 1 Demo.second_pass) /\
    Scan.foundStopSet s = seqs_of (drop 1 Demo.second_pass) ∪ ∅ /\
    Scan.bestTreeEntry s = Some kept /\
    first_nearest kept (drop 1 Demo.second_pass).
Proof.
  destruct (scan_at_cursor Demo.second_pass 20 1 ∅ (Demo.matched 2 Demo.L20 3))
    as (s & kept & H); [lia|reflexivity|reflexivity|].
  exists s, kept. split; [lia|]. split; [reflexivity|]. split; [reflexivity|].
  exact H.
Defined.

(** X9. Lines 300-301 take the first and the last entry off what the
    search returns; when the search returns fewer than two entries the
    trip fails there with [IndexError]. *)
Theorem dummy_ends_stripped (found : list PathEnd.t) :
  match rbind (del_last found) del_first with
  | Ok resultTree => exists a z, found = a :: resultTree ++ [z]
  | Raise e => e = IndexError /\ (length found < 2)%nat
  end.
Proof.
  destruct (del_last found) as [stripped|e] eqn:H1; simpl.
  - destruct (del_first stripped) as [resultTree|e] eqn:H2.
    + by eapply del_ends.
    + destruct stripped; [|done]. injection H2 as <-. split; [done|].
      destruct found as [|a [|b found]]; simpl; [lia|lia|].
      exfalso. unfold del_last in H1. injection H1 as H1.
      by destruct found.
  - destruct found; [|done]. injection H1 as <-. split; [done|]. simpl. lia.
Qed.

(** ** The nodes of the problem report *)

Lemma revise_route_info (vistaNetwork : GraphLib.t) (links : list GraphLink.t) :
  forall acc routeInfo,
    for_R (fun acc link =>
             rbind (getkey (GraphLib.linkMap vistaNetwork) (GraphLink.id link))
               (fun l => Ok (acc ++ [l]))) links acc = Ok routeInfo ->
    exists new, routeInfo = acc ++ new /\
      Forall2 (fun l l' => GraphLib.linkMap vistaNetwork !! GraphLink.id l = Some l')
        links new.
Proof.
  induction links as [|y links IH]; intros acc routeInfo; simpl.
  - intros [= <-]. exists []. by rewrite app_nil_r.
  - unfold getkey at 1.
    destruct (GraphLib.linkMap vistaNetwork !! GraphLink.id y) as [l|] eqn:Hl;
      [simpl|done].
    intros (new & -> & Hall)%IH. exists (l :: new).
    rewrite <- app_assoc. split; [done|]. by constructor.
Qed.

Lemma revise_spec (vistaNetwork : GraphLib.t) (shapeID : Z)
    (resultTree : list PathEnd.t) :
  forall acc revised,
    for_R (revise_node vistaNetwork shapeID) resultTree acc = Ok revised ->
    (forall q n, revised !! q = Some n ->
       acc !! q = Some n \/
       exists e, e ∈ resultTree /\ shapeSeq_of e = q /\
         rebuilt_on vistaNetwork shapeID e n) /\
    (forall e, e ∈ resultTree -> is_Some (revised !! shapeSeq_of e)) /\
    (forall q, is_Some (acc !! q) -> is_Some (revised !! q)).
Proof.
  induction resultTree as [|x l IH]; intros acc revised; simpl.
  - intros [= <-]. split; [by left|]. split; [|done].
    by intros e ?%elem_of_nil.
  - unfold revise_node at 1, getkey at 1.
    destruct (GraphLib.linkMap vistaNetwork !! link_id_of x) as [origLink|] eqn:Ho;
      [simpl|done].
    destruct (for_R _ (PathEnd.routeInfo x) []) as [routeInfo|] eqn:Hri;
      [simpl|done].
    apply revise_route_info in Hri as (new & -> & Hinfo). simpl.
    intros (Hfrom & Hall & Hkeep)%IH. split; [|split].
    + intros q n Hn. destruct (Hfrom q n Hn) as [Hacc|(e & He & Hq & Hre)].
      * destruct (decide (q = shapeSeq_of x)) as [->|Hne].
        { rewrite lookup_insert_eq in Hacc. injection Hacc as <-.
          right. exists x. split; [by left|]. split; [done|].
          by exists origLink, new. }
        rewrite lookup_insert_ne in Hacc by done. by left.
      * right. exists e. split; [by right|done].
    + intros e [->|He]%elem_of_cons; [|by apply Hall].
      apply Hkeep. by rewrite lookup_insert_eq.
    + intros q Hq. apply Hkeep.
      destruct (decide (q = shapeSeq_of x)) as [->|Hne];
        [by rewrite lookup_insert_eq|by rewrite lookup_insert_ne].
Qed.

(** X10. With the problem report on, the nodes filed for the shape of a
    trip before its walk are the result entries rebuilt over the
    network: there is a node under a sequence number exactly when a
    result entry carries that number, and the node is that of such an
    entry, on the link of the network with the identifier of the link of
    the entry, with the shape identifier of the trip, and not flagged
    [restart]. *)
Theorem report_nodes_rebuilt_on_network
    (vistaNetwork : GraphLib.t) (shapeID : Z) (resultTree : list PathEnd.t)
    (revisedNodeList : gmap Z ReportNode.t) :
  for_R (revise_node vistaNetwork shapeID) resultTree ∅ = Ok revisedNodeList ->
  (forall q, is_Some (revisedNodeList !! q) <->
             exists e, e ∈ resultTree /\ shapeSeq_of e = q) /\
  (forall q n, revisedNodeList !! q = Some n ->
     ReportNode.restart n = false /\
     ShapesEntry.shapeID (ReportNode.shapeEntry n) = shapeID /\
     ShapesEntry.shapeSeq (ReportNode.shapeEntry n) = q /\
     exists e, e ∈ resultTree /\ shapeSeq_of e = q /\
       rebuilt_on vistaNetwork shapeID e n).
Proof.
  intros (Hfrom & Hall & _)%revise_spec.
  assert (forall q n, revisedNodeList !! q = Some n ->
            exists e, e ∈ resultTree /\ shapeSeq_of e = q /\
              rebuilt_on vistaNetwork shapeID e n) as Hfrom'.
  { intros q n Hn. by destruct (Hfrom q n Hn) as [?|?]. }
  split.
  - intros q. split.
    + intros [n Hn]. destruct (Hfrom' q n Hn) as (e & He & Hq & _). by exists e.
    + intros (e & He & <-). by apply Hall.
  - intros q n Hn. destruct (Hfrom' q n Hn) as (e & He & Hq & Hre).
    pose proof Hre as (origLink & routeInfo & _ & _ & ->). simpl.
    do 3 (split; [done|]). by exists e.
Qed.

Lemma report_nodes_rebuilt_on_network_witness :
  exists revisedNodeList,
    for_R (revise_node Demo.vistaNetwork 100) DemoY.resultTree1 ∅
      = Ok revisedNodeList /\
    (forall q, is_Some (revisedNodeList !! q) <->
               exists e, e ∈ DemoY.resultTree1 /\ shapeSeq_of e = q) /\
    (forall q n, revisedNodeList !! q = Some n ->
       ReportNode.restart n = false /\
       ShapesEntry.shapeID (ReportNode.shapeEntry n) = 100 /\
       ShapesEntry.shapeSeq (ReportNode.shapeEntry n) = q /\
       exists e, e ∈ DemoY.resultTree1 /\ shapeSeq_of e = q /\
         rebuilt_on Demo.vistaNetwork 100 e n).
Proof.
  eexists. split; [vm_compute; reflexivity|].
  apply (report_nodes_rebuilt_on_network Demo.vistaNetwork 100 DemoY.resultTree1).
  vm_compute. reflexivity.
Defined.

Section ReportAdds.
Variable problemReport : bool.
Variable tripID shapeID : Z.
Variable foundStopSet : gset Z.
Variable nodes0 : gmap Z ReportNode.t.

Local Abbreviation adds := (report_adds problemReport shapeID foundStopSet).

Lemma report_adds_seen (seen : list StopTimesEntry.t) (s : StopTimesEntry.t)
    (nodes : gmap Z ReportNode.t) :
  adds seen nodes0 nodes -> adds (seen ++ [s]) nodes0 nodes.
Proof.
  intros [Hkeep Hnew]. split; [done|]. intros q n Hn.
  destruct (Hnew q n Hn) as [?|(? & ? & ? & s' & ? & ?)]; [by left|].
  right. do 3 (split; [done|]). exists s'. split; [|done].
  apply elem_of_app. by left.
Qed.

Lemma report_stop_adds (seen : list StopTimesEntry.t) (s : StopTimesEntry.t)
    (st : State) (nodes : gmap Z ReportNode.t) :
  problemReportNodes st !! shapeID = Some nodes ->
  adds seen nodes0 nodes ->
  wp (report_stop problemReport tripID shapeID foundStopSet tt s) st
    (fun st' r =>
       r = Ok tt /\
       (exists nodes', problemReportNodes st' !! shapeID = Some nodes' /\
          adds (seen ++ [s]) nodes0 nodes') /\
       (forall other, other <> shapeID ->
          problemReportNodes st' !! other = problemReportNodes st !! other) /\
       (problemReport = false -> problemReportNodes st' = problemReportNodes st)).
Proof.
  intros Hnodes Hadds. unfold report_stop.
  assert (exists nodes', problemReportNodes st !! shapeID = Some nodes' /\
            adds (seen ++ [s]) nodes0 nodes') as Hsame
    by (exists nodes; split; [done|by apply report_adds_seen]).
  destruct (bool_decide_reflect (StopTimesEntry.stopSeq s ∈ foundStopSet))
    as [Hin|Hnotin]; [by apply wp_unit|].
  apply wp_bind, wp_log. destruct problemReport eqn:Hpr; [|by apply wp_unit].
  apply wp_bind, wp_get_problemReportNodes, wp_bind, wp_lift.
  cbn [problemReportNodes]. unfold getkey. rewrite Hnodes.
  destruct (nodes !! StopTimesEntry.stopSeq s) as [n|] eqn:Hn;
    [by apply wp_unit|].
  apply wp_set_problemReportNodes. cbn [problemReportNodes].
  split; [done|]. split; [|split; [|done]].
  - eexists. split; [by rewrite lookup_insert_eq|].
    destruct Hadds as [Hkeep Hnew]. split.
    + intros q n Hq. specialize (Hkeep q n Hq).
      destruct (decide (q = StopTimesEntry.stopSeq s)) as [->|Hne];
        [congruence|by rewrite lookup_insert_ne].
    + intros q n. destruct (decide (q = StopTimesEntry.stopSeq s)) as [->|Hne].
      * rewrite lookup_insert_eq. intros [= <-]. right.
        split; [done|]. split; [by eexists _, _, _, _|]. split; [done|].
        exists s. split; [|done]. apply elem_of_app. right. by left.
      * rewrite lookup_insert_ne by done. intros Hq.
        destruct (Hnew q n Hq) as [?|(? & ? & ? & s' & ? & ?)]; [by left|].
        right. do 3 (split; [done|]). exists s'. split; [|done].
        apply elem_of_app. by left.
  - intros other Hne. by rewrite lookup_insert_ne.
Qed.

Lemma report_unmatched_adds (stopTimes : list StopTimesEntry.t) (st : State) :
  problemReportNodes st !! shapeID = Some nodes0 ->
  wp (report_unmatched problemReport tripID shapeID foundStopSet stopTimes) st
    (fun st' r =>
       r = Ok tt /\
       (exists nodes, problemReportNodes st' !! shapeID = Some nodes /\
          adds stopTimes nodes0 nodes) /\
       (forall other, other <> shapeID ->
          problemReportNodes st' !! other = problemReportNodes st !! other) /\
       (problemReport = false -> problemReportNodes st' = problemReportNodes st)).
Proof.
  intros Hnodes. unfold report_unmatched.
  apply wp_for with (Inv := fun seen _ st' =>
    (exists nodes, problemReportNodes st' !! shapeID = Some nodes /\
       adds seen nodes0 nodes) /\
    (forall other, other <> shapeID ->
       problemReportNodes st' !! other = problemReportNodes st !! other) /\
    (problemReport = false -> problemReportNodes st' = problemReportNodes st)).
  - split; [|done]. exists nodes0. split; [done|]. split; [done|]. by left.
  - intros seen s rest [] st1 _ ((nodes & Hn & Hadds) & Hother & Hoff).
    eapply wp_conseq; [by apply (report_stop_adds seen s st1 nodes)|].
    intros st2 r (-> & Hadds2 & Hother2 & Hoff2). split; [done|]. split.
    + intros other Hne. rewrite Hother2 by done. by apply Hother.
    + intros Hpr. rewrite Hoff2 by done. by apply Hoff.
  - intros [] st1 (Hadds & Hother & Hoff). done.
Qed.
End ReportAdds.

(** X14. The report of the unmatched stops of a trip does not fail and
    changes the nodes of no other shape.  It keeps every node that the
    shape of the trip has: a new node is filed only under a sequence
    number that has none, and it is the dummy (no link, flagged
    [restart]) of a stop time whose number the walk has not found.
    Without the problem report no node is filed at all. *)
Theorem unmatched_report_keeps_nodes
    (problemReport : bool) (tripID shapeID : Z) (foundStopSet : gset Z)
    (stopTimes : list StopTimesEntry.t) (nodes0 : gmap Z ReportNode.t)
    (st st' : State) (r : Result unit) :
  problemReportNodes st !! shapeID = Some nodes0 ->
  report_unmatched problemReport tripID shapeID foundStopSet stopTimes st
    = (st', r) ->
  r = Ok tt /\
  (exists nodes,
     problemReportNodes st' !! shapeID = Some nodes /\
     (forall q n, nodes0 !! q = Some n -> nodes !! q = Some n) /\
     (forall q n, nodes !! q = Some n ->
        nodes0 !! q = Some n \/
        (problemReport = true /\ is_dummy shapeID q n /\ (q ∉ foundStopSet) /\
         exists s, s ∈ stopTimes /\ StopTimesEntry.stopSeq s = q))) /\
  (forall other, other <> shapeID ->
     problemReportNodes st' !! other = problemReportNodes st !! other) /\
  (problemReport = false -> problemReportNodes st' = problemReportNodes st).
Proof.
  intros Hnodes Hrun.
  exact (wp_run _ _ _ _ _
           (report_unmatched_adds problemReport tripID shapeID foundStopSet
              nodes0 stopTimes st Hnodes) Hrun).
Qed.

(** ** The further theorems on the example trips *)

Lemma rows_name_scheduled_stops_witness :
  exists st' r,
    Demo.process false 1 initial_state = (st', r) /\
    exists rows, outFile st' = outFile initial_state ++ rows /\
      (forall row stopID, row ∈ rows -> row_stop row = Some stopID ->
         is_Some (ret st' !! stopID) /\
         exists trip stopTimes stopTime,
           Demo.gtfsTrips !! 1 = Some trip /\
           Demo.gtfsStopTimes !! TripsEntry.tripID trip = Some stopTimes /\
           stopTime ∈ stopTimes /\ stopID_of stopTime = stopID) /\
      (forall stopID p, ret st' !! stopID = Some p ->
         ret initial_state !! stopID = Some p \/
         exists row, row ∈ rows /\ row_stop row = Some stopID) /\
      (forall stopID, is_Some (ret initial_state !! stopID) ->
         is_Some (ret st' !! stopID)).
Proof.
  eexists _, _. split; [vm_compute; reflexivity|].
  eapply (rows_name_scheduled_stops false Demo.gtfsTrips Demo.gtfsNodes
           Demo.gtfsStopTimes Demo.vistaNetwork Demo.constructPath 1
           initial_state).
  vm_compute. reflexivity.
Defined.

Lemma trip_exceptions_witness :
  exists st',
    process_trip false Demo.gtfsTrips DemoY.gtfsNodes_turnaround
      Demo.gtfsStopTimes Demo.vistaNetwork Demo.constructPath 3 initial_state
      = (st', Raise UnboundLocalError) /\
    (UnboundLocalError = KeyError \/ UnboundLocalError = IndexError \/
     UnboundLocalError = UnboundLocalError \/
     exists gtfsShapes vistaSubset,
       Demo.constructPath gtfsShapes vistaSubset = Raise UnboundLocalError).
Proof.
  eexists. split; [vm_compute; reflexivity|].
  eapply (trip_exceptions false Demo.gtfsTrips DemoY.gtfsNodes_turnaround
           Demo.gtfsStopTimes Demo.vistaNetwork Demo.constructPath 3
           initial_state).
  vm_compute. reflexivity.
Defined.

Lemma trip_without_run_warned_witness :
  Demo.gtfsTrips !! 3 = Some (TripsEntry.mk 3 [ShapesEntry.mk 300 0 0 0]) /\
  DemoX.gtfsNodes_single !! 300 = Some Demo.single_position /\
  (forall a b, is_run Demo.single_position a b ->
     (span Demo.single_position a b <= float_info_min)%Q) /\
  process_trip true Demo.gtfsTrips DemoX.gtfsNodes_single Demo.gtfsStopTimes
    Demo.vistaNetwork Demo.constructPath 3 initial_state
  = (mkState ∅ ∅ [] ([] ++ [InfoRoute 3; WarnNoLinks 3]) None, Ok None).
Proof.
  assert (forall a b, is_run Demo.single_position a b ->
            (span Demo.single_position a b <= float_info_min)%Q) as Hruns.
  { intros a b (Hab & Hlen & _). unfold len in Hlen. simpl in Hlen.
    assert (a = 0) as -> by lia. assert (b = 1) as -> by lia.
    vm_compute. discriminate. }
  split; [reflexivity|]. split; [reflexivity|]. split; [exact Hruns|].
  apply (trip_without_run_warned true Demo.gtfsTrips DemoX.gtfsNodes_single
           Demo.gtfsStopTimes Demo.vistaNetwork Demo.constructPath 3
           (TripsEntry.mk 3 [ShapesEntry.mk 300 0 0 0]) (ShapesEntry.mk 300 0 0 0)
           Demo.single_position initial_state);
    [reflexivity|reflexivity|reflexivity|exact Hruns].
Defined.

Lemma unmatched_report_keeps_nodes_witness :
  exists st' r,
    problemReportNodes DemoZ.reported !! 100
      = Some (<[1 := ReportNode.Matched (Demo.matched 1 Demo.L10 4)]> ∅) /\
    report_unmatched true 1 100 {[2]} DemoZ.stopTimes1 DemoZ.reported = (st', r) /\
    r = Ok tt /\
    (exists nodes,
       problemReportNodes st' !! 100 = Some nodes /\
       (forall q n,
          (<[1 := ReportNode.Matched (Demo.matched 1 Demo.L10 4)]> ∅ :
             gmap Z ReportNode.t) !! q = Some n ->
          nodes !! q = Some n) /\
       (forall q n, nodes !! q = Some n ->
          (<[1 := ReportNode.Matched (Demo.matched 1 Demo.L10 4)]> ∅ :
             gmap Z ReportNode.t) !! q = Some n \/
          (true = true /\ is_dummy 100 q n /\ (q ∉ ({[2]} : gset Z)) /\
           exists s, s ∈ DemoZ.stopTimes1 /\ StopTimesEntry.stopSeq s = q))) /\
    (forall other, other <> 100 ->
       problemReportNodes st' !! other = problemReportNodes DemoZ.reported !! other) /\
    (true = false -> problemReportNodes st' = problemReportNodes DemoZ.reported).
Proof.
  eexists _, _. split; [reflexivity|]. split; [vm_compute; reflexivity|].
  eapply (unmatched_report_keeps_nodes true 1 100 {[2]} DemoZ.stopTimes1
           (<[1 := ReportNode.Matched (Demo.matched 1 Demo.L10 4)]> ∅)
           DemoZ.reported).
  - reflexivity.
  - vm_compute. reflexivity.
Defined.

Lemma stop_table_matches_route_links_witness :
  exists st stopLinkMap lines,
    dumpBusRouteLinks false Demo.gtfsTrips Demo.gtfsNodes Demo.gtfsStopTimes
      Demo.vistaNetwork Demo.constructPath "user" "network"
      = (st, Ok stopLinkMap) /\
    dumpBusStops DemoY.stopName DemoY.gtfsStops stopLinkMap "user" "network"
      = (lines, Ok tt) /\
    forall stopID,
      (exists line, line ∈ lines /\ stop_line_id line = Some stopID) <->
      (exists row, row ∈ outFile st /\ row_stop row = Some stopID).
Proof.
  eexists _, _, _. split; [vm_compute; reflexivity|].
  split; [vm_compute; reflexivity|].
  eapply (stop_table_matches_route_links false Demo.gtfsTrips Demo.gtfsNodes
           Demo.gtfsStopTimes Demo.vistaNetwork Demo.constructPath
           "user" "network" DemoY.stopName DemoY.gtfsStops).
  - vm_compute. reflexivity.
  - vm_compute. reflexivity.
Defined.

Lemma route_link_rows_numbered_witness :
  exists st' t,
    process_trip false DemoTrim.gtfsTrips DemoTrim.gtfsNodes
      DemoTrim.gtfsStopTimes Demo.vistaNetwork DemoTrim.constructPath 5
      initial_state = (st', Ok (Some t)) /\
    Trip.longestStart t = 2 /\
    outFile st' = [RowStop 5 2 12 801 0; RowStop 5 3 13 802 0] /\
    exists rows, outFile st' = outFile initial_state ++ rows /\
      trip_plan DemoTrim.gtfsTrips DemoTrim.gtfsNodes Demo.vistaNetwork 5
        (Trip.longestStart t) (Trip.outLinkIDList t) /\
      length rows = length (Trip.outLinkIDList t) /\
      forall i row, rows !! i = Some row ->
        row_route row = Some 5 /\
        row_sequence row = Some (Trip.longestStart t + Z.of_nat i) /\
        row_link row = Trip.outLinkIDList t !! i.
Proof.
  eexists _, _. split; [vm_compute; reflexivity|].
  split; [reflexivity|]. split; [reflexivity|].
  eapply (route_link_rows_numbered false DemoTrim.gtfsTrips DemoTrim.gtfsNodes
            DemoTrim.gtfsStopTimes Demo.vistaNetwork DemoTrim.constructPath 5
            initial_state _ (Ok (Some _))).
  vm_compute. reflexivity.
Defined.
